(** * viur-shop: shipping resolution and the order checkout state machine

    A shallow embedding of [viur/shop/modules/shipping.py] and
    [viur/shop/modules/order.py].

    - Skeletons are records, a relational bone's value is a [Relation], a
      bone that may hold [None] is an [option].
    - The datastore and the request context are one record, [World]; a call
      that may write takes a world and returns its outcome with the world it
      leaves ([M]), a call that only reads returns an [Outcome].
    - A Python exception is an outcome of its own ([Raise]).
    - The [while] loop over the cart tree runs on fuel; [OutOfFuel] is the
      outcome of a walk that was cut short.
    - Amounts and costs are integers ([Z]); the time is the text
      [str(time.time())] gives ([clock]).
    - Where the code hands a value to Python or to viur-core, the answer is
      theirs: a string subscripted by a string and [None] iterated raise
      [TypeError], [db.keyHelper] refuses [None] with [NotImplementedError],
      [setBoneValue] refuses a value that is no key with [ValueError], and
      an [Enum] names the [repr] of a value it does not know.
    - Log calls ([logger.debug], [logger.error], [logging.error]) write
      nothing that the code reads back and are left out. *)

From stdpp Require Import gmap strings list.
From Stdlib Require Import ZArith Ascii Lia.

Open Scope string_scope.
Open Scope list_scope.
Open Scope Z_scope.

(** ** Python values and outcomes *)

(** [db.Key] is opaque to the shop; any countable type serves. *)
Abbreviation Key := positive.

Inductive Exception : Type :=
| TypeError (msg : string)
| ValueError (msg : string)
| LookupError (msg : string)
| AssertionError
| NotImplementedError (msg : string)
| NotFound (descr : option string)
| InvalidArgumentException (argument : string) (descr_appendix : string).

(** What a call does: return a value, raise, or (for the cart walk only)
    still be running when the fuel is used up. *)
Inductive Outcome (A : Type) : Type :=
| Return (a : A)
| Raise (e : Exception)
| OutOfFuel.
Arguments Return {A} a.
Arguments Raise {A} e.
Arguments OutOfFuel {A}.

#[global] Instance Outcome_ret : MRet Outcome := fun _ a => Return a.
#[global] Instance Outcome_bind : MBind Outcome := fun _ _ k o =>
  match o with
  | Return a => k a
  | Raise e => Raise e
  | OutOfFuel => OutOfFuel
  end.

(** An argument with the [_sentinel] default: omitted, or given (possibly
    as [None]). *)
Inductive Arg (A : Type) : Type :=
| Unset
| Given (a : A).
Arguments Unset {A}.
Arguments Given {A} a.

(** A value received where a [db.Key] is expected. *)
Inductive PyArg : Type :=
| PyKey (k : Key)
| PyNone
| PyStr (s : string).

(** [x or 0] on an optional number. *)
Definition or_zero (x : option Z) : Z :=
  match x with
  | Some v => if decide (v = 0) then 0 else v
  | None => 0
  end.

(** [x or []] on an optional list. *)
Definition or_empty {A} (x : option (list A)) : list A :=
  match x with
  | Some (a :: l) => a :: l
  | Some [] => []
  | None => []
  end.

(** [min(l, key=f)]: the first element whose key is smallest; [None] stands
    for the [ValueError] Python raises on an empty sequence. *)
Fixpoint min_from {A} (f : A → Z) (best : A) (l : list A) : A :=
  match l with
  | [] => best
  | x :: l' => min_from f (if decide (f x < f best) then x else best) l'
  end.

Definition py_min {A} (f : A → Z) (l : list A) : option A :=
  match l with
  | [] => None
  | x :: l' => Some (min_from f x l')
  end.

Definition min_empty_error : Exception :=
  ValueError "min() arg is an empty sequence".

(** A [dict] keeps its keys in the order of their first insertion and, for
    each key, the value written last. *)
Fixpoint dict_set {V} (d : list (Key * V)) (k : Key) (v : V) : list (Key * V) :=
  match d with
  | [] => [(k, v)]
  | (k', v') :: d' =>
      if decide (k' = k) then (k, v) :: d' else (k', v') :: dict_set d' k v
  end.

Definition dict_values {V} (d : list (Key * V)) : list V := d.*2.

(** [collections.deque]: [append] adds on the right, [pop] takes from the
    right. *)
Definition deque_append {A} (q : list A) (x : A) : list A := q ++ [x].

Fixpoint deque_pop {A} (q : list A) : option (list A * A) :=
  match q with
  | [] => None
  | [x] => Some ([], x)
  | y :: q' =>
      match deque_pop q' with
      | Some (r, x) => Some (y :: r, x)
      | None => None
      end
  end.

(** ** Skeletons *)

(** The skeletons all carry a [key] bone. *)
Class Skel (A : Type) := key : A → Key.

(** The values a relation holds about itself; the shop hands them to the
    applicability policy and never looks inside. *)
Definition RelSkel : Type := list (string * Z).

(** A relational bone's value: [{"dest": ..., "rel": ...}]. *)
Record Relation (D : Type) : Type := mkRelation { dest : D; rel : option RelSkel }.
Arguments mkRelation {D} dest rel.
Arguments dest {D} _.
Arguments rel {D} _.

Record ShippingSkel : Type := mkShipping {
  shipping_key : Key;
  shipping_cost : option Z
}.
#[global] Instance ShippingSkel_key : Skel ShippingSkel := shipping_key.

Record ShippingConfigSkel : Type := mkShippingConfig {
  shipping_config_key : Key;
  shipping : option (list (Relation ShippingSkel))
}.
#[global] Instance ShippingConfigSkel_key : Skel ShippingConfigSkel := shipping_config_key.

Record ArticleAbstractSkel : Type := mkArticle {
  article_key : Key;
  shop_shipping_config : option (Relation ShippingConfigSkel)
}.
#[global] Instance ArticleAbstractSkel_key : Skel ArticleAbstractSkel := article_key.

Record CartNodeSkel : Type := mkCartNode {
  node_key : Key;
  parententry : option Key;
  total : Z;
  node_shipping : option Key
}.
#[global] Instance CartNodeSkel_key : Skel CartNodeSkel := node_key.

Record CartItemSkel : Type := mkCartItem {
  item_key : Key;
  article_skel : ArticleAbstractSkel;
  quantity : Z
}.
#[global] Instance CartItemSkel_key : Skel CartItemSkel := item_key.

(** A child of a cart node: [issubclass(child.skeletonCls, CartNodeSkel)]
    tells a sub-cart from a leaf. *)
Inductive CartChild : Type :=
| ChildNode (node : Key)
| ChildLeaf (leaf : CartItemSkel).

(** Modelled from the spec: [constants.AddressType] is imported by
    [order.py] and is not among the sources.  The spec names [BILLING];
    [SHIPPING] is the other kind of address. *)
Inductive AddressType : Type := BILLING | SHIPPING.
#[global] Instance AddressType_eq_dec : EqDecision AddressType.
Proof. solve_decision. Defined.

Record AddressSkel : Type := mkAddress {
  address_key : Key;
  address_type : AddressType
}.

Record UserSkel : Type := mkUser {
  user_key : Key;
  user_name : string
}.

Record OrderSkel : Type := mkOrder {
  order_key : option Key;
  cart : option (Relation CartNodeSkel);
  order_total : Z;
  payment_provider : option string;
  billing_address : option (Relation AddressSkel);
  email : option string;
  customer : option (Relation UserSkel);
  state_ordered : option bool;
  state_paid : option bool;
  state_rts : option bool;
  is_ordered : bool;
  order_uid : option string
}.

(** ** The datastore and the request context *)

(** What the store holds for a cart node: its bones and its direct children. *)
Record CartEntry : Type := mkCartEntry {
  entry_parent : option Key;
  entry_total : Z;
  entry_shipping : option Key;
  entry_children : list CartChild
}.

Record World : Type := mkWorld {
  carts : gmap positive CartEntry;
  orders : gmap positive OrderSkel;
  addresses : gmap positive AddressType;
  users : gmap positive string;
  session_cart : option Key;
  current_user : option UserSkel;
  clock : string;
  next_key : Key
}.

(** A call that may write: the outcome and the world it leaves. *)
Definition M (A : Type) : Type := World → Outcome A * World.

Definition ret {A} (a : A) : M A := fun w => (Return a, w).
Definition raise {A} (e : Exception) : M A := fun w => (Raise e, w).
Definition bind {A B} (m : M A) (k : A → M B) : M B := fun w =>
  match m w with
  | (Return a, w') => k a w'
  | (Raise e, w') => (Raise e, w')
  | (OutOfFuel, w') => (OutOfFuel, w')
  end.
(** A call that only reads. *)
Definition read {A} (r : World → Outcome A) : M A := fun w => (r w, w).
Definition modify (f : World → World) : M unit := fun w => (Return tt, f w).

Notation "'do' x <- m ; k" := (bind m (fun x => k))
  (at level 10, x name, m at level 100, k at level 200).
Notation "'do_' m ; k" := (bind m (fun _ => k))
  (at level 10, m at level 100, k at level 200).

(** ** The shop: what the modules reach through [self.shop] *)

(** What [is_applicable] is asked about: [article_skel=...] or
    [cart_skel=...]. *)
Inductive Target : Type :=
| article_target (article_skel : ArticleAbstractSkel)
| cart_target (cart_skel : CartNodeSkel).

Module PaymentProviderAbstract.
Record t : Type := mk {
  name : string;
  can_checkout : OrderSkel → list string;
  can_order : OrderSkel → list string
}.
End PaymentProviderAbstract.

(** The pluggable parts: the registered payment providers, the
    applicability policy of [shop.shipping_config], and the key
    normalisation of [shop.api]. *)
Record Shop : Type := mkShop {
  payment_providers : list PaymentProviderAbstract.t;
  is_applicable : ShippingSkel → option RelSkel → Target → bool * string;
  _normalize_external_key : PyArg → string → Outcome PyArg
}.

(** ** viur-core's [db] *)
Module db.

(** [db.keyHelper], which a skeleton's [fromDB] runs on its argument before
    it looks anything up: a [db.Key] passes; a value that is neither a
    [db.Key], a [str] nor an [int], [None] among them, is refused with
    [NotImplementedError], which [fromDB] does not catch. *)
Definition keyHelper (inKey : option Key) : Outcome Key :=
  match inKey with
  | Some k => Return k
  | None => Raise (NotImplementedError "Unsupported key type <class 'NoneType'>")
  end.

End db.

(** ** The cart module

    The [Cart] module ([shop.cart]) is not among the sources.  Section 4.1
    of the spec gives its contract; the store behind it is [carts]. *)
Module Cart.

(** Modelled from the spec: [viewSkel("node").fromDB(key)] for a key, on
    the keyed store ("get(key) -> Entity | NotFound"): the node's skeleton,
    if the node exists. *)
Definition fromDB (w : World) (cart_key : Key) : option CartNodeSkel :=
  e ← carts w !! cart_key;
  Some (mkCartNode cart_key (entry_parent e) (entry_total e) (entry_shipping e)).

(** Modelled from the spec: [current_session_cart_key], "the cart key bound
    to the active context; absent if no cart exists yet". *)
Definition current_session_cart_key (w : World) : option Key := session_cart w.

(** Modelled from the spec: [get_children], "returns direct children only;
    fails with NotFoundError if the node does not exist". *)
Definition get_children (w : World) (parent_cart_key : Key) : Outcome (list CartChild) :=
  match carts w !! parent_cart_key with
  | Some e => Return (entry_children e)
  | None => Raise (NotFound None)
  end.

(** Modelled from the spec: [is_valid_node], "checks existence and, if
    root_node is true, that the node has no parent". *)
Definition is_valid_node (w : World) (node_key : Key) (root_node : bool) : bool :=
  match carts w !! node_key with
  | Some e => if root_node then bool_decide (entry_parent e = None) else true
  | None => false
  end.

(** Modelled from the spec: [cart_update], "applies a partial update (only
    supplied fields change)"; of its fields the shipping key is the one the
    sources supply. *)
Definition cart_update (cart_key : Key) (shipping_key : option Key) : M unit := fun w =>
  match carts w !! cart_key with
  | None => (Raise (NotFound None), w)
  | Some e =>
      let e' := match shipping_key with
                | Some sk => mkCartEntry (entry_parent e) (entry_total e) (Some sk) (entry_children e)
                | None => e
                end in
      (Return tt,
       mkWorld (<[cart_key := e']> (carts w)) (orders w) (addresses w) (users w)
               (session_cart w) (current_user w) (clock w) (next_key w))
  end.

(** Modelled from the spec: [detach_session_cart], "severs the association
    between the active session and its cart root, without deleting cart
    data". *)
Definition detach_session_cart : M unit :=
  modify (fun w => mkWorld (carts w) (orders w) (addresses w) (users w)
                           None (current_user w) (clock w) (next_key w)).

End Cart.

(** ** [shipping.py] *)
Module Shipping.
Section WithShop.
Variable shop : Shop.

Definition applicable_for (target : Target) (shipping : Relation ShippingSkel) : bool :=
  (is_applicable shop (dest shipping) (rel shipping) target).1.

Definition cost_key (shipping : Relation ShippingSkel) : Z :=
  or_zero (shipping_cost (dest shipping)).

(** The three results of [choose_shipping_skel_for_article]:
    a shipping, [None], or [False]. *)
Inductive Choice : Type :=
| Chosen (shipping : Relation ShippingSkel)
| PyNoneChoice
| PyFalseChoice.

(** [for shipping in x]: iterating [None] is a [TypeError]. *)
Definition iterate {A} (x : option (list A)) : Outcome (list A) :=
  match x with
  | Some l => Return l
  | None => Raise (TypeError "'NoneType' object is not iterable")
  end.

Definition choose_shipping_skel_for_article (article_skel : ArticleAbstractSkel)
  : Outcome Choice :=
  match shop_shipping_config article_skel with
  | None => Return PyNoneChoice
  | Some config =>
      let shipping_config_skel := dest config in
      shippings ← iterate (shipping shipping_config_skel);
      let applicable_shippings :=
        filter (fun s => applicable_for (article_target article_skel) s = true) shippings in
      match applicable_shippings with
      | [] => Return PyFalseChoice
      | _ :: _ =>
          match py_min cost_key applicable_shippings with
          | Some cheapest_shipping => Return (Chosen cheapest_shipping)
          | None => Raise min_empty_error
          end
      end
  end.

(** One round of the [for child in ...] loop body. *)
Definition visit_child (st : list Key * list ShippingConfigSkel) (child : CartChild)
  : list Key * list ShippingConfigSkel :=
  match child with
  | ChildNode k => (deque_append st.1 k, st.2)
  | ChildLeaf leaf =>
      match shop_shipping_config (article_skel leaf) with
      | Some config => (st.1, st.2 ++ [dest config])
      | None => st
      end
  end.

(** The [while node_queue] loop. *)
Fixpoint walk (fuel : nat) (w : World) (node_queue : list Key)
    (all_shipping_configs : list ShippingConfigSkel)
  : Outcome (list ShippingConfigSkel) :=
  match deque_pop node_queue with
  | None => Return all_shipping_configs
  | Some (node_queue', k) =>
      match fuel with
      | O => OutOfFuel
      | S fuel' =>
          children ← Cart.get_children w k;
          let st := foldl visit_child (node_queue', all_shipping_configs) children in
          walk fuel' w st.1 st.2
      end
  end.

(** [list(({sc["key"]: sc for sc in configs}).values())] *)
Definition dedup_by_key (configs : list ShippingConfigSkel) : list ShippingConfigSkel :=
  dict_values (foldl (fun d sc => dict_set d (key sc) sc) [] configs).

(** [if not cart_key: cart_key = self.shop.cart.current_session_cart_key] *)
Definition session_default (w : World) (cart_key : option Key) : option Key :=
  match cart_key with
  | None => Cart.current_session_cart_key w
  | Some k => Some k
  end.

(** [if not cart_skel.fromDB(cart_key): raise errors.NotFound] *)
Definition fromDB_or_NotFound (w : World) (cart_key : option Key) : Outcome CartNodeSkel :=
  k ← db.keyHelper cart_key;
  match Cart.fromDB w k with
  | None => Raise (NotFound None)
  | Some skel => Return skel
  end.

(** The start of [get_shipping_skels_for_cart]: which node to walk from. *)
Definition resolve_cart_key (w : World) (cart_key : option Key)
    (cart_skel : option CartNodeSkel) : Outcome Key :=
  match cart_skel with
  | None =>
      let cart_key := session_default w cart_key in
      skel ← fromDB_or_NotFound w cart_key;
      Return (key skel)
  | Some skel => Return (key skel)
  end.

(** [all_shipping_configs] after the de-duplication. *)
Definition deduplicated_shipping_configs (fuel : nat) (w : World)
    (cart_key : option Key) (cart_skel : option CartNodeSkel)
  : Outcome (list ShippingConfigSkel) :=
  cart_key ← resolve_cart_key w cart_key cart_skel;
  all_shipping_configs ← walk fuel w [cart_key] [];
  Return (dedup_by_key all_shipping_configs).

Definition get_shipping_skels_for_cart (fuel : nat) (w : World)
    (cart_key : option Key) (cart_skel : option CartNodeSkel)
  : Outcome (list (Relation ShippingSkel)) :=
  all_shipping_configs ← deduplicated_shipping_configs fuel w cart_key cart_skel;
  match all_shipping_configs with
  | [] => Return []
  | _ => Return (List.concat (map (fun sc => or_empty (shipping sc)) all_shipping_configs))
  end.

(** What the loop variable [shipping] of the two cart functions below can
    hold.  The candidates of [get_shipping_skels_for_cart] are relations,
    that is dicts [{"dest": ..., "rel": ...}]; iterating such a dict gives
    its keys, which are strings. *)
Inductive PyItem : Type :=
| PyRelation (r : Relation ShippingSkel)
| PyDictKey (s : string).

(** [list(relation)]: the keys of the dict, in the order of insertion. *)
Definition relation_keys (r : Relation ShippingSkel) : list string := ["dest"; "rel"].

(** [itertools.chain.from_iterable(l)] on a list of relations: every
    relation is iterated in turn. *)
Definition chain_from_iterable (l : list (Relation ShippingSkel)) : list PyItem :=
  l ≫= fun r => PyDictKey <$> relation_keys r.

Definition str_index_error : Exception :=
  TypeError "string indices must be integers, not 'str'".

(** [shipping["dest"]] and [shipping["rel"]]: a string cannot be
    subscripted by a string. *)
Definition getitem_dest (shipping : PyItem) : Outcome ShippingSkel :=
  match shipping with
  | PyRelation r => Return (dest r)
  | PyDictKey _ => Raise str_index_error
  end.

Definition getitem_rel (shipping : PyItem) : Outcome (option RelSkel) :=
  match shipping with
  | PyRelation r => Return (rel r)
  | PyDictKey _ => Raise str_index_error
  end.

(** The [for shipping in all_shipping] loop of
    [get_available_shipping_skels_for_cart]. *)
Fixpoint collect_applicable (target : Target) (all_shipping : list PyItem)
    (applicable_shippings : list PyItem) : Outcome (list PyItem) :=
  match all_shipping with
  | [] => Return applicable_shippings
  | shipping :: all_shipping' =>
      shipping_dest ← getitem_dest shipping;
      shipping_rel ← getitem_rel shipping;
      let '(is_applicable, reason) := is_applicable shop shipping_dest shipping_rel target in
      collect_applicable target all_shipping'
        (if is_applicable then applicable_shippings ++ [shipping] else applicable_shippings)
  end.

Definition get_available_shipping_skels_for_cart (fuel : nat) (w : World)
    (cart_key : option Key) : Outcome (list PyItem) :=
  let cart_key := session_default w cart_key in
  cart_skel ← fromDB_or_NotFound w cart_key;
  (* the flat list of candidates is flattened once more *)
  candidates ← get_shipping_skels_for_cart fuel w None (Some cart_skel);
  let all_shipping := chain_from_iterable candidates in
  applicable_shippings ← collect_applicable (cart_target cart_skel) all_shipping [];
  match applicable_shippings with
  | [] => Return []
  | _ => Return applicable_shippings
  end.

(** [shipping["dest"]["shipping_cost"] or 0], the key of the [min] of
    [set_shipping_to_cart]. *)
Definition cost_of (shipping : PyItem) : Outcome Z :=
  shipping_dest ← getitem_dest shipping;
  Return (or_zero (shipping_cost shipping_dest)).

(** [min(l, key=f)] computes the key of each element, in order. *)
Fixpoint with_keys {A} (f : A → Outcome Z) (l : list A) : Outcome (list (A * Z)) :=
  match l with
  | [] => Return []
  | x :: l' => k ← f x; keyed ← with_keys f l'; Return ((x, k) :: keyed)
  end.

(** The [for shipping in applicable_shippings] loop of
    [set_shipping_to_cart]: [true] when an option carries the key, [false]
    when the loop runs into its [else]. *)
Fixpoint has_shipping_key (shipping_key : Key) (applicable_shippings : list PyItem)
  : Outcome bool :=
  match applicable_shippings with
  | [] => Return false
  | shipping :: applicable_shippings' =>
      shipping_dest ← getitem_dest shipping;
      if bool_decide (key shipping_dest = shipping_key) then Return true
      else has_shipping_key shipping_key applicable_shippings'
  end.

Definition set_shipping_to_cart (fuel : nat) (cart_key : option Key)
    (shipping_key : option Key) : M unit :=
  fun w0 =>
  let cart_key := session_default w0 cart_key in
  (do applicable_shippings <- read (fun w => get_available_shipping_skels_for_cart fuel w cart_key);
   (* [if not applicable_shippings: errors.NotFound(...)] builds the
      error and drops it: nothing is raised. *)
   do cart_key <- read (fun w => k ← db.keyHelper cart_key;
                                 match Cart.fromDB w k with
                                 | None => Raise (NotFound None)
                                 | Some _ => Return k
                                 end);
   match shipping_key with
   | None =>
       do keyed <- read (fun _ => with_keys cost_of applicable_shippings);
       match py_min snd keyed with
       | None => raise min_empty_error
       | Some (cheapest_shipping, _) =>
           do cheapest_dest <- read (fun _ => getitem_dest cheapest_shipping);
           Cart.cart_update cart_key (Some (key cheapest_dest))
       end
   | Some sk =>
       do found <- read (fun _ => has_shipping_key sk applicable_shippings);
       if found then Cart.cart_update cart_key (Some sk)
       else raise (NotFound (Some "Provided Shipping key not found"))
   end) w0.

End WithShop.
End Shipping.

(** ** [order.py] *)
Module Order.

(** [JsonResponse({"errors": errors}, status_code=...)] or
    [JsonResponse(skel)]. *)
Inductive JsonResponse : Type :=
| JsonErrors (errors : list string) (status_code : Z)
| JsonSkel (skel : OrderSkel).

(** *** The store behind [addSkel], [editSkel], [fromDB], [toDB] and
    [setBoneValue] (viur-core) *)

Definition addSkel : OrderSkel :=
  mkOrder None None 0 None None None None None None None false None.

Definition fromDB (w : World) (k : Key) : option OrderSkel :=
  s ← orders w !! k;
  Some (mkOrder (Some k) (cart s) (order_total s) (payment_provider s)
          (billing_address s) (email s) (customer s) (state_ordered s)
          (state_paid s) (state_rts s) (is_ordered s) (order_uid s)).

Definition with_key (k : Key) (s : OrderSkel) : OrderSkel :=
  mkOrder (Some k) (cart s) (order_total s) (payment_provider s)
    (billing_address s) (email s) (customer s) (state_ordered s)
    (state_paid s) (state_rts s) (is_ordered s) (order_uid s).

Definition put_order (k : Key) (s : OrderSkel) (w : World) : World :=
  mkWorld (carts w) (<[k := s]> (orders w)) (addresses w) (users w)
    (session_cart w) (current_user w) (clock w) (next_key w).

(** [skel.toDB()]: writes under the skeleton's key; a skeleton without one
    gets the next free key.  Returns the skeleton as written. *)
Definition toDB (skel : OrderSkel) : M OrderSkel := fun w =>
  match order_key skel with
  | Some k => (Return skel, put_order k skel w)
  | None =>
      let k := next_key w in
      let skel' := with_key k skel in
      (Return skel',
       mkWorld (carts w) (<[k := skel']> (orders w)) (addresses w) (users w)
         (session_cart w) (current_user w) (clock w) (Pos.succ k))
  end.

(** [setBoneValue] on a relational bone keeps the old value when the key
    resolves to nothing. *)
Definition resolve_cart (w : World) (k : Key) : option (Relation CartNodeSkel) :=
  skel ← Cart.fromDB w k; Some (mkRelation skel None).
Definition resolve_address (w : World) (k : Key) : option (Relation AddressSkel) :=
  ty ← addresses w !! k; Some (mkRelation (mkAddress k ty) None).
Definition resolve_user (w : World) (k : Key) : option (Relation UserSkel) :=
  n ← users w !! k; Some (mkRelation (mkUser k n) None).

Definition set_cart (v : option (Relation CartNodeSkel)) (s : OrderSkel) :=
  mkOrder (order_key s) v (order_total s) (payment_provider s)
    (billing_address s) (email s) (customer s) (state_ordered s)
    (state_paid s) (state_rts s) (is_ordered s) (order_uid s).
Definition set_total (v : Z) (s : OrderSkel) :=
  mkOrder (order_key s) (cart s) v (payment_provider s)
    (billing_address s) (email s) (customer s) (state_ordered s)
    (state_paid s) (state_rts s) (is_ordered s) (order_uid s).
Definition set_payment_provider (v : option string) (s : OrderSkel) :=
  mkOrder (order_key s) (cart s) (order_total s) v
    (billing_address s) (email s) (customer s) (state_ordered s)
    (state_paid s) (state_rts s) (is_ordered s) (order_uid s).
Definition set_billing_address (v : option (Relation AddressSkel)) (s : OrderSkel) :=
  mkOrder (order_key s) (cart s) (order_total s) (payment_provider s)
    v (email s) (customer s) (state_ordered s)
    (state_paid s) (state_rts s) (is_ordered s) (order_uid s).
Definition set_email (v : option string) (s : OrderSkel) :=
  mkOrder (order_key s) (cart s) (order_total s) (payment_provider s)
    (billing_address s) v (customer s) (state_ordered s)
    (state_paid s) (state_rts s) (is_ordered s) (order_uid s).
Definition set_customer (v : option (Relation UserSkel)) (s : OrderSkel) :=
  mkOrder (order_key s) (cart s) (order_total s) (payment_provider s)
    (billing_address s) (email s) v (state_ordered s)
    (state_paid s) (state_rts s) (is_ordered s) (order_uid s).
Definition set_state_ordered (v : option bool) (s : OrderSkel) :=
  mkOrder (order_key s) (cart s) (order_total s) (payment_provider s)
    (billing_address s) (email s) (customer s) v
    (state_paid s) (state_rts s) (is_ordered s) (order_uid s).
Definition set_state_paid (v : option bool) (s : OrderSkel) :=
  mkOrder (order_key s) (cart s) (order_total s) (payment_provider s)
    (billing_address s) (email s) (customer s) (state_ordered s)
    v (state_rts s) (is_ordered s) (order_uid s).
Definition set_state_rts (v : option bool) (s : OrderSkel) :=
  mkOrder (order_key s) (cart s) (order_total s) (payment_provider s)
    (billing_address s) (email s) (customer s) (state_ordered s)
    (state_paid s) v (is_ordered s) (order_uid s).
Definition set_is_ordered (v : bool) (s : OrderSkel) :=
  mkOrder (order_key s) (cart s) (order_total s) (payment_provider s)
    (billing_address s) (email s) (customer s) (state_ordered s)
    (state_paid s) (state_rts s) v (order_uid s).
Definition set_order_uid (v : option string) (s : OrderSkel) :=
  mkOrder (order_key s) (cart s) (order_total s) (payment_provider s)
    (billing_address s) (email s) (customer s) (state_ordered s)
    (state_paid s) (state_rts s) (is_ordered s) v.

(** [skel.setBoneValue(bone, key)]: the relation if the key resolves,
    the old value otherwise. *)
Definition setBoneValue {D} (resolved : option (Relation D))
    (old : option (Relation D)) : option (Relation D) :=
  match resolved with
  | Some r => Some r
  | None => old
  end.

(** [skel.setBoneValue(bone, value)] on a relational bone with a value
    that is neither a [str] nor a [db.Key]: viur-core refuses it with a
    [ValueError]; the text is viur-core's. *)
Definition setBoneValue_no_key (boneName : string) : Exception :=
  ValueError ("You must supply exactly one Database-Key to " ++ boneName).

(** [if not x] on an optional string: [None] and [""] are both false.
    The string, if it is true. *)
Definition truthy_str (x : option string) : option string :=
  match x with
  | Some EmptyString => None
  | Some s => Some s
  | None => None
  end.

(** [if x is not _sentinel and not isinstance(x, (db.Key, type(None)))]:
    the argument's key, if it passes. *)
Definition key_or_none (field : string) (x : Arg PyArg) : Outcome (Arg (option Key)) :=
  match x with
  | Unset => Return Unset
  | Given (PyKey k) => Return (Given (Some k))
  | Given PyNone => Return (Given None)
  | Given (PyStr _) => Raise (TypeError (field ++ " must be an instance of db.Key"))
  end.

(** *** The order UID *)

Definition remove_dots (s : list ascii) : list ascii :=
  filter (fun c => c ≠ "."%char) s.

Fixpoint group_digits (i : nat) (s : list ascii) : list ascii :=
  match s with
  | [] => []
  | c :: s' =>
      (if decide (i `mod` 4 = 0)%nat then ["-"%char; c] else [c])
        ++ group_digits (S i) s'
  end.

Fixpoint lstrip_dash (s : list ascii) : list ascii :=
  match s with
  | c :: s' => if decide (c = "-"%char) then lstrip_dash s' else s
  | [] => []
  end.

Definition strip_dash (s : list ascii) : list ascii :=
  reverse (lstrip_dash (reverse (lstrip_dash s))).

Definition format_uid (time_str : string) : string :=
  String.string_of_list_ascii
    (strip_dash (group_digits 0 (remove_dots (String.list_ascii_of_string time_str)))).

Section WithShop.
Variable shop : Shop.

Definition get_payment_provider_by_name (payment_provider_name : string)
  : Outcome PaymentProviderAbstract.t :=
  match find (fun pp => bool_decide (payment_provider_name = PaymentProviderAbstract.name pp))
             (payment_providers shop) with
  | Some pp => Return pp
  | None => Raise (LookupError ("Unknown payment provider " ++ payment_provider_name))
  end.

Definition order_add (cart_key : PyArg)
    (payment_provider : Arg (option string))
    (billing_address_key : Arg PyArg)
    (email : Arg (option string))
    (customer_key : Arg PyArg)
    (state_ordered state_paid state_rts : Arg (option bool)) : M OrderSkel :=
  match cart_key with
  | PyKey cart_key =>
      do billing_address_key <-
        read (fun _ => key_or_none "billing_address_key" billing_address_key);
      do customer_key <-
        read (fun _ => key_or_none "customer_key" customer_key);
      let skel := addSkel in
      (* the message of the [ValueError] renders the key; it is left out *)
      do _valid <- read (fun w => if Cart.is_valid_node w cart_key true
                                  then Return tt
                                  else Raise (ValueError "Invalid cart_key!"));
      do cart_skel <- read (fun w => match Cart.fromDB w cart_key with
                                     | Some cart_skel => Return cart_skel
                                     | None => Raise AssertionError
                                     end);
      do skel <- read (fun w => Return (set_cart (setBoneValue (resolve_cart w cart_key) (cart skel)) skel));
      let skel := set_total (total cart_skel) skel in
      let skel := match payment_provider with
                  | Given v => set_payment_provider v skel
                  | Unset => skel
                  end in
      do skel <-
        match billing_address_key with
        | Unset => ret skel
        | Given None => ret (set_billing_address None skel)
        | Given (Some k) =>
            do skel <- read (fun w => Return (set_billing_address
                          (setBoneValue (resolve_address w k) (billing_address skel)) skel));
            match billing_address skel with
            | None => raise (TypeError "'NoneType' object is not subscriptable")
            | Some address =>
                if decide (address_type (dest address) ≠ BILLING)
                then raise (InvalidArgumentException "shipping_address"
                              "Address is not of type billing.")
                else ret skel
            end
        end;
      do skel <- read (fun w =>
        match current_user w with
        | Some user =>
            let skel := set_email (Some (user_name user)) skel in
            Return (set_customer (setBoneValue (resolve_user w (user_key user)) (customer skel)) skel)
        | None => Return skel
        end);
      let skel := match email with
                  | Given v => set_email v skel
                  | Unset => skel
                  end in
      do skel <-
        match customer_key with
        | Unset => ret skel
        | Given None => raise (setBoneValue_no_key "customer")
        | Given (Some k) =>
            read (fun w => Return (set_customer (setBoneValue (resolve_user w k) (customer skel)) skel))
        end;
      let skel := match state_ordered with
                  | Given v => set_state_ordered v skel
                  | Unset => skel
                  end in
      let skel := match state_paid with
                  | Given v => set_state_paid v skel
                  | Unset => skel
                  end in
      let skel := match state_rts with
                  | Given v => set_state_rts v skel
                  | Unset => skel
                  end in
      do skel <- toDB skel;
      do session_key <- read (fun w => Return (Cart.current_session_cart_key w));
      do_ (if decide (Some cart_key = session_key)
           then Cart.detach_session_cart
           else ret tt);
      ret skel
  | _ => raise (TypeError "cart_key must be an instance of db.Key")
  end.

Definition can_checkout (order_skel : OrderSkel) : Outcome (list string) :=
  let errors := [] in
  let errors := if cart order_skel is Some _ then errors
                else errors ++ ["missing cart"] in
  match truthy_str (payment_provider order_skel) with
  | None => Return (errors ++ ["missing payment_provider"])
  | Some payment_provider_name =>
      pp ← get_payment_provider_by_name payment_provider_name;
      match PaymentProviderAbstract.can_checkout pp order_skel with
      | [] => Return errors
      | pp_errors => Return (errors ++ pp_errors)
      end
  end.

Definition freeze_order (order_skel : OrderSkel) : OrderSkel :=
  (* TODO: recalculate cart; copy values (should not be hit by update relations) *)
  order_skel.

Definition assign_uid (order_skel : OrderSkel) : M OrderSkel :=
  read (fun w => Return (set_order_uid (Some (format_uid (clock w))) order_skel)).

(** The head of both checkout calls: normalise the key, check its type,
    load the order. *)
Definition load_order (order_key : PyArg) : M OrderSkel :=
  do order_key <- read (fun _ => _normalize_external_key shop order_key "order_key");
  match order_key with
  | PyKey k =>
      read (fun w => match fromDB w k with
                     | Some skel => Return skel
                     | None => Raise (NotFound None)
                     end)
  | _ => raise (TypeError "order_key must be an instance of db.Key")
  end.

Definition checkout_start (order_key : PyArg) : M JsonResponse :=
  do skel <- load_order order_key;
  do errors <- read (fun _ => can_checkout skel);
  match errors with
  | _ :: _ => ret (JsonErrors errors 400)
  | [] =>
      let skel := freeze_order skel in
      do skel <- assign_uid skel;
      do skel <- toDB skel;
      ret (JsonSkel skel)
  end.

Definition can_order (order_skel : OrderSkel) : Outcome (list string) :=
  let errors := [] in
  let errors := if is_ordered order_skel then errors ++ ["already is_ordered"]
                else errors in
  let errors := if cart order_skel is Some _ then errors
                else errors ++ ["missing cart"] in
  match truthy_str (payment_provider order_skel) with
  | None => Return (errors ++ ["missing payment_provider"])
  | Some payment_provider_name =>
      pp ← get_payment_provider_by_name payment_provider_name;
      match PaymentProviderAbstract.can_order pp order_skel with
      | [] => Return errors
      | pp_errors => Return (errors ++ pp_errors)
      end
  end.

Definition checkout_order (order_key : PyArg) : M JsonResponse :=
  do skel <- load_order order_key;
  do errors <- read (fun _ => can_order skel);
  match errors with
  | _ :: _ => ret (JsonErrors errors 400)
  | [] =>
      let skel := set_is_ordered true skel in
      do skel <- toDB skel;
      ret (JsonSkel skel)
  end.

End WithShop.
End Order.

(** * The vocabulary of the statements *)

(** [m] is the first element of [l] whose key is smallest: nothing before
    it is as cheap, nothing after it is cheaper. *)
Definition first_min {A} (f : A → Z) (l : list A) (m : A) : Prop :=
  ∃ l1 l2, l = l1 ++ m :: l2
           ∧ Forall (fun x => f m < f x) l1
           ∧ Forall (fun x => f m ≤ f x) l2.

(** Reading a [dict]. *)
Fixpoint dict_get {V} (d : list (Key * V)) (k : Key) : option V :=
  match d with
  | [] => None
  | (k', v) :: d' => if decide (k' = k) then Some v else dict_get d' k
  end.

Definition dict_step (d : list (Key * ShippingConfigSkel)) (sc : ShippingConfigSkel) :=
  dict_set d (key sc) sc.

(** The references in [l] that carry the key [k], in the order collected. *)
Definition collected_under (k : Key) (l : list ShippingConfigSkel) : list ShippingConfigSkel :=
  filter (fun sc => key sc = k) l.

(** A cart subtree: the node exists and so does, in turn, every sub-cart
    below it.  Finite by construction. *)
Inductive cart_tree (w : World) : Key → Prop :=
| cart_tree_node (k : Key) (children : list CartChild) :
    Cart.get_children w k = Return children →
    (∀ k', ChildNode k' ∈ children → cart_tree w k') →
    cart_tree w k.

(** The sub-carts among some children, and the configurations of the
    leaves among them, both in the children's order. *)
Definition child_nodes (children : list CartChild) : list Key :=
  omap (fun c => match c with ChildNode k => Some k | ChildLeaf _ => None end) children.

Definition child_configs (children : list CartChild) : list ShippingConfigSkel :=
  omap (fun c => match c with
                 | ChildNode _ => None
                 | ChildLeaf leaf => dest <$> shop_shipping_config (article_skel leaf)
                 end) children.

(** Walking from [k] on top of a queue [q] takes [n] rounds and adds
    [coll] to what was collected. *)
Definition walks (w : World) (ks : list Key) (n : nat) (coll : list ShippingConfigSkel) : Prop :=
  ∀ fuel q acc,
    Shipping.walk (n + fuel) w (q ++ ks) acc = Shipping.walk fuel w q (acc ++ coll).

(** The cost an option is compared by: a missing cost counts as zero. *)
Definition cost_or_zero (s : Relation ShippingSkel) : Z :=
  default 0 (shipping_cost (dest s)).

Abbreviation applicable_to shop target :=
  (fun s : Relation ShippingSkel => Shipping.applicable_for shop target s = true).

(** What both validations report for an order without a cart. *)
Definition missing_cart_errors (skel : OrderSkel) : list string :=
  if cart skel is Some _ then [] else ["missing cart"].

(** The provider the order names can be asked: none is named, or the one
    named is registered. *)
Definition provider_known (shop : Shop) (skel : OrderSkel) : Prop :=
  ∀ name, Order.truthy_str (payment_provider skel) = Some name →
          ∃ pp, Order.get_payment_provider_by_name shop name = Return pp.

Ltac split_match :=
  match goal with
  | H : context [match ?x with _ => _ end] |- _ => destruct x eqn:?
  end.

(** ** Concrete carts and orders *)
Module Scenario.

Definition option_5 : Relation ShippingSkel := mkRelation (mkShipping 100 (Some 5)) None.
Definition option_3 : Relation ShippingSkel := mkRelation (mkShipping 101 (Some 3)) None.
Definition option_free : Relation ShippingSkel := mkRelation (mkShipping 102 None) None.

Definition SC1 : ShippingConfigSkel := mkShippingConfig 10 (Some [option_5; option_3]).
(** A second reference under the key of [SC1], told apart by its options. *)
Definition SC1_later : ShippingConfigSkel := mkShippingConfig 10 (Some [option_3; option_5]).
Definition SC2 : ShippingConfigSkel := mkShippingConfig 11 (Some [option_free]).
Definition SC_null : ShippingConfigSkel := mkShippingConfig 12 None.

Definition article (k : Key) (sc : ShippingConfigSkel) : ArticleAbstractSkel :=
  mkArticle k (Some (mkRelation sc None)).
Definition leaf (k : Key) (sc : ShippingConfigSkel) : CartChild :=
  ChildLeaf (mkCartItem k (article (k + 30) sc) 1).

Definition invoice : PaymentProviderAbstract.t :=
  PaymentProviderAbstract.mk "invoice" (fun _ => []) (fun _ => []).

(** Only the option of cost 5 is applicable. *)
Definition shop : Shop :=
  mkShop [invoice]
    (fun s _ _ => if decide (key s = 100%positive) then (true, "")
                  else (false, "not offered"))
    (fun x _ => Return x).

(** No option is applicable and no payment provider is registered. *)
Definition bare_shop : Shop :=
  mkShop [] (fun _ _ _ => (false, "not offered")) (fun x _ => Return x).

Definition empty_world : World :=
  mkWorld ∅ ∅ ∅ ∅ None None "1700000000.123456" 1.

Definition with_carts (c : gmap positive CartEntry) (w : World) : World :=
  mkWorld c (orders w) (addresses w) (users w) (session_cart w)
    (current_user w) (clock w) (next_key w).
Definition with_orders (o : gmap positive OrderSkel) (w : World) : World :=
  mkWorld (carts w) o (addresses w) (users w) (session_cart w)
    (current_user w) (clock w) (next_key w).
Definition with_addresses (a : gmap positive AddressType) (w : World) : World :=
  mkWorld (carts w) (orders w) a (users w) (session_cart w)
    (current_user w) (clock w) (next_key w).

(** The cart [C1]: two leaves, both with the configuration [SC1]. *)
Definition C1 : Key := 1%positive.
Definition C1_world : World :=
  with_carts {[ C1 := mkCartEntry None 10 None [leaf 20 SC1; leaf 21 SC1] ]} empty_world.

(** A cart with a sub-cart; the key of [SC1] is collected twice. *)
Definition nested_world : World :=
  with_carts
    (<[ 1%positive := mkCartEntry None 10 None [leaf 20 SC1; ChildNode 2; leaf 21 SC2] ]>
       {[ 2%positive := mkCartEntry (Some 1%positive) 4 None [leaf 22 SC1_later] ]})
    empty_world.

Definition cart_relation (k : Key) (t : Z) : Relation CartNodeSkel :=
  mkRelation (mkCartNode k None t None) None.

(** An order made from the cart [C1] when its total was 10. *)
Definition draft_order : OrderSkel :=
  mkOrder (Some 7%positive) (Some (cart_relation C1 10)) 10 (Some "invoice")
    None None None None None None false None.
Definition ordered_order : OrderSkel := Order.set_is_ordered true draft_order.

(** The cart's total has moved to 25 since the order was made. *)
Definition draft_world : World :=
  with_orders {[ 7%positive := draft_order ]}
    (with_carts {[ C1 := mkCartEntry None 25 None [leaf 20 SC1] ]} empty_world).
Definition ordered_world : World :=
  with_orders {[ 7%positive := ordered_order ]} draft_world.

(** A cart and an address that is not a billing address. *)
Definition address_world : World :=
  with_addresses {[ 5%positive := SHIPPING ]} C1_world.
Definition address_world_without_cart : World :=
  with_addresses {[ 5%positive := SHIPPING ]} empty_world.

(** [order_add] for [C1] with everything but the cart left out. *)
Definition added : Outcome OrderSkel * World :=
  Order.order_add (PyKey C1) Unset Unset Unset Unset Unset Unset Unset C1_world.

End Scenario.

Import Scenario.

(** ** [constants.py] *)

Inductive ArticleAvailability : Type :=
| IN_STOCK | OUT_OF_STOCK | LIMITED | DISCONTINUED | PREORDER.

Inductive CartType : Type := WISHLIST | BASKET.

(** [member.value] *)
Definition ArticleAvailability_value (a : ArticleAvailability) : string :=
  match a with
  | IN_STOCK => "instock"
  | OUT_OF_STOCK => "outofstock"
  | LIMITED => "limited"
  | DISCONTINUED => "discontinued"
  | PREORDER => "preorder"
  end.

Definition CartType_value (c : CartType) : string :=
  match c with
  | WISHLIST => "wishlist"
  | BASKET => "basket"
  end.

(** [repr] of a text.  A character stands for the code point of its
    number (below 256).  The text is put between single quotes, or between
    double quotes when it holds a single quote and no double quote; the
    backslash and the quote in use are escaped by a backslash, tab, newline
    and carriage return are written as a backslash and [t], [n] or [r],
    and every other code point that is not printable as a backslash, [x]
    and its two hexadecimal digits. *)
Definition double_quote : ascii := ascii_of_nat 34.
Definition backslash : ascii := ascii_of_nat 92.

Definition hex_digit (n : nat) : ascii :=
  nth n (String.list_ascii_of_string "0123456789abcdef") "0"%char.

Definition printable (n : nat) : bool :=
  bool_decide (32 ≤ n < 127 ∨ (161 ≤ n ∧ n ≠ 173))%nat.

Definition repr_char (quote c : ascii) : list ascii :=
  let n := nat_of_ascii c in
  if decide (c = backslash) then [backslash; backslash]
  else if decide (c = quote) then [backslash; c]
  else if decide (n = 9%nat) then [backslash; "t"%char]
  else if decide (n = 10%nat) then [backslash; "n"%char]
  else if decide (n = 13%nat) then [backslash; "r"%char]
  else if printable n then [c]
  else [backslash; "x"%char; hex_digit (n / 16)%nat; hex_digit (n `mod` 16)%nat].

Definition py_repr (v : string) : string :=
  let chars := String.list_ascii_of_string v in
  let quote := if bool_decide ("'"%char ∈ chars ∧ double_quote ∉ chars)
               then double_quote else "'"%char in
  String.string_of_list_ascii ([quote] ++ (chars ≫= repr_char quote) ++ [quote]).

(** [Enum(value)]: the first member, in the order of the class body, with
    that value; [ValueError] if there is none. *)
Definition enum_of_value {E} (members : list E) (value : E → string) (cls v : string)
  : Outcome E :=
  match find (fun m => bool_decide (value m = v)) members with
  | Some m => Return m
  | None => Raise (ValueError (py_repr v ++ " is not a valid " ++ cls))
  end.

Definition ArticleAvailability_members : list ArticleAvailability :=
  [IN_STOCK; OUT_OF_STOCK; LIMITED; DISCONTINUED; PREORDER].
Definition CartType_members : list CartType := [WISHLIST; BASKET].

Definition ArticleAvailability_of_value : string → Outcome ArticleAvailability :=
  enum_of_value ArticleAvailability_members ArticleAvailability_value "ArticleAvailability".
Definition CartType_of_value : string → Outcome CartType :=
  enum_of_value CartType_members CartType_value "CartType".

(** ** More vocabulary *)

(** [k'] is [k] or a sub-cart somewhere below it. *)
Inductive reachable (w : World) (k : Key) : Key → Prop :=
| reachable_here : reachable w k k
| reachable_below (k' k'' : Key) (children : list CartChild) :
    reachable w k k' →
    Cart.get_children w k' = Return children →
    ChildNode k'' ∈ children →
    reachable w k k''.

(** The configuration [sc] hangs on a leaf directly under the node [k]. *)
Definition leaf_config_at (w : World) (k : Key) (sc : ShippingConfigSkel) : Prop :=
  ∃ children leaf config,
    Cart.get_children w k = Return children
    ∧ ChildLeaf leaf ∈ children
    ∧ shop_shipping_config (article_skel leaf) = Some config
    ∧ dest config = sc.

(** A character that [repr] writes as it is between single quotes, and a
    text of such characters. *)
Definition plain (c : ascii) : Prop :=
  printable (nat_of_ascii c) = true ∧ c ≠ "'"%char ∧ c ≠ backslash.

Definition plain_text (v : string) : Prop :=
  Forall plain (String.list_ascii_of_string v).

(** A UID without its dashes. *)
Definition remove_dashes (s : list ascii) : list ascii :=
  filter (fun c => c ≠ "-"%char) s.

(** The world at another time. *)
Definition with_clock (c : string) (w : World) : World :=
  mkWorld (carts w) (orders w) (addresses w) (users w) (session_cart w)
    (current_user w) c (next_key w).

(** The order as [order_add] writes it when nothing but the cart is
    supplied and nobody is logged in. *)
Definition plain_order (k : Key) (cart_skel : CartNodeSkel) : OrderSkel :=
  mkOrder (Some k) (Some (mkRelation cart_skel None)) (total cart_skel)
    None None None None None None None false None.

(** The digits of a time, grouped: [format_uid] without the conversions
    between texts and lists of characters. *)
Definition grouped (digits : list ascii) : list ascii :=
  Order.strip_dash (Order.group_digits 0 digits).

Definition dash_free (s : list ascii) : Prop := Forall (fun c => c ≠ "-"%char) s.

(** The keys of a list in the order of their first occurrence. *)
Definition first_occurrences (ks : list Key) : list Key :=
  foldl (fun seen k => if decide (k ∈ seen) then seen else seen ++ [k]) [] ks.

(** More concrete worlds. *)
Module Scenario2.

Definition alice : UserSkel := mkUser 40 "alice@example.com".

(** [C1] is the session's cart, Alice is logged in, address 5 is a shipping
    address and address 6 a billing address. *)
Definition session_world : World :=
  mkWorld (carts C1_world) ∅ (<[5%positive := SHIPPING]> {[ 6%positive := BILLING ]})
    {[ 40%positive := "alice@example.com" ]}
    (Some C1) (Some alice) "1700000000.123456" 1.

(** A sub-cart under [C1]. *)
Definition subcart_world : World :=
  with_carts
    (<[ 1%positive := mkCartEntry None 10 None [leaf 20 SC1; ChildNode 2] ]>
       {[ 2%positive := mkCartEntry (Some 1%positive) 4 None [leaf 22 SC2] ]})
    empty_world.

(** A sub-cart is named among the children but is not in the store. *)
Definition dangling_world : World :=
  with_carts {[ 1%positive := mkCartEntry None 10 None [leaf 20 SC1; ChildNode 2] ]}
    empty_world.

(** The cart [C1] without children: no candidate option. *)
Definition empty_cart_world : World :=
  with_carts {[ C1 := mkCartEntry None 0 None [] ]} empty_world.

(** A leaf whose configuration has no option list. *)
Definition null_options_world : World :=
  with_carts {[ C1 := mkCartEntry None 10 None [leaf 20 SC_null; leaf 21 SC2] ]} empty_world.

Definition pay_later : PaymentProviderAbstract.t :=
  PaymentProviderAbstract.mk "invoice" (fun _ => ["second"]) (fun _ => ["second"]).

(** Two providers under one name. *)
Definition two_invoice_shop : Shop :=
  mkShop [invoice; pay_later] (is_applicable shop) (_normalize_external_key shop).

Definition second_draft : OrderSkel :=
  mkOrder (Some 8%positive) (Some (cart_relation C1 10)) 10 (Some "invoice")
    None None None None None None false (Some "0000-0000").

(** Two draft orders; the second already has a UID. *)
Definition two_drafts_world : World :=
  with_orders (<[ 8%positive := second_draft ]> {[ 7%positive := draft_order ]}) draft_world.

(** The order a call returned. *)
Definition returned (r : Outcome OrderSkel * World) : OrderSkel :=
  match r.1 with
  | Return skel => skel
  | _ => Order.addSkel
  end.

(** [order_add] for the session's cart with Alice logged in, a billing
    address, and [state_ordered] given as [None]. *)
Definition session_added : Outcome OrderSkel * World :=
  Order.order_add (PyKey C1) Unset (Given (PyKey 6)) Unset Unset (Given None) Unset Unset
    session_world.

End Scenario2.

Import Scenario2.

(** * Properties *)

(** ** [min], [dict] and [deque] *)

Lemma or_zero_default (x : option Z) : or_zero x = default 0 x.
Proof.
  destruct x as [v|]; simpl; [|done].
  destruct (decide (v = 0)); congruence.
Qed.

Lemma first_min_elem_of {A} (f : A → Z) l m : first_min f l m → m ∈ l.
Proof. intros (l1 & l2 & -> & _). set_solver. Qed.

Lemma first_min_le {A} (f : A → Z) l m x : first_min f l m → x ∈ l → f m ≤ f x.
Proof.
  intros (l1 & l2 & -> & H1 & H2) Hx.
  rewrite Forall_forall in H1. rewrite Forall_forall in H2.
  apply elem_of_app in Hx as [Hx|Hx]; [specialize (H1 _ Hx); lia|].
  apply elem_of_cons in Hx as [->|Hx]; [lia|auto].
Qed.

Lemma first_min_unique {A} (f : A → Z) l m m' :
  first_min f l m → first_min f l m' → m = m'.
Proof.
  intros (l1 & l2 & E & H1 & H2) (l1' & l2' & E' & H1' & H2').
  rewrite Forall_forall in H1, H2, H1', H2'.
  assert (Hlen : length l1 = length l1').
  { destruct (Z.lt_trichotomy (Z.of_nat (length l1)) (Z.of_nat (length l1')))
      as [Hlt|[Heq|Hgt]]; [exfalso|lia|exfalso].
    - assert (Hm : l1' !! length l1 = Some m).
      { rewrite <- (lookup_app_l l1' (m' :: l2')) by lia.
        rewrite <- E', E. apply list_lookup_middle. done. }
      apply list_elem_of_lookup_2 in Hm.
      assert (m' ∈ l1 ++ m :: l2) as Hm' by (rewrite <- E, E'; set_solver).
      specialize (H1' _ Hm).
      apply elem_of_app in Hm' as [Hm'|Hm'].
      + specialize (H1 _ Hm'). lia.
      + apply elem_of_cons in Hm' as [->|Hm']; [lia|]. specialize (H2 _ Hm'). lia.
    - assert (Hm : l1 !! length l1' = Some m').
      { rewrite <- (lookup_app_l l1 (m :: l2)) by lia.
        rewrite <- E, E'. apply list_lookup_middle. done. }
      apply list_elem_of_lookup_2 in Hm.
      assert (m ∈ l1' ++ m' :: l2') as Hm' by (rewrite <- E', E; set_solver).
      specialize (H1 _ Hm).
      apply elem_of_app in Hm' as [Hm'|Hm'].
      + specialize (H1' _ Hm'). lia.
      + apply elem_of_cons in Hm' as [->|Hm']; [lia|]. specialize (H2' _ Hm'). lia. }
  assert (Hl : (l1 ++ m :: l2) !! length l1 = Some m) by (by apply list_lookup_middle).
  assert (Hl' : (l1' ++ m' :: l2') !! length l1 = Some m') by (by apply list_lookup_middle).
  rewrite <- E in Hl. rewrite <- E' in Hl'. congruence.
Qed.

Lemma min_from_first_min {A} (f : A → Z) (l : list A) (best : A) :
  first_min f (best :: l) (min_from f best l).
Proof.
  revert best. induction l as [|x l IH]; intros best; simpl.
  - exists [], []. repeat split; constructor.
  - destruct (decide (f x < f best)) as [Hlt|Hge].
    + destruct (IH x) as (l1 & l2 & E & H1 & H2).
      assert (Hle : f (min_from f x l) ≤ f x).
      { destruct l1 as [|y l1]; simpl in E; injection E as E1 E2.
        - rewrite <- E1. lia.
        - subst y. apply Forall_cons in H1 as [H1 _]. lia. }
      exists (best :: l1), l2. split; [simpl; by rewrite E|].
      split; [|done]. constructor; [lia|done].
    + destruct (IH best) as (l1 & l2 & E & H1 & H2).
      destruct l1 as [|y l1]; simpl in E; injection E as E1 E2.
      * exists [], (x :: l). rewrite <- E1. split; [done|].
        split; [constructor|]. constructor; [lia|].
        rewrite <- E1 in H2. by rewrite <- E2 in H2.
      * subst y. apply Forall_cons in H1 as [Hb H1].
        exists (best :: x :: l1), l2. split; [simpl; do 2 f_equal; exact E2|].
        split; [|done]. constructor; [done|]. constructor; [lia|done].
Qed.

Lemma py_min_None {A} (f : A → Z) (l : list A) : py_min f l = None ↔ l = [].
Proof. destruct l; simpl; split; congruence. Qed.

Lemma py_min_first_min {A} (f : A → Z) (l : list A) (m : A) :
  py_min f l = Some m → first_min f l m.
Proof.
  destruct l as [|x l]; simpl; [done|].
  intros [= <-]. apply min_from_first_min.
Qed.

Lemma py_min_is_Some {A} (f : A → Z) (l : list A) :
  l ≠ [] → ∃ m, py_min f l = Some m.
Proof. destruct l; [done|]. simpl. eauto. Qed.

Lemma deque_pop_snoc {A} (q : list A) (x : A) : deque_pop (q ++ [x]) = Some (q, x).
Proof.
  induction q as [|y q IH]; [done|].
  simpl. rewrite IH. destruct (q ++ [x]) eqn:E; [|done].
  by destruct q.
Qed.

Lemma deque_pop_nil {A} : deque_pop (@nil A) = None.
Proof. done. Qed.

Lemma elem_of_dict_set_keys {V} (d : list (Key * V)) k v k' :
  k' ∈ (dict_set d k v).*1 ↔ k' = k ∨ k' ∈ d.*1.
Proof.
  induction d as [|[k0 v0] d IH]; simpl.
  - rewrite list_elem_of_singleton, elem_of_nil. tauto.
  - destruct (decide (k0 = k)) as [->|Hne].
    + rewrite !fmap_cons, !elem_of_cons. simpl. tauto.
    + rewrite !fmap_cons, !elem_of_cons, IH. simpl. tauto.
Qed.

Lemma dict_set_keys_NoDup {V} (d : list (Key * V)) k v :
  NoDup d.*1 → NoDup (dict_set d k v).*1.
Proof.
  induction d as [|[k' v'] d IH]; simpl; intros Hnd.
  - apply NoDup_singleton.
  - apply NoDup_cons in Hnd as [Hk' Hnd].
    destruct (decide (k' = k)) as [->|Hne]; simpl.
    + by apply NoDup_cons.
    + apply NoDup_cons. split; [|by apply IH].
      rewrite elem_of_dict_set_keys. intros [E|Hin]; [by apply Hne|by apply Hk'].
Qed.

Lemma dict_get_set {V} (d : list (Key * V)) k v k' :
  dict_get (dict_set d k v) k' = if decide (k = k') then Some v else dict_get d k'.
Proof.
  induction d as [|[k0 v0] d IH]; simpl.
  - by destruct (decide (k = k')).
  - destruct (decide (k0 = k)) as [->|Hne]; simpl.
    + by destruct (decide (k = k')).
    + rewrite IH. destruct (decide (k0 = k')), (decide (k = k')); congruence.
Qed.

Lemma dict_get_Some_elem_of {V} (d : list (Key * V)) k v :
  dict_get d k = Some v → (k, v) ∈ d.
Proof.
  induction d as [|[k0 v0] d IH]; simpl; [done|].
  destruct (decide (k0 = k)) as [->|]; [intros [= ->]|]; set_solver.
Qed.

Lemma elem_of_dict_get {V} (d : list (Key * V)) k v :
  NoDup d.*1 → (k, v) ∈ d → dict_get d k = Some v.
Proof.
  induction d as [|[k0 v0] d IH]; simpl; intros Hnd Hin; [set_solver|].
  apply NoDup_cons in Hnd as [Hk0 Hnd].
  apply elem_of_cons in Hin as [[= -> ->]|Hin].
  - by rewrite decide_True.
  - destruct (decide (k0 = k)) as [->|]; [|by apply IH].
    exfalso. apply Hk0. apply list_elem_of_fmap. by exists (k, v).
Qed.

(** ** De-duplication by key *)

Lemma dict_build_get (l : list ShippingConfigSkel) d k :
  dict_get (foldl dict_step d l) k =
    match last (collected_under k l) with
    | Some sc => Some sc
    | None => dict_get d k
    end.
Proof.
  revert d. induction l as [|x l IH]; intros d; [done|].
  cbn [foldl]. rewrite IH. unfold collected_under. rewrite filter_cons.
  unfold dict_step. rewrite dict_get_set.
  destruct (decide (key x = k)) as [Hk|Hk].
  - rewrite last_cons. by destruct (last (filter _ l)).
  - done.
Qed.

Lemma dict_build_NoDup (l : list ShippingConfigSkel) d :
  NoDup d.*1 → NoDup (foldl dict_step d l).*1.
Proof.
  revert d. induction l as [|x l IH]; intros d Hd; simpl; [done|].
  apply IH. by apply dict_set_keys_NoDup.
Qed.

Lemma dict_set_keyed (d : list (Key * ShippingConfigSkel)) sc :
  Forall (fun kv => kv.1 = key kv.2) d →
  Forall (fun kv => kv.1 = key kv.2) (dict_step d sc).
Proof.
  unfold dict_step. induction d as [|[k v] d IH]; simpl; intros Hd.
  - by constructor.
  - apply Forall_cons in Hd as [Hk Hd].
    destruct (decide (k = key sc)); constructor; auto.
Qed.

Lemma dict_build_keyed (l : list ShippingConfigSkel) d :
  Forall (fun kv => kv.1 = key kv.2) d →
  Forall (fun kv => kv.1 = key kv.2) (foldl dict_step d l).
Proof.
  revert d. induction l as [|x l IH]; intros d Hd; simpl; [done|].
  apply IH. by apply dict_set_keyed.
Qed.

Lemma keyed_fst (d : list (Key * ShippingConfigSkel)) :
  Forall (fun kv => kv.1 = key kv.2) d → key <$> d.*2 = d.*1.
Proof.
  induction 1 as [|[k v] d Hk _ IH]; [done|].
  rewrite !fmap_cons. simpl in *. by rewrite IH, Hk.
Qed.

Lemma dedup_by_key_NoDup (l : list ShippingConfigSkel) :
  NoDup (key <$> Shipping.dedup_by_key l).
Proof.
  unfold Shipping.dedup_by_key, dict_values.
  change (foldl _ [] l) with (foldl dict_step [] l).
  rewrite keyed_fst by (apply dict_build_keyed; constructor).
  apply dict_build_NoDup. constructor.
Qed.

Lemma elem_of_dedup_by_key (l : list ShippingConfigSkel) sc :
  sc ∈ Shipping.dedup_by_key l ↔ last (collected_under (key sc) l) = Some sc.
Proof.
  unfold Shipping.dedup_by_key, dict_values.
  change (foldl _ [] l) with (foldl dict_step [] l).
  pose proof (dict_build_keyed l [] (Forall_nil_2 _)) as Hkeyed.
  pose proof (dict_build_NoDup l [] (NoDup_nil_2)) as Hnd.
  pose proof (dict_build_get l [] (key sc)) as Hget. simpl in Hget.
  split.
  - intros Hin. apply list_elem_of_fmap in Hin as ([k v] & E & Hin).
    simpl in E. subst v.
    rewrite Forall_forall in Hkeyed. pose proof (Hkeyed _ Hin) as Hk. simpl in Hk. subst k.
    apply elem_of_dict_get in Hin; [|done].
    rewrite Hget in Hin. by destruct (last _).
  - intros Hlast. rewrite Hlast in Hget.
    apply dict_get_Some_elem_of in Hget.
    apply list_elem_of_fmap. by exists (key sc, sc).
Qed.

Lemma dedup_by_key_keys (l : list ShippingConfigSkel) k :
  k ∈ key <$> Shipping.dedup_by_key l ↔ k ∈ key <$> l.
Proof.
  split.
  - intros Hin. apply list_elem_of_fmap in Hin as (sc & -> & Hin).
    apply elem_of_dedup_by_key in Hin. apply last_Some_elem_of in Hin.
    apply list_elem_of_filter in Hin as [_ Hin]. by apply list_elem_of_fmap_2.
  - intros Hin. apply list_elem_of_fmap in Hin as (sc & -> & Hin).
    assert (Hne : collected_under (key sc) l ≠ []).
    { intros E. eapply (filter_nil_not_elem_of _ _ sc); done. }
    apply last_is_Some in Hne as [sc' Hsc'].
    pose proof (last_Some_elem_of _ _ Hsc') as Hin'.
    apply list_elem_of_filter in Hin' as [Hk _].
    rewrite <- Hk. apply list_elem_of_fmap_2.
    apply elem_of_dedup_by_key. by rewrite Hk.
Qed.

(** ** The walk over the cart tree *)

Lemma visit_children (children : list CartChild) q acc :
  foldl Shipping.visit_child (q, acc) children
  = (q ++ child_nodes children, acc ++ child_configs children).
Proof.
  revert q acc. induction children as [|c cs IH]; intros q acc.
  - simpl. by rewrite !app_nil_r.
  - simpl. destruct c as [k|leaf]; simpl.
    + unfold deque_append. rewrite IH. by rewrite <- app_assoc.
    + destruct (shop_shipping_config (article_skel leaf)) as [config|]; simpl.
      * rewrite IH. by rewrite <- app_assoc.
      * by rewrite IH.
Qed.

Lemma elem_of_child_nodes (children : list CartChild) k :
  k ∈ child_nodes children ↔ ChildNode k ∈ children.
Proof.
  unfold child_nodes. rewrite list_elem_of_omap. split.
  - intros (c & Hc & E). destruct c; simplify_eq. done.
  - intros Hc. by exists (ChildNode k).
Qed.

Lemma walks_list (w : World) (ks : list Key) :
  (∀ k, k ∈ ks → ∃ n coll, walks w [k] n coll) →
  ∃ n coll, walks w ks n coll.
Proof.
  induction ks as [|k ks IH] using rev_ind; intros Hks.
  - exists 0%nat, []. intros fuel q acc. by rewrite !app_nil_r.
  - destruct IH as (n & coll & Hn); [intros; apply Hks; set_solver|].
    destruct (Hks k) as (nk & collk & Hk); [set_solver|].
    exists (nk + n)%nat, (collk ++ coll). intros fuel q acc.
    rewrite app_assoc, <- Nat.add_assoc, Hk, Hn. by rewrite app_assoc.
Qed.

Lemma cart_tree_walks (w : World) (k : Key) :
  cart_tree w k → ∃ n coll, walks w [k] n coll.
Proof.
  induction 1 as [k children Hget _ IH].
  destruct (walks_list w (child_nodes children)) as (n & coll & Hn).
  { intros k' Hk'. apply IH. by apply elem_of_child_nodes. }
  exists (S n), (child_configs children ++ coll). intros fuel q acc.
  simpl. rewrite deque_pop_snoc, Hget. simpl.
  rewrite visit_children. simpl. rewrite Hn. by rewrite app_assoc.
Qed.

Lemma cart_tree_walk_returns (w : World) (k : Key) :
  cart_tree w k →
  ∃ fuel0 collected, ∀ fuel, (fuel0 ≤ fuel)%nat →
    Shipping.walk fuel w [k] [] = Return collected.
Proof.
  intros Ht. destruct (cart_tree_walks w k Ht) as (n & coll & Hn).
  exists n, coll. intros fuel Hle.
  replace fuel with (n + (fuel - n))%nat by lia.
  pose proof (Hn (fuel - n)%nat [] []) as Hw. simpl in Hw. rewrite Hw.
  by destruct (fuel - n)%nat.
Qed.

(** ** Shipping resolution *)

Lemma first_min_ext {A} (f g : A → Z) l m :
  (∀ x, f x = g x) → first_min f l m → first_min g l m.
Proof.
  intros Hfg (l1 & l2 & E & H1 & H2). exists l1, l2. split; [done|].
  split; eapply Forall_impl; eauto; simpl; intros x; rewrite <- !Hfg; done.
Qed.

Lemma cost_key_cost_or_zero s : Shipping.cost_key s = cost_or_zero s.
Proof. apply or_zero_default. Qed.

Lemma session_default_idemp w cart_key :
  Shipping.session_default w (Shipping.session_default w cart_key)
  = Shipping.session_default w cart_key.
Proof.
  unfold Shipping.session_default, Cart.current_session_cart_key.
  destruct cart_key as [k|]; [done|]. by destruct (session_cart w).
Qed.

Lemma get_available_session_default shop fuel w cart_key :
  Shipping.get_available_shipping_skels_for_cart shop fuel w (Shipping.session_default w cart_key)
  = Shipping.get_available_shipping_skels_for_cart shop fuel w cart_key.
Proof.
  unfold Shipping.get_available_shipping_skels_for_cart.
  by rewrite session_default_idemp.
Qed.

Lemma fromDB_key w k skel :
  Cart.fromDB w k = Some skel → key skel = k.
Proof.
  unfold Cart.fromDB. destruct (carts w !! k); simpl; [|done]. by intros [= <-].
Qed.

Lemma fromDB_or_NotFound_inv w cart_key skel :
  Shipping.fromDB_or_NotFound w cart_key = Return skel →
  cart_key = Some (key skel) ∧ Cart.fromDB w (key skel) = Some skel.
Proof.
  unfold Shipping.fromDB_or_NotFound. destruct cart_key as [k|]; simpl; [|done].
  destruct (Cart.fromDB w k) as [skel'|] eqn:Hload; [|done].
  intros [= <-]. by rewrite (fromDB_key _ _ _ Hload).
Qed.

Lemma fromDB_or_NotFound_Some w k skel :
  Cart.fromDB w k = Some skel → Shipping.fromDB_or_NotFound w (Some k) = Return skel.
Proof. intros Hload. unfold Shipping.fromDB_or_NotFound. simpl. by rewrite Hload. Qed.

(** The second flattening turns every candidate into the keys of its
    dict. *)
Lemma chain_from_iterable_cons s l :
  Shipping.chain_from_iterable (s :: l)
  = Shipping.PyDictKey "dest" :: Shipping.PyDictKey "rel" :: Shipping.chain_from_iterable l.
Proof. reflexivity. Qed.

(** The loop stops at the first of them: a string has no ["dest"]. *)
Lemma collect_applicable_candidates shop target candidates :
  Shipping.collect_applicable shop target (Shipping.chain_from_iterable candidates) []
  = match candidates with
    | [] => Return []
    | _ :: _ => Raise Shipping.str_index_error
    end.
Proof. by destruct candidates. Qed.

(** What [get_available_shipping_skels_for_cart] comes to. *)
Lemma get_available_unfold shop fuel w cart_key :
  Shipping.get_available_shipping_skels_for_cart shop fuel w cart_key
  = (cart_skel ← Shipping.fromDB_or_NotFound w (Shipping.session_default w cart_key);
     candidates ← Shipping.get_shipping_skels_for_cart fuel w None (Some cart_skel);
     match candidates with
     | [] => Return []
     | _ :: _ => Raise Shipping.str_index_error
     end).
Proof.
  unfold Shipping.get_available_shipping_skels_for_cart.
  destruct (Shipping.fromDB_or_NotFound w _) as [cart_skel| |]; simpl; [|done..].
  destruct (Shipping.get_shipping_skels_for_cart fuel w None (Some cart_skel))
    as [candidates| |]; simpl; [|done..].
  rewrite collect_applicable_candidates. by destruct candidates.
Qed.

(** When the applicable set was computed, the cart was loaded and had no
    candidate. *)
Lemma get_available_returns_inv shop fuel w cart_key apps :
  Shipping.get_available_shipping_skels_for_cart shop fuel w cart_key = Return apps →
  apps = []
  ∧ ∃ cart_skel,
      Shipping.session_default w cart_key = Some (key cart_skel)
      ∧ Cart.fromDB w (key cart_skel) = Some cart_skel
      ∧ Shipping.get_shipping_skels_for_cart fuel w None (Some cart_skel) = Return [].
Proof.
  rewrite get_available_unfold.
  destruct (Shipping.fromDB_or_NotFound w _) as [cart_skel| |] eqn:Hload; simpl; [|done..].
  destruct (Shipping.get_shipping_skels_for_cart fuel w None (Some cart_skel))
    as [[|s l]| |] eqn:Hall; simpl; [|done..].
  intros [= <-]. split; [done|]. exists cart_skel.
  by destruct (fromDB_or_NotFound_inv _ _ _ Hload).
Qed.

Lemma get_available_raises_on_candidates shop fuel w cart_key cart_skel s l :
  Shipping.fromDB_or_NotFound w (Shipping.session_default w cart_key) = Return cart_skel →
  Shipping.get_shipping_skels_for_cart fuel w None (Some cart_skel) = Return (s :: l) →
  Shipping.get_available_shipping_skels_for_cart shop fuel w cart_key
  = Raise Shipping.str_index_error.
Proof. intros Hload Hall. rewrite get_available_unfold, Hload. simpl. by rewrite Hall. Qed.

(** What [set_shipping_to_cart] comes to once the applicable set is
    there. *)
Lemma set_shipping_to_cart_unfold shop fuel w cart_key shipping_key apps :
  Shipping.get_available_shipping_skels_for_cart shop fuel w cart_key = Return apps →
  Shipping.set_shipping_to_cart shop fuel cart_key shipping_key w
  = (Raise match shipping_key with
           | None => min_empty_error
           | Some _ => NotFound (Some "Provided Shipping key not found")
           end, w).
Proof.
  intros Happs.
  destruct (get_available_returns_inv _ _ _ _ _ Happs) as (-> & cart_skel & Hk & Hload & _).
  unfold Shipping.set_shipping_to_cart, bind, read, raise.
  rewrite get_available_session_default, Happs, Hk. simpl. rewrite Hload.
  by destruct shipping_key.
Qed.

Lemma set_shipping_to_cart_raises shop fuel w cart_key shipping_key e :
  Shipping.get_available_shipping_skels_for_cart shop fuel w cart_key = Raise e →
  Shipping.set_shipping_to_cart shop fuel cart_key shipping_key w = (Raise e, w).
Proof.
  intros Happs. unfold Shipping.set_shipping_to_cart, bind, read.
  by rewrite get_available_session_default, Happs.
Qed.

(** [choose_shipping_skel_for_article] answers [None] exactly for an
    article without a shipping configuration; for a configured article
    whose option list is a list, [opts], it answers [False] exactly when no
    candidate is applicable, and otherwise the first applicable candidate
    of smallest cost, a missing cost counting as zero. *)
Lemma choose_shipping_three_results (shop : Shop) (article_skel : ArticleAbstractSkel) :
  (Shipping.choose_shipping_skel_for_article shop article_skel = Return Shipping.PyNoneChoice
     ↔ shop_shipping_config article_skel = None)
  ∧ ∀ config opts,
      shop_shipping_config article_skel = Some config →
      shipping (dest config) = Some opts →
      let applicable s := Shipping.applicable_for shop (article_target article_skel) s = true in
      (Shipping.choose_shipping_skel_for_article shop article_skel = Return Shipping.PyFalseChoice
         ↔ Forall (fun s => ¬ applicable s) opts)
      ∧ (Exists applicable opts →
         ∃ cheapest,
           Shipping.choose_shipping_skel_for_article shop article_skel
             = Return (Shipping.Chosen cheapest)
           ∧ first_min cost_or_zero (filter applicable opts) cheapest).
Proof.
  split.
  - unfold Shipping.choose_shipping_skel_for_article.
    destruct (shop_shipping_config article_skel) as [config|]; [|done].
    split; [|done].
    destruct (shipping (dest config)) as [opts|]; simpl; [|done].
    destruct (filter _ opts) as [|x l]; [done|]. by destruct (py_min _ _).
  - intros config opts Hconfig Hopts applicable.
    unfold Shipping.choose_shipping_skel_for_article.
    rewrite Hconfig, Hopts. simpl. fold applicable.
    destruct (filter applicable opts) as [|x l] eqn:Hfilter.
    + split.
      * split; [|done]. intros _. apply Forall_forall. intros s Hs Happ.
        by apply (filter_nil_not_elem_of _ _ s Hfilter).
      * intros Hex. apply Exists_exists in Hex as (s & Hs & Happ).
        by destruct (filter_nil_not_elem_of _ _ s Hfilter Happ).
    + assert (Hx : x ∈ filter applicable opts) by (rewrite Hfilter; left).
      apply list_elem_of_filter in Hx as [Happ Hx].
      destruct (py_min Shipping.cost_key (x :: l)) as [m|] eqn:Hmin; [|done].
      apply py_min_first_min in Hmin. split.
      * split; [done|]. intros Hall. rewrite Forall_forall in Hall.
        by destruct (Hall _ Hx).
      * intros _. exists m. split; [done|].
        eapply first_min_ext; [|done]. apply cost_key_cost_or_zero.
Qed.

Lemma deduplicated_returns (w : World) cart_key cart_skel (root : Key) fuel collected :
  Shipping.resolve_cart_key w cart_key cart_skel = Return root →
  Shipping.walk fuel w [root] [] = Return collected →
  Shipping.deduplicated_shipping_configs fuel w cart_key cart_skel
  = Return (Shipping.dedup_by_key collected).
Proof.
  intros Hroot Hwalk. unfold Shipping.deduplicated_shipping_configs.
  rewrite Hroot. simpl. by rewrite Hwalk.
Qed.

(** C4: walking a cart subtree returns, and the configurations kept after
    the walk carry each key once: the keys kept are those collected, and
    under each key stands the reference collected last. *)
Theorem dedup_last_write_wins (w : World) (cart_key : option Key)
    (cart_skel : option CartNodeSkel) (root : Key) :
  Shipping.resolve_cart_key w cart_key cart_skel = Return root →
  cart_tree w root →
  ∃ fuel0 collected,
    (∀ fuel, (fuel0 ≤ fuel)%nat →
       Shipping.walk fuel w [root] [] = Return collected
       ∧ Shipping.deduplicated_shipping_configs fuel w cart_key cart_skel
         = Return (Shipping.dedup_by_key collected))
    ∧ NoDup (key <$> Shipping.dedup_by_key collected)
    ∧ (∀ k, k ∈ key <$> Shipping.dedup_by_key collected ↔ k ∈ key <$> collected)
    ∧ (∀ sc, sc ∈ Shipping.dedup_by_key collected
             ↔ last (collected_under (key sc) collected) = Some sc).
Proof.
  intros Hroot Htree.
  destruct (cart_tree_walk_returns w root Htree) as (fuel0 & collected & Hwalk).
  exists fuel0, collected. split; [|split; [|split]].
  - intros fuel Hle. split; [by apply Hwalk|].
    apply (deduplicated_returns w cart_key cart_skel root); [done|by apply Hwalk].
  - apply dedup_by_key_NoDup.
  - apply dedup_by_key_keys.
  - apply elem_of_dedup_by_key.
Qed.

(** ** The checkout state machine *)

Lemma load_order_loaded (shop : Shop) (arg : PyArg) (w : World) (k : Key) (skel : OrderSkel) :
  _normalize_external_key shop arg "order_key" = Return (PyKey k) →
  Order.fromDB w k = Some skel →
  Order.load_order shop arg w = (Return skel, w).
Proof.
  intros Hnorm Hload. unfold Order.load_order, bind, read.
  by rewrite Hnorm, Hload.
Qed.

Lemma load_order_inv (shop : Shop) (arg : PyArg) (w w' : World) (skel : OrderSkel) :
  Order.load_order shop arg w = (Return skel, w') →
  w' = w ∧ ∃ k, _normalize_external_key shop arg "order_key" = Return (PyKey k)
                ∧ Order.fromDB w k = Some skel.
Proof.
  unfold Order.load_order, bind, read, raise.
  destruct (_normalize_external_key shop arg "order_key") as [[k| |s]| |]; try done.
  destruct (Order.fromDB w k) as [skel'|] eqn:Hload; [|done].
  intros [= -> ->]. eauto.
Qed.

Lemma fromDB_order_key (w : World) (k : Key) (skel : OrderSkel) :
  Order.fromDB w k = Some skel → order_key skel = Some k.
Proof.
  unfold Order.fromDB. destruct (orders w !! k); simpl; [|done]. by intros [= <-].
Qed.

Lemma fromDB_put_order (w : World) (k : Key) (skel : OrderSkel) :
  order_key skel = Some k →
  Order.fromDB (Order.put_order k skel w) k = Some skel.
Proof.
  intros Hk. unfold Order.fromDB, Order.put_order. simpl.
  rewrite lookup_insert_eq. simpl. destruct skel. simpl in Hk. by rewrite Hk.
Qed.

Lemma can_checkout_errors (shop : Shop) (skel : OrderSkel) (errors : list string) :
  Order.can_checkout shop skel = Return errors →
  ∃ payment_errors,
    errors = missing_cart_errors skel ++ payment_errors
    ∧ ((Order.truthy_str (payment_provider skel) = None
        ∧ payment_errors = ["missing payment_provider"])
       ∨ (∃ name pp, Order.truthy_str (payment_provider skel) = Some name
            ∧ Order.get_payment_provider_by_name shop name = Return pp
            ∧ payment_errors = PaymentProviderAbstract.can_checkout pp skel)).
Proof.
  unfold Order.can_checkout, missing_cart_errors.
  destruct (Order.truthy_str (payment_provider skel)) as [name|] eqn:Htruthy.
  - destruct (Order.get_payment_provider_by_name shop name) as [pp| |] eqn:Hfind; [|done..].
    simpl. intros Herr. exists (PaymentProviderAbstract.can_checkout pp skel). split.
    + destruct (PaymentProviderAbstract.can_checkout pp skel), (cart skel);
        simpl in *; by injection Herr as <-.
    + right. by exists name, pp.
  - intros [= <-]. exists ["missing payment_provider"]. split; [|by left].
    by destruct (cart skel).
Qed.

Lemma can_order_errors (shop : Shop) (skel : OrderSkel) (errors : list string) :
  Order.can_order shop skel = Return errors →
  ∃ payment_errors,
    errors = (if is_ordered skel then ["already is_ordered"] else [])
             ++ missing_cart_errors skel ++ payment_errors
    ∧ ((Order.truthy_str (payment_provider skel) = None
        ∧ payment_errors = ["missing payment_provider"])
       ∨ (∃ name pp, Order.truthy_str (payment_provider skel) = Some name
            ∧ Order.get_payment_provider_by_name shop name = Return pp
            ∧ payment_errors = PaymentProviderAbstract.can_order pp skel)).
Proof.
  unfold Order.can_order, missing_cart_errors.
  destruct (Order.truthy_str (payment_provider skel)) as [name|] eqn:Htruthy.
  - destruct (Order.get_payment_provider_by_name shop name) as [pp| |] eqn:Hfind; [|done..].
    simpl. intros Herr. exists (PaymentProviderAbstract.can_order pp skel). split.
    + destruct (PaymentProviderAbstract.can_order pp skel), (cart skel), (is_ordered skel);
        simpl in *; by injection Herr as <-.
    + right. by exists name, pp.
  - intros [= <-]. exists ["missing payment_provider"]. split; [|by left].
    by destruct (cart skel), (is_ordered skel).
Qed.

Lemma can_order_returns (shop : Shop) (skel : OrderSkel) :
  provider_known shop skel → ∃ errors, Order.can_order shop skel = Return errors.
Proof.
  unfold Order.can_order, provider_known. intros Hknown.
  destruct (Order.truthy_str _) as [name|]; [|eauto].
  destruct (Hknown name eq_refl) as [pp ->]. simpl.
  destruct (PaymentProviderAbstract.can_order pp skel); eauto.
Qed.

Lemma checkout_order_steps (shop : Shop) (arg : PyArg) (w : World) (k : Key) (skel : OrderSkel) :
  _normalize_external_key shop arg "order_key" = Return (PyKey k) →
  Order.fromDB w k = Some skel →
  Order.checkout_order shop arg w =
    match Order.can_order shop skel with
    | Return [] => (Return (Order.JsonSkel (Order.set_is_ordered true skel)),
                    Order.put_order k (Order.set_is_ordered true skel) w)
    | Return errors => (Return (Order.JsonErrors errors 400), w)
    | Raise e => (Raise e, w)
    | OutOfFuel => (OutOfFuel, w)
    end.
Proof.
  intros Hnorm Hload. unfold Order.checkout_order.
  unfold bind at 1. rewrite (load_order_loaded _ _ _ _ _ Hnorm Hload).
  unfold bind, read, ret.
  destruct (Order.can_order shop skel) as [[|e errors]| |]; try done.
  unfold Order.toDB. simpl. by rewrite (fromDB_order_key _ _ _ Hload).
Qed.

Lemma checkout_start_steps (shop : Shop) (arg : PyArg) (w : World) (k : Key) (skel : OrderSkel) :
  _normalize_external_key shop arg "order_key" = Return (PyKey k) →
  Order.fromDB w k = Some skel →
  Order.checkout_start shop arg w =
    match Order.can_checkout shop skel with
    | Return [] =>
        let skel' := Order.set_order_uid (Some (Order.format_uid (clock w))) skel in
        (Return (Order.JsonSkel skel'), Order.put_order k skel' w)
    | Return errors => (Return (Order.JsonErrors errors 400), w)
    | Raise e => (Raise e, w)
    | OutOfFuel => (OutOfFuel, w)
    end.
Proof.
  intros Hnorm Hload. unfold Order.checkout_start.
  unfold bind at 1. rewrite (load_order_loaded _ _ _ _ _ Hnorm Hload).
  unfold bind, read, ret, Order.assign_uid, Order.freeze_order, read.
  destruct (Order.can_checkout shop skel) as [[|e errors]| |]; try done.
  unfold Order.toDB. simpl. by rewrite (fromDB_order_key _ _ _ Hload).
Qed.

(** C8: an order that fails [can_checkout] gets the whole list of failures
    back with status 400 and the world stays as it was: nothing is frozen,
    no UID is assigned, nothing is written.  The list joins the check of
    the cart with the check of the payment provider; an order with a cart
    and no payment provider gets exactly ["missing payment_provider"]. *)
Theorem checkout_start_reports_all_failures (shop : Shop) (arg : PyArg) (w : World)
    (k : Key) (skel : OrderSkel) (errors : list string) :
  _normalize_external_key shop arg "order_key" = Return (PyKey k) →
  Order.fromDB w k = Some skel →
  Order.can_checkout shop skel = Return errors →
  errors ≠ [] →
  Order.checkout_start shop arg w = (Return (Order.JsonErrors errors 400), w)
  ∧ (∃ payment_errors,
       errors = missing_cart_errors skel ++ payment_errors
       ∧ ((Order.truthy_str (payment_provider skel) = None
           ∧ payment_errors = ["missing payment_provider"])
          ∨ (∃ name pp, Order.truthy_str (payment_provider skel) = Some name
               ∧ Order.get_payment_provider_by_name shop name = Return pp
               ∧ payment_errors = PaymentProviderAbstract.can_checkout pp skel)))
  ∧ (is_Some (cart skel) → payment_provider skel = None →
     errors = ["missing payment_provider"]).
Proof.
  intros Hnorm Hload Herrors Hne. split; [|split].
  - rewrite (checkout_start_steps _ _ _ _ _ Hnorm Hload), Herrors.
    by destruct errors.
  - by apply can_checkout_errors.
  - intros [c Hc] Hpp. unfold Order.can_checkout in Herrors.
    rewrite Hc, Hpp in Herrors. simpl in Herrors. by injection Herrors as <-.
Qed.

(** C1 (as amended): for an order already ordered whose payment provider
    can be asked, [checkout_order] answers with the list of failures, with
    "already is_ordered" in it, and leaves the world as it was.  So of two
    calls in a row of which the first succeeds, the first finds
    [is_ordered] false and writes it true, and the second is answered with
    that failure and writes nothing.  An order naming a provider that is
    not registered makes the call raise [LookupError], the world again left
    as it was. *)
Theorem checkout_order_only_once (shop : Shop) (arg : PyArg) (k : Key) :
  _normalize_external_key shop arg "order_key" = Return (PyKey k) →
  (∀ w skel,
     Order.fromDB w k = Some skel →
     is_ordered skel = true →
     provider_known shop skel →
     ∃ errors,
       Order.checkout_order shop arg w = (Return (Order.JsonErrors errors 400), w)
       ∧ "already is_ordered" ∈ errors)
  ∧ (∀ w skel1 w1,
       Order.checkout_order shop arg w = (Return (Order.JsonSkel skel1), w1) →
       (∃ skel0, Order.fromDB w k = Some skel0 ∧ is_ordered skel0 = false)
       ∧ Order.fromDB w1 k = Some skel1
       ∧ is_ordered skel1 = true
       ∧ ∃ errors,
           Order.checkout_order shop arg w1 = (Return (Order.JsonErrors errors 400), w1)
           ∧ "already is_ordered" ∈ errors)
  ∧ (∀ w skel,
       Order.fromDB w k = Some skel →
       ¬ provider_known shop skel →
       ∃ msg, Order.checkout_order shop arg w = (Raise (LookupError msg), w)).
Proof.
  intros Hnorm.
  assert (Hagain : ∀ w skel,
     Order.fromDB w k = Some skel →
     is_ordered skel = true →
     provider_known shop skel →
     ∃ errors,
       Order.checkout_order shop arg w = (Return (Order.JsonErrors errors 400), w)
       ∧ "already is_ordered" ∈ errors).
  { intros w skel Hload Hordered Hknown.
    destruct (can_order_returns shop skel Hknown) as [errors Herrors].
    destruct (can_order_errors shop skel errors Herrors) as (pe & E & _).
    rewrite Hordered in E. exists errors.
    rewrite (checkout_order_steps _ _ _ _ _ Hnorm Hload), Herrors.
    subst errors. simpl. split; [done|]. set_solver. }
  split; [exact Hagain|]. split; cycle 1.
  { intros w skel Hload Hunknown.
    rewrite (checkout_order_steps _ _ _ _ _ Hnorm Hload).
    unfold provider_known in Hunknown. unfold Order.can_order.
    destruct (Order.truthy_str (payment_provider skel)) as [name|];
      [|by destruct Hunknown].
    destruct (Order.get_payment_provider_by_name shop name) as [pp| |] eqn:Hpp.
    - destruct Hunknown. intros name' [= <-]. eauto.
    - unfold Order.get_payment_provider_by_name in Hpp.
      destruct (find _ (payment_providers shop)); [done|].
      injection Hpp as <-. simpl. eauto.
    - unfold Order.get_payment_provider_by_name in Hpp.
      by destruct (find _ (payment_providers shop)). }
  intros w skel1 w1 Hfirst.
  assert (∃ skel0, Order.fromDB w k = Some skel0) as [skel0 Hload].
  { unfold Order.checkout_order in Hfirst. unfold bind at 1 in Hfirst.
    destruct (Order.load_order shop arg w) as [[skel0| |] w0] eqn:Hl; try done.
    apply load_order_inv in Hl as (-> & k' & Hk' & Hload).
    rewrite Hnorm in Hk'. injection Hk' as <-. eauto. }
  rewrite (checkout_order_steps _ _ _ _ _ Hnorm Hload) in Hfirst.
  destruct (Order.can_order shop skel0) as [[|e errors]| |] eqn:Hcan; try done.
  injection Hfirst as <- <-.
  destruct (can_order_errors shop skel0 [] Hcan) as (pe & E & Hpe).
  assert (Hfalse : is_ordered skel0 = false).
  { destruct (is_ordered skel0); [done|done]. }
  assert (pe = []) as -> by (by destruct (is_ordered skel0), (missing_cart_errors skel0), pe).
  destruct Hpe as [[_ ?]|(name & pp & Hname & Hpp & _)]; [done|].
  pose proof (fromDB_order_key _ _ _ Hload) as Hkey.
  assert (Hload1 : Order.fromDB (Order.put_order k (Order.set_is_ordered true skel0) w) k
                   = Some (Order.set_is_ordered true skel0)).
  { by apply fromDB_put_order. }
  split; [eauto|]. split; [done|]. split; [done|].
  apply (Hagain _ _ Hload1); [done|].
  intros name' Hname'. simpl in Hname'. rewrite Hname in Hname'.
  injection Hname' as <-. eauto.
Qed.

Lemma is_valid_node_fromDB (w : World) (k : Key) (root_node : bool) :
  Cart.is_valid_node w k root_node = true →
  ∃ cart_skel, Cart.fromDB w k = Some cart_skel.
Proof.
  unfold Cart.is_valid_node, Cart.fromDB. simpl.
  destruct (carts w !! k); simpl; [eauto|done].
Qed.

(** A call of [order_add] that raises has written nothing. *)
Lemma order_add_raise_writes_nothing (cart_key : PyArg)
    (payment_provider : Arg (option string)) (billing_address_key : Arg PyArg)
    (email : Arg (option string)) (customer_key : Arg PyArg)
    (state_ordered state_paid state_rts : Arg (option bool))
    (w w' : World) (e : Exception) :
  Order.order_add cart_key payment_provider billing_address_key email customer_key
    state_ordered state_paid state_rts w = (Raise e, w') →
  w' = w.
Proof.
  unfold Order.order_add, bind, read, ret, raise, Order.toDB,
    Cart.detach_session_cart, modify.
  intros H. simpl in H.
  repeat (split_match; simpl in *; try congruence).
Qed.

(** C7 (as amended): with a valid root cart and a customer key of the
    right type, a billing address key that resolves to an address of another
    type makes [order_add] raise [InvalidArgumentException] with the reason
    "Address is not of type billing.", and the world stays as it was; and
    whatever [order_add] raises, it has written no order. *)
Theorem order_add_rejects_non_billing_address (w : World) (cart_key address_key : Key)
    (ty : AddressType)
    (payment_provider : Arg (option string)) (email : Arg (option string))
    (customer_key : Arg PyArg) (state_ordered state_paid state_rts : Arg (option bool)) :
  (∃ c, Order.key_or_none "customer_key" customer_key = Return c) →
  Cart.is_valid_node w cart_key true = true →
  addresses w !! address_key = Some ty →
  ty ≠ BILLING →
  (∃ argument,
     Order.order_add (PyKey cart_key) payment_provider (Given (PyKey address_key))
       email customer_key state_ordered state_paid state_rts w
     = (Raise (InvalidArgumentException argument "Address is not of type billing."), w))
  ∧ (∀ any_cart_key any_billing e w',
       Order.order_add any_cart_key payment_provider any_billing
         email customer_key state_ordered state_paid state_rts w = (Raise e, w') →
       orders w' = orders w).
Proof.
  intros [c Hc] Hvalid Haddr Hty. split.
  - destruct (is_valid_node_fromDB _ _ _ Hvalid) as [cart_skel Hcart].
    exists "shipping_address".
    unfold Order.order_add, bind, read, ret, raise.
    cbn [Order.key_or_none]. rewrite Hc, Hvalid, Hcart.
    unfold Order.resolve_address. rewrite Haddr. simpl.
    destruct payment_provider; simpl; by rewrite decide_True.
  - intros any_cart_key any_billing e w' Hraise.
    by rewrite (order_add_raise_writes_nothing _ _ _ _ _ _ _ _ _ _ _ Hraise).
Qed.


(** ** The theorems on the concrete carts and orders *)

Lemma choose_shipping_three_results_witness :
  shop_shipping_config (article 50 SC1) = Some (mkRelation SC1 None)
  ∧ shipping SC1 = Some [option_5; option_3]
  ∧ (∃ cheapest,
       Shipping.choose_shipping_skel_for_article shop (article 50 SC1)
         = Return (Shipping.Chosen cheapest)
       ∧ first_min cost_or_zero
           (filter (applicable_to shop (article_target (article 50 SC1)))
                   [option_5; option_3])
           cheapest)
  ∧ Shipping.choose_shipping_skel_for_article bare_shop (article 50 SC1)
    = Return Shipping.PyFalseChoice
  ∧ Shipping.choose_shipping_skel_for_article shop (mkArticle 50 None)
    = Return Shipping.PyNoneChoice.
Proof.
  split; [reflexivity|]. split; [reflexivity|]. split; [|split].
  - apply (proj2 (proj2 (choose_shipping_three_results shop (article 50 SC1))
                    (mkRelation SC1 None) [option_5; option_3] eq_refl eq_refl)).
    apply Exists_cons_hd. reflexivity.
  - apply (proj1 (proj2 (choose_shipping_three_results bare_shop (article 50 SC1))
                    (mkRelation SC1 None) [option_5; option_3] eq_refl eq_refl)).
    repeat constructor; discriminate.
  - apply (proj1 (choose_shipping_three_results shop (mkArticle 50 None))).
    reflexivity.
Defined.

(** An option list that is [None] cannot be iterated: the call raises. *)
Lemma choose_shipping_null_options (shop : Shop) (article_skel : ArticleAbstractSkel)
    (config : Relation ShippingConfigSkel) :
  shop_shipping_config article_skel = Some config →
  shipping (dest config) = None →
  Shipping.choose_shipping_skel_for_article shop article_skel
  = Raise (TypeError "'NoneType' object is not iterable").
Proof.
  intros Hconfig Hnull. unfold Shipping.choose_shipping_skel_for_article.
  by rewrite Hconfig, Hnull.
Qed.

Lemma nested_world_cart_tree : cart_tree nested_world 1%positive.
Proof.
  apply (cart_tree_node _ _ [leaf 20 SC1; ChildNode 2; leaf 21 SC2]); [reflexivity|].
  intros k' Hin.
  assert (k' = 2%positive) as ->.
  { rewrite !elem_of_cons, elem_of_nil in Hin.
    destruct Hin as [E|[E|[E|[]]]]; [discriminate|congruence|discriminate]. }
  apply (cart_tree_node _ _ [leaf 22 SC1_later]); [reflexivity|].
  intros k'' Hin'. rewrite elem_of_cons, elem_of_nil in Hin'.
  destruct Hin' as [E|[]]. discriminate.
Qed.

Lemma dedup_last_write_wins_witness :
  Shipping.resolve_cart_key nested_world (Some 1%positive) None = Return 1%positive
  ∧ cart_tree nested_world 1%positive
  ∧ ∃ fuel0 collected,
      (∀ fuel, (fuel0 ≤ fuel)%nat →
         Shipping.walk fuel nested_world [1%positive] [] = Return collected
         ∧ Shipping.deduplicated_shipping_configs fuel nested_world (Some 1%positive) None
           = Return (Shipping.dedup_by_key collected))
      ∧ NoDup (key <$> Shipping.dedup_by_key collected)
      ∧ (∀ k, k ∈ key <$> Shipping.dedup_by_key collected ↔ k ∈ key <$> collected)
      ∧ (∀ sc, sc ∈ Shipping.dedup_by_key collected
               ↔ last (collected_under (key sc) collected) = Some sc).
Proof.
  split; [reflexivity|]. split; [exact nested_world_cart_tree|].
  exact (dedup_last_write_wins nested_world (Some 1%positive) None 1%positive
           eq_refl nested_world_cart_tree).
Defined.

(** The collapse on the nested cart: the key of [SC1] stays where it was
    first met and holds the reference met last. *)
Example dedup_nested_world :
  Shipping.walk 2 nested_world [1%positive] [] = Return [SC1; SC2; SC1_later]
  ∧ Shipping.dedup_by_key [SC1; SC2; SC1_later] = [SC1_later; SC2].
Proof. split; reflexivity. Qed.

(** The candidates of the cart [C1]: the two options of [SC1], once. *)
Lemma C1_world_candidates (fuel : nat) :
  Shipping.get_shipping_skels_for_cart (S fuel) C1_world None
    (Some (mkCartNode C1 None 10 None))
  = Return [option_5; option_3].
Proof. destruct fuel; reflexivity. Qed.

Lemma C1_world_available_raises (shop : Shop) (fuel : nat) :
  Shipping.get_available_shipping_skels_for_cart shop (S fuel) C1_world (Some C1)
  = Raise Shipping.str_index_error.
Proof.
  apply (get_available_raises_on_candidates shop (S fuel) C1_world (Some C1)
           (mkCartNode C1 None 10 None) option_5 [option_3]); [reflexivity|].
  apply C1_world_candidates.
Qed.

(** C3: the article has a shipping configuration, and none of its
    candidate options is applicable, for it has none: the option list is
    [None].  The call does not answer [False]; it raises [TypeError], for
    it iterates the list as it is, where [get_shipping_skels_for_cart]
    reads the same bone with [or []] and finds no candidate. *)
Theorem choose_shipping_null_option_list_raises :
  shop_shipping_config (article 50 SC_null) = Some (mkRelation SC_null None)
  ∧ shipping SC_null = None
  ∧ Forall (fun s => ¬ applicable_to shop (article_target (article 50 SC_null)) s)
           (or_empty (shipping SC_null))
  ∧ Shipping.choose_shipping_skel_for_article shop (article 50 SC_null)
    = Raise (TypeError "'NoneType' object is not iterable")
  ∧ Shipping.choose_shipping_skel_for_article shop (article 50 SC_null)
    ≠ Return Shipping.PyFalseChoice
  ∧ Shipping.get_shipping_skels_for_cart 1
      (with_carts {[ C1 := mkCartEntry None 10 None [leaf 20 SC_null] ]} empty_world)
      (Some C1) None
    = Return [].
Proof.
  split; [reflexivity|]. split; [reflexivity|]. split; [constructor|].
  split; [|split; [|reflexivity]].
  - by apply (choose_shipping_null_options shop _ (mkRelation SC_null None)).
  - rewrite (choose_shipping_null_options shop _ (mkRelation SC_null None)); done.
Qed.

(** C5: on the scenario of the claim (the cart [C1], two leaves with the
    one configuration [SC1], whose options are one of cost 5, applicable,
    and one of cost 3, not applicable) the candidates are the two options
    and the option of cost 5 is the applicable one; but the call flattens
    the flat candidate list once more, meets the keys of the first option's
    dict and raises [TypeError] at [shipping["dest"]]. *)
Theorem available_shippings_scenario_raises :
  Cart.fromDB C1_world C1 = Some (mkCartNode C1 None 10 None)
  ∧ Shipping.get_shipping_skels_for_cart 1 C1_world None (Some (mkCartNode C1 None 10 None))
    = Return [option_5; option_3]
  ∧ filter (applicable_to shop (cart_target (mkCartNode C1 None 10 None)))
           [option_5; option_3]
    = [option_5]
  ∧ Shipping.chain_from_iterable [option_5; option_3]
    = Shipping.PyDictKey <$> ["dest"; "rel"; "dest"; "rel"]
  ∧ ∀ fuel,
      Shipping.get_available_shipping_skels_for_cart shop (S fuel) C1_world (Some C1)
      = Raise (TypeError "string indices must be integers, not 'str'").
Proof.
  split; [reflexivity|]. split; [reflexivity|]. split; [reflexivity|].
  split; [reflexivity|]. intros fuel. apply C1_world_available_raises.
Qed.

(** C6: on the cart [C1] the key 100 is the key of the applicable option
    and the key 101 that of the inapplicable one.  With either key given,
    [set_shipping_to_cart] raises the [TypeError] of the applicable set and
    writes nothing: the first key is not handed to [cart_update], which
    would have set it, and the second is not answered with [NotFound]. *)
Theorem explicit_shipping_key_raises_TypeError :
  filter (applicable_to shop (cart_target (mkCartNode C1 None 10 None)))
         [option_5; option_3]
  = [option_5]
  ∧ key (dest option_5) = 100%positive
  ∧ key (dest option_3) = 101%positive
  ∧ (∀ fuel,
       Shipping.set_shipping_to_cart shop (S fuel) (Some C1) (Some 100%positive) C1_world
       = (Raise (TypeError "string indices must be integers, not 'str'"), C1_world))
  ∧ (∀ fuel,
       Shipping.set_shipping_to_cart shop (S fuel) (Some C1) (Some 101%positive) C1_world
       = (Raise (TypeError "string indices must be integers, not 'str'"), C1_world))
  ∧ ∃ w', Cart.cart_update C1 (Some 100%positive) C1_world = (Return tt, w')
          ∧ entry_shipping <$> carts w' !! C1 = Some (Some 100%positive).
Proof.
  split; [reflexivity|]. split; [reflexivity|]. split; [reflexivity|].
  split; [|split].
  - intros fuel. apply set_shipping_to_cart_raises, C1_world_available_raises.
  - intros fuel. apply set_shipping_to_cart_raises, C1_world_available_raises.
  - eexists. split; reflexivity.
Qed.

(** C9: the cart [C1] has a non-empty applicable set, the option of cost
    5.  With no key given, [set_shipping_to_cart] raises the [TypeError] of
    the applicable set and writes nothing; the cheapest applicable option
    is not chosen and [cart_update] is not called. *)
Theorem omitted_shipping_key_raises_TypeError :
  filter (applicable_to shop (cart_target (mkCartNode C1 None 10 None)))
         [option_5; option_3]
  = [option_5]
  ∧ first_min cost_or_zero [option_5] option_5
  ∧ (∀ fuel,
       Shipping.set_shipping_to_cart shop (S fuel) (Some C1) None C1_world
       = (Raise (TypeError "string indices must be integers, not 'str'"), C1_world))
  ∧ ∃ w', Cart.cart_update C1 (Some (key (dest option_5))) C1_world = (Return tt, w')
          ∧ entry_shipping <$> carts w' !! C1 = Some (Some 100%positive).
Proof.
  split; [reflexivity|]. split; [|split].
  - exists [], []. repeat split; constructor.
  - intros fuel. apply set_shipping_to_cart_raises, C1_world_available_raises.
  - eexists. split; reflexivity.
Qed.

(** C10: where no option is offered, none of the two candidates of the
    cart [C1] is applicable and its applicable set is empty.  With no key
    given, [set_shipping_to_cart] does not get as far as the minimum: it
    raises the [TypeError] of the applicable set, not [ValueError].  The
    minimum of nothing is reached for a cart without any candidate. *)
Theorem no_applicable_option_raises_TypeError :
  Shipping.get_shipping_skels_for_cart 1 C1_world None (Some (mkCartNode C1 None 10 None))
  = Return [option_5; option_3]
  ∧ filter (applicable_to bare_shop (cart_target (mkCartNode C1 None 10 None)))
           [option_5; option_3]
    = []
  ∧ (∀ fuel,
       Shipping.set_shipping_to_cart bare_shop (S fuel) (Some C1) None C1_world
       = (Raise (TypeError "string indices must be integers, not 'str'"), C1_world))
  ∧ Shipping.set_shipping_to_cart bare_shop 1 (Some C1) None C1_world
    ≠ (Raise min_empty_error, C1_world)
  ∧ Shipping.set_shipping_to_cart bare_shop 1 (Some C1) None empty_cart_world
    = (Raise min_empty_error, empty_cart_world).
Proof.
  split; [reflexivity|]. split; [reflexivity|]. split; [|split].
  - intros fuel. apply set_shipping_to_cart_raises, C1_world_available_raises.
  - rewrite (set_shipping_to_cart_raises bare_shop 1 C1_world (Some C1) None _
               (C1_world_available_raises bare_shop 0)).
    discriminate.
  - apply (set_shipping_to_cart_unfold bare_shop 1 empty_cart_world (Some C1) None []).
    reflexivity.
Qed.

(** C1, as stated, fails: the order is already ordered, but the payment
    provider it names is not registered, and [checkout_order] raises
    [LookupError] where a list of failures was promised. *)
Lemma checkout_order_unknown_provider_raises :
  Order.fromDB ordered_world 7 = Some ordered_order
  ∧ is_ordered ordered_order = true
  ∧ Order.checkout_order bare_shop (PyKey 7) ordered_world
    = (Raise (LookupError "Unknown payment provider invoice"), ordered_world)
  ∧ ¬ ∃ errors w',
        Order.checkout_order bare_shop (PyKey 7) ordered_world
        = (Return (Order.JsonErrors errors 400), w').
Proof.
  split; [reflexivity|]. split; [reflexivity|]. split; [reflexivity|].
  intros (errors & w' & H). vm_compute in H. discriminate.
Qed.

Lemma checkout_order_only_once_witness :
  _normalize_external_key shop (PyKey 7) "order_key" = Return (PyKey 7)
  ∧ (∃ errors,
       Order.checkout_order shop (PyKey 7) ordered_world
         = (Return (Order.JsonErrors errors 400), ordered_world)
       ∧ "already is_ordered" ∈ errors)
  ∧ ((∃ skel0, Order.fromDB draft_world 7 = Some skel0 ∧ is_ordered skel0 = false)
     ∧ Order.fromDB ordered_world 7 = Some ordered_order
     ∧ is_ordered ordered_order = true
     ∧ ∃ errors,
         Order.checkout_order shop (PyKey 7) ordered_world
           = (Return (Order.JsonErrors errors 400), ordered_world)
         ∧ "already is_ordered" ∈ errors).
Proof.
  split; [reflexivity|]. split.
  - apply (proj1 (checkout_order_only_once shop (PyKey 7) 7 eq_refl)
             ordered_world ordered_order); [reflexivity|reflexivity|].
    intros name [= <-]. exists invoice. reflexivity.
  - apply (proj1 (proj2 (checkout_order_only_once shop (PyKey 7) 7 eq_refl))
             draft_world ordered_order ordered_world).
    reflexivity.
Defined.

(** C2: at [checkout_start] nothing is copied from the cart.  The cart's
    total is 25; the order keeps the total 10 and the cart values it was
    made with, and only the UID is new. *)
Theorem checkout_start_copies_nothing_from_the_cart :
  total <$> Cart.fromDB draft_world C1 = Some 25
  ∧ Order.checkout_start shop (PyKey 7) draft_world
    = (Return (Order.JsonSkel
                 (Order.set_order_uid (Some "1700-0000-0012-3456") draft_order)),
       Order.put_order 7
         (Order.set_order_uid (Some "1700-0000-0012-3456") draft_order) draft_world)
  ∧ order_total (Order.set_order_uid (Some "1700-0000-0012-3456") draft_order) = 10
  ∧ Order.freeze_order draft_order = draft_order.
Proof. repeat split; reflexivity. Qed.

(** Whatever the order: a successful [checkout_start] writes the order as
    loaded with a UID set, and nothing of the carts enters. *)
Lemma checkout_start_only_sets_uid (shop : Shop) (arg : PyArg) (w w' : World)
    (k : Key) (skel skel' : OrderSkel) :
  _normalize_external_key shop arg "order_key" = Return (PyKey k) →
  Order.fromDB w k = Some skel →
  Order.checkout_start shop arg w = (Return (Order.JsonSkel skel'), w') →
  skel' = Order.set_order_uid (Some (Order.format_uid (clock w))) skel
  ∧ w' = Order.put_order k skel' w.
Proof.
  intros Hnorm Hload. rewrite (checkout_start_steps _ _ _ _ _ Hnorm Hload).
  destruct (Order.can_checkout shop skel) as [[|e errors]| |]; try done.
  simpl. by intros [= <- <-].
Qed.

(** C7, as stated, fails: the billing address is not a billing address,
    but the cart key names no cart, and [order_add] raises [ValueError]
    before it looks at the address. *)
Lemma order_add_invalid_cart_raises_ValueError :
  Order.resolve_address address_world_without_cart 5
    = Some (mkRelation (mkAddress 5 SHIPPING) None)
  ∧ Order.order_add (PyKey C1) Unset (Given (PyKey 5)) Unset Unset Unset Unset Unset
      address_world_without_cart
    = (Raise (ValueError "Invalid cart_key!"), address_world_without_cart)
  ∧ ¬ ∃ argument descr w',
        Order.order_add (PyKey C1) Unset (Given (PyKey 5)) Unset Unset Unset Unset Unset
          address_world_without_cart
        = (Raise (InvalidArgumentException argument descr), w').
Proof.
  split; [reflexivity|]. split; [reflexivity|].
  intros (argument & descr & w' & H). vm_compute in H. discriminate.
Qed.

Lemma order_add_rejects_non_billing_address_witness :
  (∃ c, Order.key_or_none "customer_key" Unset = Return c)
  ∧ Cart.is_valid_node address_world C1 true = true
  ∧ addresses address_world !! 5%positive = Some SHIPPING
  ∧ SHIPPING ≠ BILLING
  ∧ (∃ argument,
       Order.order_add (PyKey C1) Unset (Given (PyKey 5)) Unset Unset Unset Unset Unset
         address_world
       = (Raise (InvalidArgumentException argument "Address is not of type billing."),
          address_world))
  ∧ (∀ any_cart_key any_billing e w',
       Order.order_add any_cart_key Unset any_billing Unset Unset Unset Unset Unset
         address_world = (Raise e, w') →
       orders w' = orders address_world).
Proof.
  split; [by exists Unset|]. split; [reflexivity|]. split; [reflexivity|].
  split; [discriminate|].
  apply (order_add_rejects_non_billing_address address_world C1 5 SHIPPING
           Unset Unset Unset Unset Unset Unset).
  - by exists Unset.
  - reflexivity.
  - reflexivity.
  - discriminate.
Defined.

Lemma checkout_start_reports_all_failures_witness :
  added.1 = Return (Order.with_key 1 (Order.set_total 10
              (Order.set_cart (Some (cart_relation C1 10)) Order.addSkel)))
  ∧ _normalize_external_key shop (PyKey 1) "order_key" = Return (PyKey 1)
  ∧ Order.can_checkout shop
      (Order.with_key 1 (Order.set_total 10
         (Order.set_cart (Some (cart_relation C1 10)) Order.addSkel)))
    = Return ["missing payment_provider"]
  ∧ Order.checkout_start shop (PyKey 1) added.2
    = (Return (Order.JsonErrors ["missing payment_provider"] 400), added.2).
Proof.
  split; [reflexivity|]. split; [reflexivity|]. split; [reflexivity|].
  apply (checkout_start_reports_all_failures shop (PyKey 1) added.2 1
           (Order.with_key 1 (Order.set_total 10
              (Order.set_cart (Some (cart_relation C1 10)) Order.addSkel)))
           ["missing payment_provider"]).
  - reflexivity.
  - reflexivity.
  - reflexivity.
  - discriminate.
Defined.

(** The UID of an order started at the time 1700000000.123456: the digits
    in groups of four. *)
Example format_uid_groups_of_four :
  Order.format_uid "1700000000.123456" = "1700-0000-0012-3456".
Proof. reflexivity. Qed.

(** [min] keeps the first of two options of equal cost, and an option
    without a cost is as cheap as a free one. *)
Example py_min_first_of_equals :
  py_min Shipping.cost_key [option_5; option_free; mkRelation (mkShipping 103 (Some 0)) None]
  = Some option_free.
Proof. reflexivity. Qed.

(** * Further properties of the code *)

(** ** Payment providers and validation *)

(** X1: the provider found under a name is the first registered one that
    carries it; the lookup raises [LookupError] exactly when no registered
    provider carries the name. *)
Theorem get_payment_provider_first_match (shop : Shop) (name : string) :
  (∀ pp, Order.get_payment_provider_by_name shop name = Return pp →
     PaymentProviderAbstract.name pp = name
     ∧ ∃ before after,
         payment_providers shop = before ++ pp :: after
         ∧ Forall (fun p => PaymentProviderAbstract.name p ≠ name) before)
  ∧ (Order.get_payment_provider_by_name shop name
       = Raise (LookupError ("Unknown payment provider " ++ name))
     ↔ Forall (fun p => PaymentProviderAbstract.name p ≠ name) (payment_providers shop))
  ∧ (∀ e, Order.get_payment_provider_by_name shop name = Raise e →
          e = LookupError ("Unknown payment provider " ++ name))
  ∧ Order.get_payment_provider_by_name shop name ≠ OutOfFuel.
Proof.
  unfold Order.get_payment_provider_by_name.
  induction (payment_providers shop) as [|p l IH]; simpl.
  - split; [done|]. split; [by split; [constructor|]|]. split; [by intros e [= <-]|done].
  - destruct (decide (name = PaymentProviderAbstract.name p)) as [E|E].
    + rewrite bool_decide_true by done. split; [|split; [|split]].
      * intros pp [= <-]. split; [done|]. exists [], l. by split; [|constructor].
      * split; [done|]. intros H. apply Forall_cons in H as [H _]. by destruct H.
      * done.
      * done.
    + rewrite bool_decide_false by done.
      destruct IH as (IH1 & IH2 & IH3 & IH4). split; [|split; [|split]].
      * intros pp Hpp. destruct (IH1 pp Hpp) as (Hname & before & after & -> & Hbefore).
        split; [done|]. exists (p :: before), after. split; [done|].
        constructor; [congruence|done].
      * rewrite IH2. split; [intros H; constructor; [congruence|done]|].
        intros H. by apply Forall_cons in H as [_ H].
      * done.
      * done.
Qed.

Lemma get_payment_provider_first_match_witness :
  Order.get_payment_provider_by_name two_invoice_shop "invoice" = Return invoice
  ∧ PaymentProviderAbstract.name invoice = "invoice"
  ∧ ∃ before after,
      payment_providers two_invoice_shop = before ++ invoice :: after
      ∧ Forall (fun p => PaymentProviderAbstract.name p ≠ "invoice") before.
Proof.
  split; [reflexivity|].
  exact (proj1 (get_payment_provider_first_match two_invoice_shop "invoice")
           invoice eq_refl).
Defined.

(** X2: an order can be started exactly when it has a cart and names a
    registered payment provider that has nothing against it; it can be
    ordered exactly when, besides, it is not ordered yet. *)
Theorem validation_passes_exactly_when (shop : Shop) (skel : OrderSkel) :
  (Order.can_checkout shop skel = Return []
   ↔ is_Some (cart skel)
     ∧ ∃ name pp, Order.truthy_str (payment_provider skel) = Some name
         ∧ Order.get_payment_provider_by_name shop name = Return pp
         ∧ PaymentProviderAbstract.can_checkout pp skel = [])
  ∧ (Order.can_order shop skel = Return []
     ↔ is_ordered skel = false
       ∧ is_Some (cart skel)
       ∧ ∃ name pp, Order.truthy_str (payment_provider skel) = Some name
           ∧ Order.get_payment_provider_by_name shop name = Return pp
           ∧ PaymentProviderAbstract.can_order pp skel = []).
Proof.
  split.
  - split.
    + intros H. destruct (can_checkout_errors shop skel [] H) as (pe & E & Hpe).
      unfold missing_cart_errors in E.
      destruct (cart skel) as [c|]; [|done]. simpl in E. subst pe.
      split; [eauto|]. destruct Hpe as [[_ ?]|(name & pp & ? & ? & ?)]; [done|eauto].
    + intros [[c Hc] (name & pp & Hname & Hpp & Hnone)].
      unfold Order.can_checkout. rewrite Hname, Hpp, Hc. simpl. by rewrite Hnone.
  - split.
    + intros H. destruct (can_order_errors shop skel [] H) as (pe & E & Hpe).
      unfold missing_cart_errors in E.
      destruct (is_ordered skel); [done|].
      destruct (cart skel) as [c|]; [|done]. simpl in E. subst pe.
      split; [done|]. split; [eauto|].
      destruct Hpe as [[_ ?]|(name & pp & ? & ? & ?)]; [done|eauto].
    + intros (Hfalse & [c Hc] & name & pp & Hname & Hpp & Hnone).
      unfold Order.can_order. rewrite Hname, Hpp, Hc, Hfalse. simpl. by rewrite Hnone.
Qed.

Lemma validation_passes_exactly_when_witness :
  Order.can_checkout shop draft_order = Return []
  ∧ Order.can_order shop draft_order = Return []
  ∧ Order.can_order shop ordered_order ≠ Return [].
Proof.
  split; [|split].
  - apply (proj1 (validation_passes_exactly_when shop draft_order)).
    split; [by eexists|]. exists "invoice", invoice. by repeat split.
  - apply (proj2 (validation_passes_exactly_when shop draft_order)).
    split; [done|]. split; [by eexists|]. exists "invoice", invoice. by repeat split.
  - intros H. apply (proj2 (validation_passes_exactly_when shop ordered_order)) in H.
    by destruct H.
Defined.

(** ** Loading an order *)

(** X3: both checkout calls answer a key that names no order with
    [NotFound] and a value that is no key with [TypeError], whatever the
    order's state would be, and write nothing. *)
Theorem checkout_needs_an_existing_order (shop : Shop) (arg : PyArg) (w : World) :
  (∀ k, _normalize_external_key shop arg "order_key" = Return (PyKey k) →
        orders w !! k = None →
        Order.checkout_start shop arg w = (Raise (NotFound None), w)
        ∧ Order.checkout_order shop arg w = (Raise (NotFound None), w))
  ∧ (∀ x, _normalize_external_key shop arg "order_key" = Return x →
          (∀ k, x ≠ PyKey k) →
          Order.checkout_start shop arg w
            = (Raise (TypeError "order_key must be an instance of db.Key"), w)
          ∧ Order.checkout_order shop arg w
            = (Raise (TypeError "order_key must be an instance of db.Key"), w)).
Proof.
  split.
  - intros k Hnorm Hnone.
    unfold Order.checkout_start, Order.checkout_order, Order.load_order, bind, read,
      Order.fromDB.
    by rewrite Hnorm, Hnone.
  - intros x Hnorm Hx.
    unfold Order.checkout_start, Order.checkout_order, Order.load_order, bind, read, raise.
    rewrite Hnorm. destruct x as [k| |s]; [by destruct (Hx k)|done..].
Qed.

Lemma checkout_needs_an_existing_order_witness :
  orders draft_world !! 9%positive = None
  ∧ Order.checkout_start shop (PyKey 9) draft_world = (Raise (NotFound None), draft_world)
  ∧ Order.checkout_order shop (PyKey 9) draft_world = (Raise (NotFound None), draft_world)
  ∧ Order.checkout_start shop (PyStr "7") draft_world
    = (Raise (TypeError "order_key must be an instance of db.Key"), draft_world)
  ∧ Order.checkout_order shop (PyStr "7") draft_world
    = (Raise (TypeError "order_key must be an instance of db.Key"), draft_world).
Proof.
  split; [reflexivity|].
  split; [apply (proj1 (checkout_needs_an_existing_order shop (PyKey 9) draft_world)
                   9%positive eq_refl eq_refl)|].
  split; [apply (proj1 (checkout_needs_an_existing_order shop (PyKey 9) draft_world)
                   9%positive eq_refl eq_refl)|].
  apply (proj2 (checkout_needs_an_existing_order shop (PyStr "7") draft_world)
           (PyStr "7") eq_refl).
  intros k. discriminate.
Defined.

(** ** Starting and ordering *)

Lemma put_order_frame (k : Key) (skel : OrderSkel) (w : World) :
  (∀ k', k' ≠ k → orders (Order.put_order k skel w) !! k' = orders w !! k')
  ∧ carts (Order.put_order k skel w) = carts w
  ∧ session_cart (Order.put_order k skel w) = session_cart w
  ∧ clock (Order.put_order k skel w) = clock w.
Proof.
  split; [|done]. intros k' Hne. unfold Order.put_order. simpl.
  by rewrite lookup_insert_ne.
Qed.

Lemma fromDB_put_order_ne (w : World) (k k' : Key) (skel : OrderSkel) :
  k' ≠ k → Order.fromDB (Order.put_order k skel w) k' = Order.fromDB w k'.
Proof.
  intros Hne. unfold Order.fromDB, Order.put_order. simpl.
  by rewrite lookup_insert_ne.
Qed.

(** X4: [checkout_start] on an order that passes [can_checkout] returns
    the order with its UID set from the clock and every other bone as
    loaded, whatever UID it had; the order is then loaded back as returned,
    and no other order, no cart and not the session is touched. *)
Theorem checkout_start_sets_the_uid_only (shop : Shop) (arg : PyArg) (w : World)
    (k : Key) (skel : OrderSkel) :
  _normalize_external_key shop arg "order_key" = Return (PyKey k) →
  Order.fromDB w k = Some skel →
  Order.can_checkout shop skel = Return [] →
  ∃ w',
    Order.checkout_start shop arg w
      = (Return (Order.JsonSkel
                   (Order.set_order_uid (Some (Order.format_uid (clock w))) skel)), w')
    ∧ Order.fromDB w' k
      = Some (Order.set_order_uid (Some (Order.format_uid (clock w))) skel)
    ∧ (∀ k', k' ≠ k → orders w' !! k' = orders w !! k')
    ∧ carts w' = carts w
    ∧ session_cart w' = session_cart w.
Proof.
  intros Hnorm Hload Hcan.
  rewrite (checkout_start_steps _ _ _ _ _ Hnorm Hload), Hcan.
  eexists. split; [reflexivity|]. split.
  - apply fromDB_put_order. simpl. by apply fromDB_order_key in Hload.
  - split; [apply put_order_frame|]. split; apply put_order_frame.
Qed.

Lemma checkout_start_sets_the_uid_only_witness :
  _normalize_external_key shop (PyKey 8) "order_key" = Return (PyKey 8)
  ∧ Order.fromDB two_drafts_world 8 = Some second_draft
  ∧ Order.can_checkout shop second_draft = Return []
  ∧ order_uid second_draft = Some "0000-0000"
  ∧ ∃ w',
      Order.checkout_start shop (PyKey 8) two_drafts_world
        = (Return (Order.JsonSkel
                     (Order.set_order_uid (Some "1700-0000-0012-3456") second_draft)), w')
      ∧ Order.fromDB w' 8
        = Some (Order.set_order_uid (Some "1700-0000-0012-3456") second_draft)
      ∧ (∀ k', k' ≠ 8%positive → orders w' !! k' = orders two_drafts_world !! k')
      ∧ carts w' = carts two_drafts_world
      ∧ session_cart w' = session_cart two_drafts_world.
Proof.
  split; [reflexivity|]. split; [reflexivity|]. split; [reflexivity|].
  split; [reflexivity|].
  exact (checkout_start_sets_the_uid_only shop (PyKey 8) two_drafts_world 8 second_draft
           eq_refl eq_refl eq_refl).
Defined.

(** X5: the UID is the clock's and nothing else's: two different orders
    started one after the other while the clock stands still get the same
    UID. *)
Theorem same_clock_same_uid (shop : Shop) (arg1 arg2 : PyArg) (w : World)
    (k1 k2 : Key) (skel1 skel2 : OrderSkel) :
  _normalize_external_key shop arg1 "order_key" = Return (PyKey k1) →
  _normalize_external_key shop arg2 "order_key" = Return (PyKey k2) →
  k1 ≠ k2 →
  Order.fromDB w k1 = Some skel1 →
  Order.fromDB w k2 = Some skel2 →
  Order.can_checkout shop skel1 = Return [] →
  Order.can_checkout shop skel2 = Return [] →
  ∃ started1 w1 started2 w2,
    Order.checkout_start shop arg1 w = (Return (Order.JsonSkel started1), w1)
    ∧ Order.checkout_start shop arg2 w1 = (Return (Order.JsonSkel started2), w2)
    ∧ order_key started1 ≠ order_key started2
    ∧ order_uid started1 = order_uid started2
    ∧ Order.fromDB w2 k1 = Some started1
    ∧ Order.fromDB w2 k2 = Some started2.
Proof.
  intros Hn1 Hn2 Hne Hl1 Hl2 Hc1 Hc2.
  pose proof (fromDB_order_key _ _ _ Hl1) as Hk1.
  pose proof (fromDB_order_key _ _ _ Hl2) as Hk2.
  set (started1 := Order.set_order_uid (Some (Order.format_uid (clock w))) skel1).
  set (w1 := Order.put_order k1 started1 w).
  assert (Hl2' : Order.fromDB w1 k2 = Some skel2).
  { unfold w1. rewrite fromDB_put_order_ne by done. done. }
  set (started2 := Order.set_order_uid (Some (Order.format_uid (clock w1))) skel2).
  exists started1, w1, started2, (Order.put_order k2 started2 w1).
  split; [by rewrite (checkout_start_steps _ _ _ _ _ Hn1 Hl1), Hc1|].
  split; [by rewrite (checkout_start_steps _ _ _ _ _ Hn2 Hl2'), Hc2|].
  split; [simpl; rewrite Hk1, Hk2; congruence|].
  split; [done|]. split.
  - rewrite fromDB_put_order_ne by done. by apply fromDB_put_order.
  - by apply fromDB_put_order.
Qed.

Lemma same_clock_same_uid_witness :
  Order.fromDB two_drafts_world 7 = Some draft_order
  ∧ Order.fromDB two_drafts_world 8 = Some second_draft
  ∧ ∃ started1 w1 started2 w2,
      Order.checkout_start shop (PyKey 7) two_drafts_world
        = (Return (Order.JsonSkel started1), w1)
      ∧ Order.checkout_start shop (PyKey 8) w1 = (Return (Order.JsonSkel started2), w2)
      ∧ order_key started1 ≠ order_key started2
      ∧ order_uid started1 = order_uid started2
      ∧ Order.fromDB w2 7 = Some started1
      ∧ Order.fromDB w2 8 = Some started2.
Proof.
  split; [reflexivity|]. split; [reflexivity|].
  apply (same_clock_same_uid shop (PyKey 7) (PyKey 8) two_drafts_world 7 8
           draft_order second_draft); try reflexivity.
  discriminate.
Defined.

(** X6: [checkout_order] returns the order itself exactly when [can_order]
    finds nothing; the order returned is the one loaded with [is_ordered]
    set and every other bone, the UID among them, as it was; it is loaded
    back as returned, and no other order, no cart and not the session is
    touched. *)
Theorem checkout_order_sets_is_ordered_only (shop : Shop) (arg : PyArg) (w : World)
    (k : Key) (skel : OrderSkel) :
  _normalize_external_key shop arg "order_key" = Return (PyKey k) →
  Order.fromDB w k = Some skel →
  (Order.can_order shop skel = Return [] →
   ∃ w',
     Order.checkout_order shop arg w
       = (Return (Order.JsonSkel (Order.set_is_ordered true skel)), w')
     ∧ Order.fromDB w' k = Some (Order.set_is_ordered true skel)
     ∧ order_uid (Order.set_is_ordered true skel) = order_uid skel
     ∧ (∀ k', k' ≠ k → orders w' !! k' = orders w !! k')
     ∧ carts w' = carts w
     ∧ session_cart w' = session_cart w)
  ∧ (∀ ordered w',
       Order.checkout_order shop arg w = (Return (Order.JsonSkel ordered), w') →
       Order.can_order shop skel = Return []).
Proof.
  intros Hnorm Hload. rewrite (checkout_order_steps _ _ _ _ _ Hnorm Hload). split.
  - intros ->. eexists. split; [reflexivity|]. split.
    + apply fromDB_put_order. simpl. by apply fromDB_order_key in Hload.
    + split; [done|]. split; [apply put_order_frame|]. split; apply put_order_frame.
  - intros ordered w'.
    by destruct (Order.can_order shop skel) as [[|e errors]| |].
Qed.

Lemma checkout_order_sets_is_ordered_only_witness :
  _normalize_external_key shop (PyKey 7) "order_key" = Return (PyKey 7)
  ∧ Order.fromDB draft_world 7 = Some draft_order
  ∧ Order.can_order shop draft_order = Return []
  ∧ order_uid draft_order = None
  ∧ ∃ w',
      Order.checkout_order shop (PyKey 7) draft_world
        = (Return (Order.JsonSkel (Order.set_is_ordered true draft_order)), w')
      ∧ Order.fromDB w' 7 = Some (Order.set_is_ordered true draft_order)
      ∧ order_uid (Order.set_is_ordered true draft_order) = order_uid draft_order
      ∧ (∀ k', k' ≠ 7%positive → orders w' !! k' = orders draft_world !! k')
      ∧ carts w' = carts draft_world
      ∧ session_cart w' = session_cart draft_world.
Proof.
  split; [reflexivity|]. split; [reflexivity|]. split; [reflexivity|].
  split; [reflexivity|].
  exact (proj1 (checkout_order_sets_is_ordered_only shop (PyKey 7) draft_world 7
                  draft_order eq_refl eq_refl) eq_refl).
Defined.

(** X7: start, then order: when the provider has nothing against the
    order at either step, the two calls in a row leave the order stored
    with the UID of the start and [is_ordered] set, and the cart as it
    was. *)
Theorem start_then_order (shop : Shop) (arg : PyArg) (w : World)
    (k : Key) (skel : OrderSkel) :
  _normalize_external_key shop arg "order_key" = Return (PyKey k) →
  Order.fromDB w k = Some skel →
  Order.can_checkout shop skel = Return [] →
  Order.can_order shop (Order.set_order_uid (Some (Order.format_uid (clock w))) skel)
    = Return [] →
  ∃ started w1 ordered w2,
    Order.checkout_start shop arg w = (Return (Order.JsonSkel started), w1)
    ∧ Order.checkout_order shop arg w1 = (Return (Order.JsonSkel ordered), w2)
    ∧ ordered = Order.set_is_ordered true
                  (Order.set_order_uid (Some (Order.format_uid (clock w))) skel)
    ∧ Order.fromDB w2 k = Some ordered
    ∧ carts w2 = carts w.
Proof.
  intros Hnorm Hload Hcan Hcan'.
  pose proof (fromDB_order_key _ _ _ Hload) as Hkey.
  set (started := Order.set_order_uid (Some (Order.format_uid (clock w))) skel) in *.
  set (w1 := Order.put_order k started w).
  assert (Hload1 : Order.fromDB w1 k = Some started) by (by apply fromDB_put_order).
  exists started, w1, (Order.set_is_ordered true started),
    (Order.put_order k (Order.set_is_ordered true started) w1).
  split; [by rewrite (checkout_start_steps _ _ _ _ _ Hnorm Hload), Hcan|].
  split; [by rewrite (checkout_order_steps _ _ _ _ _ Hnorm Hload1), Hcan'|].
  split; [done|]. split; [by apply fromDB_put_order|done].
Qed.

Lemma start_then_order_witness :
  Order.fromDB draft_world 7 = Some draft_order
  ∧ Order.can_checkout shop draft_order = Return []
  ∧ ∃ started w1 ordered w2,
      Order.checkout_start shop (PyKey 7) draft_world = (Return (Order.JsonSkel started), w1)
      ∧ Order.checkout_order shop (PyKey 7) w1 = (Return (Order.JsonSkel ordered), w2)
      ∧ ordered = Order.set_is_ordered true
                    (Order.set_order_uid (Some (Order.format_uid (clock draft_world)))
                       draft_order)
      ∧ Order.fromDB w2 7 = Some ordered
      ∧ carts w2 = carts draft_world.
Proof.
  split; [reflexivity|]. split; [reflexivity|].
  exact (start_then_order shop (PyKey 7) draft_world 7 draft_order
           eq_refl eq_refl eq_refl eq_refl).
Defined.

(** ** Creating an order *)

(** What a call of [order_add] that returns has done. *)
Lemma order_add_returns_inv (cart_key : PyArg)
    (payment_provider_arg : Arg (option string)) (billing_address_key : Arg PyArg)
    (email_arg : Arg (option string)) (customer_key : Arg PyArg)
    (so sp sr : Arg (option bool))
    (w w' : World) (skel : OrderSkel) :
  Order.order_add cart_key payment_provider_arg billing_address_key email_arg customer_key
    so sp sr w = (Return skel, w') →
  ∃ ck e,
    cart_key = PyKey ck
    ∧ carts w !! ck = Some e
    ∧ entry_parent e = None
    ∧ order_key skel = Some (next_key w)
    ∧ cart skel = Some (mkRelation (mkCartNode ck None (entry_total e) (entry_shipping e)) None)
    ∧ order_total skel = entry_total e
    ∧ is_ordered skel = false
    ∧ order_uid skel = None
    ∧ payment_provider skel = match payment_provider_arg with Given v => v | Unset => None end
    ∧ email skel = match email_arg with
                   | Given v => v
                   | Unset => user_name <$> current_user w
                   end
    ∧ billing_address skel
      = match billing_address_key with
        | Given (PyKey a) => Some (mkRelation (mkAddress a BILLING) None)
        | _ => None
        end
    ∧ (∀ a, billing_address_key = Given (PyKey a) → addresses w !! a = Some BILLING)
    ∧ customer skel
      = Order.setBoneValue
          match customer_key with
          | Given (PyKey c) => Order.resolve_user w c
          | _ => None
          end
          match current_user w with
          | Some user => Order.resolve_user w (user_key user)
          | None => None
          end
    ∧ state_ordered skel = match so with Given v => v | Unset => None end
    ∧ state_paid skel = match sp with Given v => v | Unset => None end
    ∧ state_rts skel = match sr with Given v => v | Unset => None end
    ∧ orders w' = <[next_key w := skel]> (orders w)
    ∧ carts w' = carts w
    ∧ next_key w' = Pos.succ (next_key w)
    ∧ session_cart w' = if decide (Some ck = session_cart w) then None else session_cart w.
Proof.
  unfold Order.order_add.
  destruct cart_key as [ck| |]; [|discriminate..].
  unfold bind, read, ret, raise, Cart.is_valid_node, Cart.fromDB, Order.resolve_cart,
    Cart.fromDB, Order.resolve_address, Cart.current_session_cart_key, Order.toDB,
    Cart.detach_session_cart, modify.
  cbn [mbind option_bind]. cbv beta.
  destruct (carts w !! ck) as [e|] eqn:He; cycle 1.
  { destruct billing_address_key as [|[a| |s]], customer_key as [|[c| |s']]; discriminate. }
  destruct (entry_parent e) as [p|] eqn:Hp.
  { destruct billing_address_key as [|[a| |s]], customer_key as [|[c| |s']]; discriminate. }
  intros H. exists ck, e. split; [done|]. split; [done|]. split; [done|].
  revert H.
  destruct payment_provider_arg as [|v1], email_arg as [|v2], so as [|v3], sp as [|v4],
    sr as [|v5];
  destruct customer_key as [|[c| |s']]; cbn; try discriminate;
  destruct billing_address_key as [|[addr| |s]]; cbn; try discriminate;
  try (destruct (addresses w !! addr) as [[|]|] eqn:Ha; cbn;
       [rewrite decide_False by (intros E; by apply E)
       |rewrite decide_True by done|];
       cbn; try discriminate);
  destruct (current_user w) as [u|]; cbn;
  destruct (decide (Some ck = session_cart w)) as [Hs|Hs]; cbn;
  rewrite ?Hp; try discriminate;
  intros H; injection H as <- <-; repeat split; try done;
  first [ intros ? [= <-]; done
        | unfold Order.setBoneValue;
          repeat match goal with
                 | |- context [Order.resolve_user ?w0 ?k0] =>
                     destruct (Order.resolve_user w0 k0)
                 end; done ].
Qed.

(** X8: an order that [order_add] returns is a draft: it stands in the
    store under the key that was free next, is not ordered and has no UID,
    refers to the root cart it was made from and carries that cart's total;
    the orders there were and the carts are as before. *)
Theorem order_add_creates_a_draft (cart_key : PyArg)
    (payment_provider_arg : Arg (option string)) (billing_address_key : Arg PyArg)
    (email_arg : Arg (option string)) (customer_key : Arg PyArg)
    (so sp sr : Arg (option bool))
    (w w' : World) (skel : OrderSkel) :
  Order.order_add cart_key payment_provider_arg billing_address_key email_arg customer_key
    so sp sr w = (Return skel, w') →
  order_key skel = Some (next_key w)
  ∧ Order.fromDB w' (next_key w) = Some skel
  ∧ is_ordered skel = false
  ∧ order_uid skel = None
  ∧ (∃ ck cart_skel,
       cart_key = PyKey ck
       ∧ Cart.fromDB w ck = Some cart_skel
       ∧ parententry cart_skel = None
       ∧ cart skel = Some (mkRelation cart_skel None)
       ∧ order_total skel = total cart_skel)
  ∧ (∀ k, k ≠ next_key w → orders w' !! k = orders w !! k)
  ∧ carts w' = carts w.
Proof.
  intros H. apply order_add_returns_inv in H
    as (ck & e & -> & He & Hp & Hkey & Hcart & Htotal & Hordered & Huid & _ & _ & _ & _
        & _ & _ & _ & _ & Horders & Hcarts & _ & _).
  split; [done|]. split.
  { unfold Order.fromDB. rewrite Horders, lookup_insert_eq. simpl.
    destruct skel. simpl in Hkey. by rewrite Hkey. }
  split; [done|]. split; [done|]. split.
  { exists ck, (mkCartNode ck None (entry_total e) (entry_shipping e)).
    split; [done|]. split; [|done].
    unfold Cart.fromDB. simpl. rewrite He. simpl. by rewrite Hp. }
  split; [|done]. intros k Hk. rewrite Horders. by rewrite lookup_insert_ne.
Qed.

Lemma order_add_creates_a_draft_witness :
  added = (Return (plain_order 1 (mkCartNode C1 None 10 None)), added.2)
  ∧ Order.fromDB added.2 1 = Some (plain_order 1 (mkCartNode C1 None 10 None))
  ∧ carts added.2 = carts C1_world.
Proof.
  assert (H : Order.order_add (PyKey C1) Unset Unset Unset Unset Unset Unset Unset C1_world
              = (Return (plain_order 1 (mkCartNode C1 None 10 None)), added.2))
    by reflexivity.
  split; [exact H|].
  split; [exact (proj1 (proj2 (order_add_creates_a_draft _ _ _ _ _ _ _ _ _ _ _ H)))|].
  exact (proj2 (proj2 (proj2 (proj2 (proj2 (proj2
           (order_add_creates_a_draft _ _ _ _ _ _ _ _ _ _ _ H))))))).
Defined.


(** X9: when [order_add] returns, the session has lost its cart exactly if
    the order was made from it; the cart itself stays in the store. *)
Theorem order_add_detaches_the_session_cart (ck : Key)
    (payment_provider_arg : Arg (option string)) (billing_address_key : Arg PyArg)
    (email_arg : Arg (option string)) (customer_key : Arg PyArg)
    (so sp sr : Arg (option bool))
    (w w' : World) (skel : OrderSkel) :
  Order.order_add (PyKey ck) payment_provider_arg billing_address_key email_arg customer_key
    so sp sr w = (Return skel, w') →
  (session_cart w = Some ck → session_cart w' = None)
  ∧ (session_cart w ≠ Some ck → session_cart w' = session_cart w)
  ∧ carts w' !! ck = carts w !! ck
  ∧ is_Some (carts w' !! ck).
Proof.
  intros H. apply order_add_returns_inv in H
    as (ck' & e & [= <-] & He & _ & _ & _ & _ & _ & _ & _ & _ & _ & _ & _
        & _ & _ & _ & _ & Hcarts & _ & Hsession).
  rewrite Hsession, Hcarts, He.
  destruct (decide (Some ck = session_cart w)) as [E|E].
  - split; [done|]. split; [by intros []|]. split; [done|by eexists].
  - split; [intros E'; by destruct E|]. split; [done|]. split; [done|by eexists].
Qed.

Lemma order_add_detaches_the_session_cart_witness :
  session_added = (Return (returned session_added), session_added.2)
  ∧ (session_cart session_world = Some C1 → session_cart session_added.2 = None)
  ∧ is_Some (carts session_added.2 !! C1).
Proof.
  assert (H : Order.order_add (PyKey C1) Unset (Given (PyKey 6)) Unset Unset (Given None)
                Unset Unset session_world
              = (Return (returned session_added), session_added.2))
    by (vm_compute; reflexivity).
  split; [exact H|].
  split; [exact (proj1 (order_add_detaches_the_session_cart _ _ _ _ _ _ _ _ _ _ _ H))|].
  exact (proj2 (proj2 (proj2 (order_add_detaches_the_session_cart _ _ _ _ _ _ _ _ _ _ _ H)))).
Defined.

(** X10: a bone whose argument was left out has its default when
    [order_add] returns, and a bone whose argument was given has the value
    given, [None] too; the default of the email is the name of the user who
    is logged in, that of the customer is that user. *)
Theorem order_add_omitted_and_given (cart_key : PyArg)
    (payment_provider_arg : Arg (option string)) (billing_address_key : Arg PyArg)
    (email_arg : Arg (option string)) (customer_key : Arg PyArg)
    (so sp sr : Arg (option bool))
    (w w' : World) (skel : OrderSkel) :
  Order.order_add cart_key payment_provider_arg billing_address_key email_arg customer_key
    so sp sr w = (Return skel, w') →
  payment_provider skel = match payment_provider_arg with Given v => v | Unset => None end
  ∧ email skel = match email_arg with
                 | Given v => v
                 | Unset => user_name <$> current_user w
                 end
  ∧ state_ordered skel = match so with Given v => v | Unset => None end
  ∧ state_paid skel = match sp with Given v => v | Unset => None end
  ∧ state_rts skel = match sr with Given v => v | Unset => None end
  ∧ (customer_key = Unset →
     customer skel = match current_user w with
                     | Some user => Order.resolve_user w (user_key user)
                     | None => None
                     end)
  ∧ (∀ c r, customer_key = Given (PyKey c) → Order.resolve_user w c = Some r →
            customer skel = Some r).
Proof.
  intros H. apply order_add_returns_inv in H
    as (ck & e & _ & _ & _ & _ & _ & _ & _ & _ & Hpp & Hemail & _ & _ & Hcustomer
        & Hso & Hsp & Hsr & _).
  repeat split; try done.
  - intros ->. rewrite Hcustomer. simpl. by destruct (current_user w).
  - intros c r -> Hr. rewrite Hcustomer, Hr. done.
Qed.

Lemma order_add_omitted_and_given_witness :
  session_added = (Return (returned session_added), session_added.2)
  ∧ payment_provider (returned session_added) = None
  ∧ email (returned session_added) = Some "alice@example.com"
  ∧ state_ordered (returned session_added) = None
  ∧ state_paid (returned session_added) = None.
Proof.
  assert (H : Order.order_add (PyKey C1) Unset (Given (PyKey 6)) Unset Unset (Given None)
                Unset Unset session_world
              = (Return (returned session_added), session_added.2))
    by (vm_compute; reflexivity).
  pose proof (order_add_omitted_and_given _ _ _ _ _ _ _ _ _ _ _ H)
    as (Hpp & Hemail & Hso & Hsp & _).
  split; [exact H|]. split; [exact Hpp|]. split; [exact Hemail|].
  split; [exact Hso|exact Hsp].
Defined.

(** X11: no order comes out of [order_add] with a billing address of
    another type: the billing address of the order returned is the address
    under the key given, of type [BILLING], or none when the key was left
    out or given as [None]. *)
Theorem order_add_billing_address_is_billing (cart_key : PyArg)
    (payment_provider_arg : Arg (option string)) (billing_address_key : Arg PyArg)
    (email_arg : Arg (option string)) (customer_key : Arg PyArg)
    (so sp sr : Arg (option bool))
    (w w' : World) (skel : OrderSkel) :
  Order.order_add cart_key payment_provider_arg billing_address_key email_arg customer_key
    so sp sr w = (Return skel, w') →
  (∀ r, billing_address skel = Some r →
        address_type (dest r) = BILLING
        ∧ billing_address_key = Given (PyKey (address_key (dest r)))
        ∧ addresses w !! address_key (dest r) = Some BILLING)
  ∧ (billing_address_key = Unset ∨ billing_address_key = Given PyNone →
     billing_address skel = None).
Proof.
  intros H. apply order_add_returns_inv in H
    as (ck & e & _ & _ & _ & _ & _ & _ & _ & _ & _ & _ & Hbilling & Haddr & _).
  split.
  - intros r Hr. rewrite Hbilling in Hr.
    destruct billing_address_key as [|[a| |s]]; try done.
    injection Hr as <-. simpl. by rewrite (Haddr a).
  - intros [->| ->]; by rewrite Hbilling.
Qed.

Lemma order_add_billing_address_is_billing_witness :
  session_added = (Return (returned session_added), session_added.2)
  ∧ billing_address (returned session_added)
    = Some (mkRelation (mkAddress 6 BILLING) None)
  ∧ address_type (mkAddress 6 BILLING) = BILLING
  ∧ addresses session_world !! 6%positive = Some BILLING.
Proof.
  assert (H : Order.order_add (PyKey C1) Unset (Given (PyKey 6)) Unset Unset (Given None)
                Unset Unset session_world
              = (Return (returned session_added), session_added.2))
    by (vm_compute; reflexivity).
  split; [exact H|]. split; [reflexivity|].
  destruct (proj1 (order_add_billing_address_is_billing _ _ _ _ _ _ _ _ _ _ _ H)
              (mkRelation (mkAddress 6 BILLING) None) eq_refl) as (H1 & _ & H3).
  split; [exact H1|exact H3].
Defined.

(** X12: with a cart key that names a root cart and a billing address key
    that is left out, [None], or the key of a billing address, [order_add]
    returns an order when the customer key is left out or is a key; when
    the customer key is given as [None], the bone refuses the value with
    [ValueError], and nothing is written. *)
Theorem order_add_returns (ck : Key)
    (payment_provider_arg : Arg (option string)) (billing_address_key : Arg PyArg)
    (email_arg : Arg (option string)) (customer_key : Arg PyArg)
    (so sp sr : Arg (option bool)) (w : World) :
  Cart.is_valid_node w ck true = true →
  (billing_address_key = Unset ∨ billing_address_key = Given PyNone
   ∨ ∃ a, billing_address_key = Given (PyKey a) ∧ addresses w !! a = Some BILLING) →
  (customer_key = Unset ∨ (∃ c, customer_key = Given (PyKey c)) →
   ∃ skel w',
     Order.order_add (PyKey ck) payment_provider_arg billing_address_key email_arg
       customer_key so sp sr w = (Return skel, w'))
  ∧ (customer_key = Given PyNone →
     ∃ msg,
       Order.order_add (PyKey ck) payment_provider_arg billing_address_key email_arg
         customer_key so sp sr w = (Raise (ValueError msg), w)).
Proof.
  intros Hvalid Hbilling.
  destruct (is_valid_node_fromDB _ _ _ Hvalid) as [cart_skel Hcart].
  unfold Order.order_add, bind, read, ret, raise, Order.resolve_cart,
    Order.resolve_address, Cart.current_session_cart_key, Order.toDB,
    Cart.detach_session_cart, modify.
  split.
  - intros [->|[c ->]]; cbn [Order.key_or_none];
    (destruct Hbilling as [->|[->|(a & -> & Ha)]]; cbn [Order.key_or_none];
     rewrite Hvalid, Hcart; cbn; rewrite ?Ha; cbn;
     rewrite ?decide_False by (intros E; by apply E); cbn;
     destruct payment_provider_arg as [|v1], email_arg as [|v2], so as [|v3], sp as [|v4],
       sr as [|v5], (current_user w) as [u|]; cbn;
     destruct (decide (Some ck = session_cart w)); cbn; eauto).
  - intros ->. cbn [Order.key_or_none].
    destruct Hbilling as [->|[->|(a & -> & Ha)]]; cbn [Order.key_or_none];
    rewrite Hvalid, Hcart; cbn; rewrite ?Ha; cbn;
    rewrite ?decide_False by (intros E; by apply E); cbn;
    destruct payment_provider_arg as [|v1], email_arg as [|v2],
      (current_user w) as [u|]; cbn; eauto.
Qed.

(** X13: [order_add] checks the types of its keys before anything else and
    in the order cart, billing address, customer: a cart key that is no key
    raises [TypeError] whatever the other arguments, a billing address key
    that is neither a key nor [None] raises it whatever the cart, and so
    does such a customer key; nothing is written. *)
Theorem order_add_type_errors
    (payment_provider_arg : Arg (option string)) (email_arg : Arg (option string))
    (so sp sr : Arg (option bool)) (w : World) :
  (∀ cart_key billing_address_key customer_key,
     (∀ k, cart_key ≠ PyKey k) →
     Order.order_add cart_key payment_provider_arg billing_address_key email_arg
       customer_key so sp sr w
     = (Raise (TypeError "cart_key must be an instance of db.Key"), w))
  ∧ (∀ ck s customer_key,
       Order.order_add (PyKey ck) payment_provider_arg (Given (PyStr s)) email_arg
         customer_key so sp sr w
       = (Raise (TypeError "billing_address_key must be an instance of db.Key"), w))
  ∧ (∀ ck billing_address_key s,
       (∀ s', billing_address_key ≠ Given (PyStr s')) →
       Order.order_add (PyKey ck) payment_provider_arg billing_address_key email_arg
         (Given (PyStr s)) so sp sr w
       = (Raise (TypeError "customer_key must be an instance of db.Key"), w)).
Proof.
  split; [|split].
  - intros cart_key billing_address_key customer_key Hck.
    destruct cart_key as [k| |s]; [by destruct (Hck k)|done..].
  - intros ck s customer_key. reflexivity.
  - intros ck billing_address_key s Hb.
    destruct billing_address_key as [|[a| |s']]; [done..|by destruct (Hb s')].
Qed.

Lemma order_add_type_errors_witness :
  Order.order_add PyNone Unset Unset Unset Unset Unset Unset Unset C1_world
    = (Raise (TypeError "cart_key must be an instance of db.Key"), C1_world)
  ∧ Order.order_add (PyKey 99) Unset (Given (PyStr "5")) Unset (Given (PyStr "x"))
      Unset Unset Unset C1_world
    = (Raise (TypeError "billing_address_key must be an instance of db.Key"), C1_world)
  ∧ Order.order_add (PyKey 99) Unset (Given PyNone) Unset (Given (PyStr "x"))
      Unset Unset Unset C1_world
    = (Raise (TypeError "customer_key must be an instance of db.Key"), C1_world).
Proof.
  split; [|split].
  - apply (proj1 (order_add_type_errors Unset Unset Unset Unset Unset C1_world)).
    intros k. discriminate.
  - apply (proj1 (proj2 (order_add_type_errors Unset Unset Unset Unset Unset C1_world))).
  - apply (proj2 (proj2 (order_add_type_errors Unset Unset Unset Unset Unset C1_world))).
    intros s'. discriminate.
Defined.

(** X14: with keys of the right types, [order_add] raises [ValueError] for
    a cart key that names no cart and for one that names a sub-cart, before
    it looks at the billing address, and writes nothing. *)
Theorem order_add_needs_a_root_cart (ck : Key)
    (payment_provider_arg : Arg (option string)) (billing_address_key : Arg PyArg)
    (email_arg : Arg (option string)) (customer_key : Arg PyArg)
    (so sp sr : Arg (option bool)) (w : World) :
  (∀ s, billing_address_key ≠ Given (PyStr s)) →
  (∀ s, customer_key ≠ Given (PyStr s)) →
  (carts w !! ck = None
   ∨ ∃ e parent, carts w !! ck = Some e ∧ entry_parent e = Some parent) →
  Order.order_add (PyKey ck) payment_provider_arg billing_address_key email_arg
    customer_key so sp sr w
  = (Raise (ValueError "Invalid cart_key!"), w).
Proof.
  intros Hb Hc Hcart.
  assert (Hvalid : Cart.is_valid_node w ck true = false).
  { unfold Cart.is_valid_node.
    destruct Hcart as [->|(e & parent & -> & Hp)]; [done|].
    rewrite Hp. done. }
  unfold Order.order_add, bind, read, raise.
  destruct billing_address_key as [|[a| |s]]; [| | |by destruct (Hb s)];
  (destruct customer_key as [|[c| |s']]; [| | |by destruct (Hc s')]);
  cbn [Order.key_or_none]; by rewrite Hvalid.
Qed.

Lemma order_add_needs_a_root_cart_witness :
  carts subcart_world !! 2%positive = Some (mkCartEntry (Some 1%positive) 4 None [leaf 22 SC2])
  ∧ Order.order_add (PyKey 2) Unset Unset Unset Unset Unset Unset Unset subcart_world
    = (Raise (ValueError "Invalid cart_key!"), subcart_world)
  ∧ Order.order_add (PyKey 3) Unset Unset Unset Unset Unset Unset Unset subcart_world
    = (Raise (ValueError "Invalid cart_key!"), subcart_world).
Proof.
  split; [reflexivity|]. split.
  - apply (order_add_needs_a_root_cart 2 Unset Unset Unset Unset Unset Unset Unset
             subcart_world); [intros s; discriminate..|].
    right. by eexists _, _.
  - apply (order_add_needs_a_root_cart 3 Unset Unset Unset Unset Unset Unset Unset
             subcart_world); [intros s; discriminate..|].
    by left.
Defined.

(** ** The order UID *)

Lemma format_uid_grouped (t : string) :
  String.list_ascii_of_string (Order.format_uid t)
  = grouped (Order.remove_dots (String.list_ascii_of_string t)).
Proof. unfold Order.format_uid. apply String.list_ascii_of_string_of_list_ascii. Qed.

Lemma lstrip_dash_head (s : list ascii) : head (Order.lstrip_dash s) ≠ Some "-"%char.
Proof.
  induction s as [|c s IH]; simpl; [done|].
  destruct (decide (c = "-"%char)); [done|]. simpl. congruence.
Qed.

Lemma lstrip_dash_last (s : list ascii) :
  Order.lstrip_dash s = [] ∨ last (Order.lstrip_dash s) = last s.
Proof.
  induction s as [|c s IH]; simpl; [by left|].
  destruct (decide (c = "-"%char)); [|by right].
  destruct IH as [IH|IH]; [by left|].
  destruct s as [|c' s]; [by left|]. right. by rewrite IH.
Qed.

Lemma lstrip_dash_keep (c : ascii) (s : list ascii) :
  c ≠ "-"%char → Order.lstrip_dash (c :: s) = c :: s.
Proof. intros Hc. simpl. by rewrite decide_False. Qed.

Lemma rstrip_dash_keep (s : list ascii) (c : ascii) :
  last s = Some c → c ≠ "-"%char →
  reverse (Order.lstrip_dash (reverse s)) = s.
Proof.
  intros Hlast Hc. apply last_Some in Hlast as [s' ->].
  rewrite reverse_snoc, lstrip_dash_keep by done.
  by rewrite reverse_cons, reverse_involutive.
Qed.

Lemma group_digits_last (i : nat) (s : list ascii) :
  s ≠ [] → last (Order.group_digits i s) = last s.
Proof.
  revert i. induction s as [|c s IH]; intros i Hne; [done|].
  cbn [Order.group_digits].
  destruct s as [|c' s].
  - simpl. by destruct (decide _).
  - rewrite last_app. rewrite IH by done.
    change (last (c :: c' :: s)) with (last (c' :: s)).
    by destruct (last (c' :: s)) eqn:E; [|apply last_None in E].
Qed.

Lemma group_digits_period (i : nat) (s : list ascii) :
  Order.group_digits (4 + i) s = Order.group_digits i s.
Proof.
  revert i. induction s as [|c s IH]; intros i; [done|].
  cbn [Order.group_digits].
  change (S (4 + i)) with (4 + S i)%nat. rewrite IH.
  replace ((4 + i) `mod` 4)%nat with (i `mod` 4)%nat; [done|].
  rewrite Nat.add_comm. by rewrite <- (Nat.Div0.mod_add i 1 4).
Qed.

(** The closed form: the first digit, then the rest grouped from the
    second place on. *)
Lemma grouped_cons (a : ascii) (t : list ascii) :
  dash_free (a :: t) → grouped (a :: t) = a :: Order.group_digits 1 t.
Proof.
  intros Hfree. pose proof Hfree as Hfree'. apply Forall_cons in Hfree' as [Ha Ht].
  unfold grouped, Order.strip_dash. cbn [Order.group_digits].
  change (decide (0 `mod` 4 = 0)%nat) with (decide (0 = 0)%nat).
  rewrite decide_True by done. simpl app.
  change (Order.lstrip_dash ("-"%char :: a :: Order.group_digits 1 t))
    with (Order.lstrip_dash (a :: Order.group_digits 1 t)).
  rewrite lstrip_dash_keep by done.
  destruct (last (a :: t)) as [c|] eqn:Hlast; [|by apply last_None in Hlast].
  apply (rstrip_dash_keep _ c).
  - destruct t as [|b t]; [done|].
    change (last (a :: Order.group_digits 1 (b :: t)))
      with (last ([a] ++ Order.group_digits 1 (b :: t))).
    rewrite last_app, group_digits_last by done.
    change (last (a :: b :: t)) with (last (b :: t)) in Hlast. by rewrite Hlast.
  - apply last_Some_elem_of in Hlast. unfold dash_free in Hfree.
    rewrite Forall_forall in Hfree. by apply Hfree.
Qed.

(** X15: a UID never begins or ends with a dash, whatever text the clock
    gives. *)
Theorem format_uid_no_dash_at_the_ends (t : string) :
  head (String.list_ascii_of_string (Order.format_uid t)) ≠ Some "-"%char
  ∧ last (String.list_ascii_of_string (Order.format_uid t)) ≠ Some "-"%char.
Proof.
  rewrite format_uid_grouped. unfold grouped, Order.strip_dash.
  set (s := Order.group_digits 0 _). split.
  - rewrite head_reverse.
    destruct (lstrip_dash_last (reverse (Order.lstrip_dash s))) as [->| ->]; [done|].
    rewrite last_reverse. apply lstrip_dash_head.
  - rewrite last_reverse. apply lstrip_dash_head.
Qed.

Lemma remove_dashes_lstrip (s : list ascii) :
  remove_dashes (Order.lstrip_dash s) = remove_dashes s.
Proof.
  unfold remove_dashes. induction s as [|c s IH]; simpl; [done|].
  destruct (decide (c = "-"%char)) as [->|Hc]; [|done].
  rewrite IH. by rewrite filter_cons_False by (by intros H).
Qed.

Lemma remove_dashes_group_digits (i : nat) (s : list ascii) :
  remove_dashes (Order.group_digits i s) = remove_dashes s.
Proof.
  unfold remove_dashes. revert i. induction s as [|c s IH]; intros i; [done|].
  cbn [Order.group_digits]. rewrite filter_app, IH.
  destruct (decide _).
  - rewrite filter_cons_False by (by intros H). by rewrite <- filter_app.
  - by rewrite <- filter_app.
Qed.

Lemma remove_dashes_dash_free (s : list ascii) :
  dash_free s → remove_dashes s = s.
Proof.
  unfold remove_dashes. induction 1 as [|c s Hc _ IH]; [done|].
  by rewrite filter_cons_True, IH.
Qed.

(** X16: the UID holds the characters of the clock's text other than dots
    and dashes, in their order, and besides them only dashes: taking the
    dashes out of the UID gives the text without its dots and dashes. *)
Theorem format_uid_keeps_the_digits (t : string) :
  remove_dashes (String.list_ascii_of_string (Order.format_uid t))
  = remove_dashes (Order.remove_dots (String.list_ascii_of_string t))
  ∧ (dash_free (String.list_ascii_of_string t) →
     remove_dashes (String.list_ascii_of_string (Order.format_uid t))
     = Order.remove_dots (String.list_ascii_of_string t)).
Proof.
  assert (H : remove_dashes (String.list_ascii_of_string (Order.format_uid t))
              = remove_dashes (Order.remove_dots (String.list_ascii_of_string t))).
  { rewrite format_uid_grouped. unfold grouped, Order.strip_dash.
    unfold remove_dashes at 1. rewrite filter_reverse. fold (remove_dashes).
    rewrite remove_dashes_lstrip. unfold remove_dashes at 1.
    rewrite filter_reverse, reverse_involutive. fold remove_dashes.
    by rewrite remove_dashes_lstrip, remove_dashes_group_digits. }
  split; [exact H|]. intros Hfree. rewrite H.
  apply remove_dashes_dash_free. unfold dash_free, Order.remove_dots in *.
  rewrite Forall_forall in *. intros c Hc. apply Hfree.
  by apply list_elem_of_filter in Hc as [_ Hc].
Qed.

(** X17: the digits stand in groups of four with one dash between two
    groups: up to four digits are the UID as they are, and of more than
    four the first four and a dash come before the UID of the rest. *)
Theorem grouped_in_fours (digits : list ascii) :
  dash_free digits →
  ((length digits ≤ 4)%nat → grouped digits = digits)
  ∧ (∀ a b c d rest,
       digits = a :: b :: c :: d :: rest → rest ≠ [] →
       grouped digits = [a; b; c; d; "-"%char] ++ grouped rest).
Proof.
  intros Hfree. split.
  - intros Hlen. destruct digits as [|a [|b [|c [|d [|x rest]]]]]; simpl in Hlen; try lia.
    + done.
    + by rewrite grouped_cons.
    + by rewrite grouped_cons.
    + by rewrite grouped_cons.
    + by rewrite grouped_cons.
  - intros a b c d rest -> Hne. destruct rest as [|r rest]; [done|].
    rewrite grouped_cons by done.
    rewrite grouped_cons
      by (by do 4 (apply Forall_cons in Hfree as [_ Hfree])).
    cbn [Order.group_digits]. simpl.
    change 5%nat with (4 + 1)%nat. by rewrite group_digits_period.
Qed.

Lemma grouped_in_fours_witness :
  dash_free (String.list_ascii_of_string "1700000000123456")
  ∧ grouped (String.list_ascii_of_string "1700000000123456")
    = String.list_ascii_of_string "1700-" ++ grouped (String.list_ascii_of_string "000000123456")
  ∧ grouped (String.list_ascii_of_string "3456") = String.list_ascii_of_string "3456".
Proof.
  assert (H : dash_free (String.list_ascii_of_string "1700000000123456")).
  { repeat constructor; discriminate. }
  assert (H' : dash_free (String.list_ascii_of_string "3456")).
  { repeat constructor; discriminate. }
  split; [exact H|]. split.
  - apply (proj2 (grouped_in_fours _ H) _ _ _ _ _ eq_refl). discriminate.
  - apply (proj1 (grouped_in_fours _ H')). simpl. lia.
Defined.

Lemma format_uid_keeps_the_digits_witness :
  dash_free (String.list_ascii_of_string "1700000000.123456")
  ∧ remove_dashes (String.list_ascii_of_string (Order.format_uid "1700000000.123456"))
    = String.list_ascii_of_string "1700000000123456".
Proof.
  assert (H : dash_free (String.list_ascii_of_string "1700000000.123456")).
  { repeat constructor; discriminate. }
  split; [exact H|].
  exact (proj2 (format_uid_keeps_the_digits "1700000000.123456") H).
Defined.

(** ** The walk, once more *)

Lemma deque_pop_Some {A} (q q' : list A) (x : A) :
  deque_pop q = Some (q', x) → q = q' ++ [x].
Proof.
  revert q'. induction q as [|y q IH]; intros q'; [done|].
  simpl. destruct q as [|z q].
  - by intros [= <- <-].
  - destruct (deque_pop (z :: q)) as [[r x']|] eqn:E; [|done].
    intros [= <- <-]. by rewrite (IH r eq_refl).
Qed.

Lemma deque_pop_None {A} (q : list A) : deque_pop q = None → q = [].
Proof.
  induction q as [|y q IH]; [done|]. simpl. destruct q as [|z q]; [done|].
  destruct (deque_pop (z :: q)) as [[r x']|] eqn:E; [done|].
  by specialize (IH eq_refl).
Qed.

Lemma reachable_step (w : World) (k k' t : Key) (children : list CartChild) :
  Cart.get_children w k = Return children →
  ChildNode k' ∈ children →
  reachable w k' t → reachable w k t.
Proof.
  intros Hget Hin Hr. induction Hr as [|t' t'' cs Hr IH Hget' Hin'].
  - by eapply reachable_below; [apply reachable_here|..].
  - by eapply reachable_below.
Qed.

Lemma reachable_inv (w : World) (k t : Key) :
  reachable w k t →
  t = k ∨ ∃ children k', Cart.get_children w k = Return children
                         ∧ ChildNode k' ∈ children ∧ reachable w k' t.
Proof.
  induction 1 as [|t' t'' cs Hr IH Hget Hin]; [by left|]. right.
  destruct IH as [->|(children & k' & Hget' & Hin' & Hr')].
  - exists cs, t''. split; [done|]. split; [done|]. apply reachable_here.
  - exists children, k'. split; [done|]. split; [done|]. by eapply reachable_below.
Qed.

Lemma elem_of_child_configs (w : World) (k : Key) (children : list CartChild)
    (sc : ShippingConfigSkel) :
  Cart.get_children w k = Return children →
  sc ∈ child_configs children ↔ leaf_config_at w k sc.
Proof.
  intros Hget. unfold child_configs, leaf_config_at. rewrite list_elem_of_omap. split.
  - intros ([k'|leaf] & Hin & E); [done|].
    destruct (shop_shipping_config (article_skel leaf)) as [config|] eqn:Hc; [|done].
    simpl in E. injection E as <-. by exists children, leaf, config.
  - intros (children' & leaf & config & Hget' & Hin & Hc & <-).
    rewrite Hget in Hget'. injection Hget' as <-.
    exists (ChildLeaf leaf). split; [done|]. by rewrite Hc.
Qed.

(** What a walk that returns has collected, and that every node it had in
    its queue heads a finite subtree. *)
Lemma walk_returns_inv (fuel : nat) (w : World) (q : list Key)
    (acc coll : list ShippingConfigSkel) :
  Shipping.walk fuel w q acc = Return coll →
  (∀ k, k ∈ q → cart_tree w k)
  ∧ (∀ sc, sc ∈ coll ↔ sc ∈ acc ∨ ∃ k0 k, k0 ∈ q ∧ reachable w k0 k ∧ leaf_config_at w k sc).
Proof.
  revert q acc. induction fuel as [|fuel IH]; intros q acc.
  - simpl. destruct (deque_pop q) as [[q' k]|] eqn:Hpop; [done|].
    apply deque_pop_None in Hpop as ->. intros [= <-]. split.
    + intros k Hk. by apply elem_of_nil in Hk.
    + intros sc. split; [by left|]. intros [H|(k0 & k & Hk0 & _)]; [done|].
      by apply elem_of_nil in Hk0.
  - simpl. destruct (deque_pop q) as [[q' k]|] eqn:Hpop.
    + apply deque_pop_Some in Hpop as ->.
      destruct (Cart.get_children w k) as [children| |] eqn:Hget; [|done..].
      simpl. rewrite visit_children. simpl. intros Hwalk.
      destruct (IH _ _ Hwalk) as [Htrees Hcoll]. split.
      * intros k1 Hk1. apply elem_of_app in Hk1 as [Hk1|Hk1].
        -- apply Htrees. apply elem_of_app. by left.
        -- apply list_elem_of_singleton in Hk1 as ->.
           apply (cart_tree_node w k children Hget). intros k' Hk'.
           apply Htrees. apply elem_of_app. right. by apply elem_of_child_nodes.
      * intros sc. rewrite Hcoll. rewrite elem_of_app.
        rewrite (elem_of_child_configs w k children sc Hget). split.
        -- intros [[H|H]|(k0 & t & Hk0 & Hr & Hleaf)].
           ++ by left.
           ++ right. exists k, k. split; [apply elem_of_app; right; by left|].
              split; [apply reachable_here|done].
           ++ right. apply elem_of_app in Hk0 as [Hk0|Hk0].
              ** exists k0, t. split; [apply elem_of_app; by left|done].
              ** apply elem_of_child_nodes in Hk0. exists k, t.
                 split; [apply elem_of_app; right; by left|].
                 split; [by eapply reachable_step|done].
        -- intros [H|(k0 & t & Hk0 & Hr & Hleaf)]; [by left; left|].
           apply elem_of_app in Hk0 as [Hk0|Hk0].
           ++ right. exists k0, t. split; [apply elem_of_app; by left|done].
           ++ apply list_elem_of_singleton in Hk0 as ->.
              apply reachable_inv in Hr as [->|(cs & k' & Hget' & Hin & Hr)].
              ** left. by right.
              ** rewrite Hget in Hget'. injection Hget' as <-.
                 right. exists k', t. split; [|done].
                 apply elem_of_app. right. by apply elem_of_child_nodes.
    + apply deque_pop_None in Hpop as ->. intros [= <-]. split.
      * intros k Hk. by apply elem_of_nil in Hk.
      * intros sc. split; [by left|]. intros [H|(k0 & k & Hk0 & _)]; [done|].
        by apply elem_of_nil in Hk0.
Qed.

Lemma walk_more_fuel (fuel : nat) (w : World) (q : list Key)
    (acc coll : list ShippingConfigSkel) :
  Shipping.walk fuel w q acc = Return coll →
  Shipping.walk (S fuel) w q acc = Return coll.
Proof.
  revert q acc. induction fuel as [|fuel IH]; intros q acc.
  - simpl. by destruct (deque_pop q) as [[q' k]|].
  - intros H. change (Shipping.walk (S (S fuel)) w q acc) with
      (match deque_pop q with
       | None => Return acc
       | Some (q', k) =>
           children ← Cart.get_children w k;
           let st := foldl Shipping.visit_child (q', acc) children in
           Shipping.walk (S fuel) w st.1 st.2
       end).
    simpl in H. destruct (deque_pop q) as [[q' k]|]; [|done].
    destruct (Cart.get_children w k) as [children| |]; [|done..].
    simpl in *. by apply IH.
Qed.

Lemma walk_fuel_le (f1 f2 : nat) (w : World) (q : list Key)
    (acc coll : list ShippingConfigSkel) :
  (f1 ≤ f2)%nat →
  Shipping.walk f1 w q acc = Return coll →
  Shipping.walk f2 w q acc = Return coll.
Proof.
  induction 1 as [|f2 Hle IH]; [done|]. intros H. by apply walk_more_fuel, IH.
Qed.

(** X18: a walk that returns has collected exactly the configurations of
    the leaves that hang under the start node or under a sub-cart below
    it. *)
Theorem walk_collects_the_leaf_configs (fuel : nat) (w : World) (root : Key)
    (collected : list ShippingConfigSkel) :
  Shipping.walk fuel w [root] [] = Return collected →
  ∀ sc, sc ∈ collected ↔ ∃ k, reachable w root k ∧ leaf_config_at w k sc.
Proof.
  intros H sc. destruct (walk_returns_inv _ _ _ _ _ H) as [_ Hcoll].
  rewrite Hcoll. split.
  - intros [Hnil|(k0 & k & Hk0 & Hr & Hleaf)]; [by apply elem_of_nil in Hnil|].
    apply list_elem_of_singleton in Hk0 as ->. eauto.
  - intros (k & Hr & Hleaf). right. exists root, k.
    split; [by apply list_elem_of_singleton|done].
Qed.

Lemma walk_collects_the_leaf_configs_witness :
  Shipping.walk 2 nested_world [1%positive] [] = Return [SC1; SC2; SC1_later]
  ∧ (SC1_later ∈ [SC1; SC2; SC1_later]
     ↔ ∃ k, reachable nested_world 1%positive k ∧ leaf_config_at nested_world k SC1_later).
Proof.
  split; [reflexivity|].
  exact (walk_collects_the_leaf_configs 2 nested_world 1%positive [SC1; SC2; SC1_later]
           eq_refl SC1_later).
Defined.

(** X19: the walk returns, given fuel enough, exactly from a node that
    heads a finite subtree all of whose sub-carts are in the store; more
    fuel does not change what it returns; and when it raises, it raises the
    [NotFound] of a node that is not there. *)
Theorem walk_returns_exactly_on_a_cart_tree (w : World) (root : Key) :
  ((∃ fuel collected, Shipping.walk fuel w [root] [] = Return collected)
   ↔ cart_tree w root)
  ∧ (∀ f1 f2 c1 c2,
       Shipping.walk f1 w [root] [] = Return c1 →
       Shipping.walk f2 w [root] [] = Return c2 → c1 = c2)
  ∧ (∀ fuel e, Shipping.walk fuel w [root] [] = Raise e → e = NotFound None).
Proof.
  split; [|split].
  - split.
    + intros (fuel & collected & H).
      apply (proj1 (walk_returns_inv _ _ _ _ _ H)). by apply list_elem_of_singleton.
    + intros Ht. destruct (cart_tree_walk_returns w root Ht) as (fuel0 & coll & H).
      exists fuel0, coll. by apply H.
  - intros f1 f2 c1 c2 H1 H2.
    apply (walk_fuel_le f1 (f1 `max` f2)) in H1; [|lia].
    apply (walk_fuel_le f2 (f1 `max` f2)) in H2; [|lia]. congruence.
  - intros fuel. generalize (@nil ShippingConfigSkel) as acc. generalize [root] as q.
    induction fuel as [|fuel IH]; intros q acc e; simpl.
    + by destruct (deque_pop q) as [[q' k]|].
    + destruct (deque_pop q) as [[q' k]|]; [|done].
      unfold Cart.get_children. destruct (carts w !! k) as [entry|]; simpl.
      * apply IH.
      * by intros [= <-].
Qed.

Lemma walk_returns_exactly_on_a_cart_tree_witness :
  cart_tree nested_world 1%positive
  ∧ (∃ fuel collected, Shipping.walk fuel nested_world [1%positive] [] = Return collected)
  ∧ Shipping.walk 5 dangling_world [1%positive] [] = Raise (NotFound None)
  ∧ ¬ cart_tree dangling_world 1%positive.
Proof.
  split; [exact nested_world_cart_tree|].
  split; [exact (proj2 (proj1 (walk_returns_exactly_on_a_cart_tree nested_world 1%positive))
                   nested_world_cart_tree)|].
  split; [reflexivity|].
  intros Ht.
  apply (proj2 (proj1 (walk_returns_exactly_on_a_cart_tree dangling_world 1%positive))) in Ht
    as (fuel & collected & H).
  assert (H5 : Shipping.walk (fuel `max` 5) dangling_world [1%positive] [] = Return collected)
    by (apply (walk_fuel_le fuel); [lia|done]).
  assert (H5' : Shipping.walk (5 + (fuel `max` 5 - 5)) dangling_world [1%positive] []
                = Raise (NotFound None)) by reflexivity.
  replace (5 + (fuel `max` 5 - 5))%nat with (fuel `max` 5)%nat in H5' by lia.
  congruence.
Defined.

(** ** Carts that are not there *)

(** X20: a cart key that names no cart, be it the key given or the
    session's, is answered with [NotFound] by the three calls of the
    shipping module; when no key is given and the session has no cart, the
    key check of [fromDB] refuses [None] with [NotImplementedError]; in
    both cases [set_shipping_to_cart] writes nothing. *)
Theorem shipping_needs_a_cart (shop : Shop) (fuel : nat) (w : World)
    (cart_key shipping_key : option Key) :
  (∀ k, Shipping.session_default w cart_key = Some k →
        carts w !! k = None →
        Shipping.get_shipping_skels_for_cart fuel w cart_key None = Raise (NotFound None)
        ∧ Shipping.get_available_shipping_skels_for_cart shop fuel w cart_key
          = Raise (NotFound None)
        ∧ Shipping.set_shipping_to_cart shop fuel cart_key shipping_key w
          = (Raise (NotFound None), w))
  ∧ (Shipping.session_default w cart_key = None →
     ∃ msg,
       Shipping.get_shipping_skels_for_cart fuel w cart_key None
       = Raise (NotImplementedError msg)
       ∧ Shipping.get_available_shipping_skels_for_cart shop fuel w cart_key
         = Raise (NotImplementedError msg)
       ∧ Shipping.set_shipping_to_cart shop fuel cart_key shipping_key w
         = (Raise (NotImplementedError msg), w)).
Proof.
  split.
  - intros k Hk Hnone.
    assert (Hload : Shipping.fromDB_or_NotFound w (Shipping.session_default w cart_key)
                    = Raise (NotFound None)).
    { rewrite Hk. unfold Shipping.fromDB_or_NotFound, Cart.fromDB. simpl.
      by rewrite Hnone. }
    assert (Havailable : Shipping.get_available_shipping_skels_for_cart shop fuel w cart_key
                         = Raise (NotFound None)).
    { by rewrite get_available_unfold, Hload. }
    split; [|split; [done|by apply set_shipping_to_cart_raises]].
    unfold Shipping.get_shipping_skels_for_cart, Shipping.deduplicated_shipping_configs,
      Shipping.resolve_cart_key. by rewrite Hload.
  - intros Hk. eexists.
    assert (Hload : Shipping.fromDB_or_NotFound w (Shipping.session_default w cart_key)
                    = Raise (NotImplementedError "Unsupported key type <class 'NoneType'>")).
    { by rewrite Hk. }
    assert (Havailable : Shipping.get_available_shipping_skels_for_cart shop fuel w cart_key
                         = Raise (NotImplementedError
                                    "Unsupported key type <class 'NoneType'>")).
    { by rewrite get_available_unfold, Hload. }
    split; [|split; [done|by apply set_shipping_to_cart_raises]].
    unfold Shipping.get_shipping_skels_for_cart, Shipping.deduplicated_shipping_configs,
      Shipping.resolve_cart_key. by rewrite Hload.
Qed.

Lemma shipping_needs_a_cart_witness :
  (Shipping.get_shipping_skels_for_cart 3 C1_world (Some 9%positive) None
   = Raise (NotFound None)
   ∧ Shipping.get_available_shipping_skels_for_cart shop 3 C1_world (Some 9%positive)
     = Raise (NotFound None)
   ∧ Shipping.set_shipping_to_cart shop 3 (Some 9%positive) (Some 100%positive) C1_world
     = (Raise (NotFound None), C1_world))
  ∧ ∃ msg,
      Shipping.get_shipping_skels_for_cart 3 C1_world None None
      = Raise (NotImplementedError msg)
      ∧ Shipping.get_available_shipping_skels_for_cart shop 3 C1_world None
        = Raise (NotImplementedError msg)
      ∧ Shipping.set_shipping_to_cart shop 3 None (Some 100%positive) C1_world
        = (Raise (NotImplementedError msg), C1_world).
Proof.
  split.
  - exact (proj1 (shipping_needs_a_cart shop 3 C1_world (Some 9%positive)
                    (Some 100%positive)) 9%positive eq_refl eq_refl).
  - exact (proj2 (shipping_needs_a_cart shop 3 C1_world None (Some 100%positive)) eq_refl).
Defined.

(** ** De-duplication, once more *)

Lemma dict_set_keys {V} (d : list (Key * V)) k v :
  (dict_set d k v).*1 = if decide (k ∈ d.*1) then d.*1 else d.*1 ++ [k].
Proof.
  induction d as [|[k0 v0] d IH].
  - destruct (decide (k ∈ (@nil (Key * V)).*1)) as [Hin|_]; [|done].
    by apply elem_of_nil in Hin.
  - cbn [dict_set]. destruct (decide (k0 = k)) as [->|Hne].
    + rewrite !fmap_cons. cbn [fst]. rewrite decide_True; [done|]. by left.
    + rewrite !fmap_cons. cbn [fst]. rewrite IH.
      destruct (decide (k ∈ d.*1)) as [Hin|Hnin].
      * rewrite decide_True; [done|]. by right.
      * rewrite decide_False; [done|].
        intros Hin. apply elem_of_cons in Hin as [->|Hin]; done.
Qed.

Lemma dict_build_keys (l : list ShippingConfigSkel) d :
  (foldl dict_step d l).*1
  = foldl (fun seen k => if decide (k ∈ seen) then seen else seen ++ [k]) d.*1 (key <$> l).
Proof.
  revert d. induction l as [|sc l IH]; intros d; [done|].
  rewrite fmap_cons. cbn [foldl]. rewrite IH. unfold dict_step.
  by rewrite dict_set_keys.
Qed.

(** X21: the configurations kept stand in the order in which their keys
    were first collected. *)
Theorem dedup_by_key_keeps_the_first_places (configs : list ShippingConfigSkel) :
  key <$> Shipping.dedup_by_key configs = first_occurrences (key <$> configs).
Proof.
  unfold Shipping.dedup_by_key, dict_values, first_occurrences.
  change (foldl _ [] configs) with (foldl dict_step [] configs).
  rewrite keyed_fst by (apply dict_build_keyed; constructor).
  by rewrite dict_build_keys.
Qed.

Lemma dict_build_append (l : list ShippingConfigSkel) d :
  Forall (fun kv => kv.1 = key kv.2) d →
  NoDup (d.*1 ++ (key <$> l)) →
  foldl dict_step d l = d ++ ((fun sc => (key sc, sc)) <$> l).
Proof.
  revert d. induction l as [|sc l IH]; intros d Hkeyed Hnd.
  - by rewrite app_nil_r.
  - cbn [foldl]. rewrite fmap_cons in Hnd.
    assert (Hstep : dict_step d sc = d ++ [(key sc, sc)]).
    { apply NoDup_app in Hnd as (_ & Hdisj & _).
      assert (Hnin : key sc ∉ d.*1) by (intros Hin; apply (Hdisj _ Hin); by left).
      clear -Hnin. unfold dict_step. induction d as [|[k v] d IH]; [done|].
      simpl in *. rewrite decide_False by (intros ->; apply Hnin; by left).
      rewrite IH; [done|]. intros Hin. apply Hnin. by right. }
    rewrite Hstep, IH.
    + by rewrite <- app_assoc.
    + apply Forall_app. split; [done|]. by constructor.
    + rewrite fmap_app. simpl. rewrite <- app_assoc. done.
Qed.

(** X22: de-duplication leaves a list whose keys are all different as it
    is, and so de-duplicating twice is de-duplicating once. *)
Theorem dedup_by_key_idempotent (configs : list ShippingConfigSkel) :
  (NoDup (key <$> configs) → Shipping.dedup_by_key configs = configs)
  ∧ Shipping.dedup_by_key (Shipping.dedup_by_key configs) = Shipping.dedup_by_key configs.
Proof.
  assert (Hid : ∀ l : list ShippingConfigSkel,
            NoDup (key <$> l) → Shipping.dedup_by_key l = l).
  { intros l Hnd. unfold Shipping.dedup_by_key, dict_values.
    change (foldl _ [] l) with (foldl dict_step [] l).
    rewrite dict_build_append; [|constructor|done]. simpl.
    rewrite <- list_fmap_compose. apply list_fmap_id. }
  split; [apply Hid|]. apply Hid, dedup_by_key_NoDup.
Qed.

Lemma dedup_by_key_idempotent_witness :
  NoDup (key <$> [SC1; SC2])
  ∧ Shipping.dedup_by_key [SC1; SC2] = [SC1; SC2].
Proof.
  assert (H : NoDup (key <$> [SC1; SC2])).
  { apply NoDup_cons. split; [|apply NoDup_singleton].
    intros Hin. apply list_elem_of_singleton in Hin. discriminate. }
  split; [exact H|].
  exact (proj1 (dedup_by_key_idempotent [SC1; SC2]) H).
Defined.

(** ** The candidates *)

(** X23: the candidates of a cart are the options of the configurations
    kept, one configuration after the other, each option list in its order;
    a configuration without an option list adds none. *)
Theorem candidates_are_the_options_kept (fuel : nat) (w : World)
    (cart_key : option Key) (cart_skel : option CartNodeSkel)
    (configs : list ShippingConfigSkel) :
  Shipping.deduplicated_shipping_configs fuel w cart_key cart_skel = Return configs →
  Shipping.get_shipping_skels_for_cart fuel w cart_key cart_skel
    = Return (configs ≫= fun sc => default [] (shipping sc))
  ∧ ∀ s, s ∈ configs ≫= (fun sc => default [] (shipping sc))
         ↔ ∃ sc options, sc ∈ configs ∧ shipping sc = Some options ∧ s ∈ options.
Proof.
  intros Hconfigs. split.
  - unfold Shipping.get_shipping_skels_for_cart. rewrite Hconfigs. simpl.
    assert (Hbind : ∀ l : list ShippingConfigSkel,
              List.concat (map (fun sc => or_empty (shipping sc)) l)
              = l ≫= fun sc => default [] (shipping sc)).
    { induction l as [|sc l IH]; [done|]. simpl. rewrite IH.
      by destruct (shipping sc) as [[|o os]|]. }
    destruct configs as [|sc l]; [done|]. by rewrite Hbind.
  - intros s. rewrite list_elem_of_bind. split.
    + intros (sc & Hs & Hsc). destruct (shipping sc) as [options|] eqn:Hopt.
      * by exists sc, options.
      * by apply elem_of_nil in Hs.
    + intros (sc & options & Hsc & Hopt & Hs). exists sc. by rewrite Hopt.
Qed.

Lemma candidates_are_the_options_kept_witness :
  Shipping.deduplicated_shipping_configs 1 null_options_world (Some C1) None
    = Return [SC_null; SC2]
  ∧ Shipping.get_shipping_skels_for_cart 1 null_options_world (Some C1) None
    = Return [option_free].
Proof.
  split; [reflexivity|].
  exact (proj1 (candidates_are_the_options_kept 1 null_options_world (Some C1) None
                  [SC_null; SC2] eq_refl)).
Defined.

(** X24.  [choose_shipping_skel_for_article] iterates the configuration's
    option list without a guard.  The call raises exactly when the article
    has a configuration whose option list is [None], and what it raises is
    then the [TypeError] of the iteration; in every other case it returns
    a result.  In particular the [min] over the applicable options never
    sees an empty list. *)
Theorem choose_shipping_raises_exactly_on_null_options (shop : Shop)
    (article_skel : ArticleAbstractSkel) :
  (∀ e, Shipping.choose_shipping_skel_for_article shop article_skel = Raise e
        ↔ e = TypeError "'NoneType' object is not iterable"
          ∧ ∃ config, shop_shipping_config article_skel = Some config
                      ∧ shipping (dest config) = None)
  ∧ ((∃ r, Shipping.choose_shipping_skel_for_article shop article_skel = Return r)
     ↔ ∀ config, shop_shipping_config article_skel = Some config →
                 shipping (dest config) ≠ None).
Proof.
  unfold Shipping.choose_shipping_skel_for_article.
  destruct (shop_shipping_config article_skel) as [config|] eqn:Hconfig.
  - destruct (shipping (dest config)) as [opts|] eqn:Hopts; cbn.
    + set (applicable := filter _ opts).
      assert (∃ r, match applicable with
                   | [] => Return Shipping.PyFalseChoice
                   | _ :: _ =>
                       match py_min Shipping.cost_key applicable with
                       | Some cheapest_shipping => Return (Shipping.Chosen cheapest_shipping)
                       | None => Raise min_empty_error
                       end
                   end = Return r) as [r Hr].
      { destruct applicable as [|s l] eqn:Hf; [by eexists|].
        destruct (py_min_is_Some Shipping.cost_key (s :: l)) as [m Hm]; [done|].
        rewrite Hm. by eexists. }
      rewrite Hr. split.
      * intros e. split; [done|]. intros [_ (config' & Hc & Hn)].
        injection Hc as <-. congruence.
      * split; [|by eexists]. intros _ config' Hc. injection Hc as <-. congruence.
    + split.
      * intros e. split.
        -- intros [= <-]. split; [done|]. by exists config.
        -- by intros [-> _].
      * split; [by intros [r Hr]|]. intros H. by destruct (H config eq_refl).
  - split.
    + intros e. split; [done|]. by intros [_ (config & Hc & _)].
    + split; [done|]. by eexists.
Qed.

Lemma choose_shipping_raises_exactly_on_null_options_witness :
  Shipping.choose_shipping_skel_for_article shop (article 50 SC_null)
  = Raise (TypeError "'NoneType' object is not iterable")
  ∧ ∃ r, Shipping.choose_shipping_skel_for_article shop (article 50 SC2) = Return r.
Proof.
  split.
  - apply (proj2 (proj1 (choose_shipping_raises_exactly_on_null_options shop (article 50 SC_null)) _)).
    split; [reflexivity|]. by exists (mkRelation SC_null None).
  - apply (proj2 (proj2 (choose_shipping_raises_exactly_on_null_options shop (article 50 SC2)))).
    intros config [= <-]. discriminate.
Defined.

(** ** Setting the shipping *)

(** X29: [get_available_shipping_skels_for_cart] flattens the flat list
    of candidates once more, so that its loop meets the keys of the first
    candidate's dict.  For a cart that loads, the call returns exactly when
    the cart has no candidate, and what it returns is the empty list; with
    a candidate it raises [TypeError], whatever the shop holds applicable;
    any other exception is one of the candidates' computation. *)
Theorem available_only_without_candidates (shop : Shop) (fuel : nat) (w : World)
    (cart_key : option Key) (cart_skel : CartNodeSkel) :
  Shipping.fromDB_or_NotFound w (Shipping.session_default w cart_key) = Return cart_skel →
  (∀ applicable_shippings,
     Shipping.get_available_shipping_skels_for_cart shop fuel w cart_key
       = Return applicable_shippings
     ↔ applicable_shippings = []
       ∧ Shipping.get_shipping_skels_for_cart fuel w None (Some cart_skel) = Return [])
  ∧ (∀ s l,
       Shipping.get_shipping_skels_for_cart fuel w None (Some cart_skel) = Return (s :: l) →
       Shipping.get_available_shipping_skels_for_cart shop fuel w cart_key
       = Raise (TypeError "string indices must be integers, not 'str'"))
  ∧ (∀ e,
       Shipping.get_available_shipping_skels_for_cart shop fuel w cart_key = Raise e →
       Shipping.get_shipping_skels_for_cart fuel w None (Some cart_skel) = Raise e
       ∨ e = TypeError "string indices must be integers, not 'str'"
         ∧ ∃ s l, Shipping.get_shipping_skels_for_cart fuel w None (Some cart_skel)
                  = Return (s :: l)).
Proof.
  intros Hload. rewrite get_available_unfold, Hload. simpl.
  destruct (Shipping.get_shipping_skels_for_cart fuel w None (Some cart_skel))
    as [[|s l]| |]; simpl.
  - split; [|split; [done|done]]. intros apps. split; [by intros [= <-]|by intros [-> _]].
  - split; [|split].
    + intros apps. split; [done|by intros [_ ?]].
    + done.
    + intros e [= <-]. right. split; [done|]. by exists s, l.
  - split; [|split; [done|]].
    + intros apps. split; [done|by intros [_ ?]].
    + intros e' [= <-]. by left.
  - split; [|split; done]. intros apps. split; [done|by intros [_ ?]].
Qed.

Lemma available_only_without_candidates_witness :
  Shipping.fromDB_or_NotFound C1_world (Shipping.session_default C1_world (Some C1))
  = Return (mkCartNode C1 None 10 None)
  ∧ Shipping.get_shipping_skels_for_cart 1 C1_world None (Some (mkCartNode C1 None 10 None))
    = Return [option_5; option_3]
  ∧ Shipping.get_available_shipping_skels_for_cart shop 1 C1_world (Some C1)
    = Raise (TypeError "string indices must be integers, not 'str'")
  ∧ Shipping.get_available_shipping_skels_for_cart shop 1 empty_cart_world (Some C1)
    = Return [].
Proof.
  split; [reflexivity|]. split; [reflexivity|]. split.
  - exact (proj1 (proj2 (available_only_without_candidates shop 1 C1_world (Some C1)
                           (mkCartNode C1 None 10 None) eq_refl))
             option_5 [option_3] eq_refl).
  - apply (proj1 (available_only_without_candidates shop 1 empty_cart_world (Some C1)
                    (mkCartNode C1 None 0 None) eq_refl)).
    split; reflexivity.
Defined.

(** X25: [set_shipping_to_cart] never sets a shipping.  Whatever the cart,
    the keys and the shop, the call does not return: it raises, or its walk
    is cut short, and it leaves the world as it was, so that [cart_update]
    is never reached.  When the applicable set is computed, it is empty,
    and the call raises [ValueError] for an omitted key and [NotFound] for
    a given key; an exception of the applicable set is passed on. *)
Theorem set_shipping_to_cart_never_updates (shop : Shop) (fuel : nat) (w : World)
    (cart_key shipping_key : option Key) :
  (∃ o, Shipping.set_shipping_to_cart shop fuel cart_key shipping_key w = (o, w)
        ∧ ∀ u, o ≠ Return u)
  ∧ (∀ applicable_shippings,
       Shipping.get_available_shipping_skels_for_cart shop fuel w cart_key
         = Return applicable_shippings →
       Shipping.set_shipping_to_cart shop fuel cart_key shipping_key w
       = (Raise match shipping_key with
                | None => ValueError "min() arg is an empty sequence"
                | Some _ => NotFound (Some "Provided Shipping key not found")
                end, w))
  ∧ (∀ e,
       Shipping.get_available_shipping_skels_for_cart shop fuel w cart_key = Raise e →
       Shipping.set_shipping_to_cart shop fuel cart_key shipping_key w = (Raise e, w)).
Proof.
  split; [|split].
  - destruct (Shipping.get_available_shipping_skels_for_cart shop fuel w cart_key)
      as [apps|e|] eqn:Happs.
    + eexists. split; [by apply (set_shipping_to_cart_unfold _ _ _ _ _ apps)|done].
    + eexists. split; [by apply set_shipping_to_cart_raises|done].
    + exists OutOfFuel. split; [|done].
      unfold Shipping.set_shipping_to_cart, bind, read.
      by rewrite get_available_session_default, Happs.
  - intros apps Happs. rewrite (set_shipping_to_cart_unfold _ _ _ _ _ apps Happs).
    by destruct shipping_key.
  - intros e. apply set_shipping_to_cart_raises.
Qed.

Lemma set_shipping_to_cart_never_updates_witness :
  Shipping.get_available_shipping_skels_for_cart shop 1 empty_cart_world (Some C1)
  = Return []
  ∧ Shipping.set_shipping_to_cart shop 1 (Some C1) None empty_cart_world
    = (Raise (ValueError "min() arg is an empty sequence"), empty_cart_world)
  ∧ Shipping.set_shipping_to_cart shop 1 (Some C1) (Some 100%positive) empty_cart_world
    = (Raise (NotFound (Some "Provided Shipping key not found")), empty_cart_world)
  ∧ Shipping.set_shipping_to_cart shop 1 (Some C1) (Some 100%positive) C1_world
    = (Raise (TypeError "string indices must be integers, not 'str'"), C1_world).
Proof.
  split; [reflexivity|]. split; [|split].
  - exact (proj1 (proj2 (set_shipping_to_cart_never_updates shop 1 empty_cart_world
                           (Some C1) None)) [] eq_refl).
  - exact (proj1 (proj2 (set_shipping_to_cart_never_updates shop 1 empty_cart_world
                           (Some C1) (Some 100%positive))) [] eq_refl).
  - exact (proj2 (proj2 (set_shipping_to_cart_never_updates shop 1 C1_world
                           (Some C1) (Some 100%positive))) _ eq_refl).
Defined.

(** ** [constants.py] *)

Lemma string_of_list_ascii_app (v : string) (l : list ascii) :
  String.string_of_list_ascii (String.list_ascii_of_string v ++ l)
  = (v ++ String.string_of_list_ascii l)%string.
Proof. induction v as [|c v IH]; [done|]. simpl. by rewrite IH. Qed.

Lemma repr_char_plain (c : ascii) : plain c → repr_char "'"%char c = [c].
Proof.
  intros (Hprintable & Hquote & Hbackslash). unfold repr_char.
  rewrite decide_False by done. rewrite decide_False by done.
  rewrite Hprintable.
  apply bool_decide_eq_true in Hprintable.
  repeat (destruct (decide _) as [E|_]; [lia|]). done.
Qed.

Lemma py_repr_plain (v : string) : plain_text v → py_repr v = String "'"%char (v ++ "'")%string.
Proof.
  intros Hplain. unfold py_repr, plain_text in *.
  rewrite bool_decide_false; cycle 1.
  { intros [Hin _]. rewrite Forall_forall in Hplain.
    by destruct (Hplain _ Hin) as (_ & Hquote & _). }
  assert (Hbind : String.list_ascii_of_string v ≫= repr_char "'"%char
                  = String.list_ascii_of_string v).
  { induction Hplain as [|c l Hc Hl IH]; [done|].
    rewrite bind_cons, IH. by rewrite repr_char_plain. }
  rewrite Hbind. simpl. by rewrite string_of_list_ascii_app.
Qed.

Lemma append_assoc_string (a b c : string) : ((a ++ b) ++ c = a ++ (b ++ c))%string.
Proof.
  induction a as [|x a IH]; [done|].
  change (String x ((a ++ b) ++ c) = String x (a ++ (b ++ c)))%string. by rewrite IH.
Qed.

(** X26: the values of the members of each enumeration are all different,
    so every member is found again under its value, a member found under
    a value has that value, and a text that is no member's value raises
    [ValueError] with the [repr] of the text in its message; for a text of
    printable characters without single quote and backslash that is the
    text between single quotes. *)
Theorem enum_values_round_trip :
  (∀ a, ArticleAvailability_of_value (ArticleAvailability_value a) = Return a)
  ∧ (∀ v a, ArticleAvailability_of_value v = Return a → ArticleAvailability_value a = v)
  ∧ (∀ c, CartType_of_value (CartType_value c) = Return c)
  ∧ (∀ v c, CartType_of_value v = Return c → CartType_value c = v)
  ∧ (∀ v, (∀ c, CartType_value c ≠ v) →
          CartType_of_value v
          = Raise (ValueError (py_repr v ++ " is not a valid CartType")))
  ∧ (∀ v, (∀ c, CartType_value c ≠ v) → plain_text v →
          CartType_of_value v
          = Raise (ValueError ("'" ++ v ++ "' is not a valid CartType"))).
Proof.
  assert (Hmissing : ∀ v, (∀ c, CartType_value c ≠ v) →
            CartType_of_value v
            = Raise (ValueError (py_repr v ++ " is not a valid CartType"))).
  { intros v Hv. unfold CartType_of_value, enum_of_value. simpl.
    by rewrite (bool_decide_false _ (Hv WISHLIST)), (bool_decide_false _ (Hv BASKET)). }
  split; [by intros []|]. split.
  { intros v a. unfold ArticleAvailability_of_value, enum_of_value.
    destruct (find _ _) as [m|] eqn:Hfind; [|done]. intros [= <-].
    apply find_some in Hfind as [_ H]. by apply bool_decide_eq_true in H. }
  split; [by intros []|]. split.
  { intros v c. unfold CartType_of_value, enum_of_value.
    destruct (find _ _) as [m|] eqn:Hfind; [|done]. intros [= <-].
    apply find_some in Hfind as [_ H]. by apply bool_decide_eq_true in H. }
  split; [done|].
  intros v Hv Hplain. rewrite (Hmissing v Hv), (py_repr_plain v Hplain).
  do 2 f_equal.
  change (String "'" ((v ++ "'") ++ " is not a valid CartType")
          = String "'" (v ++ ("'" ++ " is not a valid CartType")))%string.
  by rewrite append_assoc_string.
Qed.

Lemma enum_values_round_trip_witness :
  plain_text "wish list"
  ∧ CartType_of_value "wish list"
    = Raise (ValueError "'wish list' is not a valid CartType")
  ∧ CartType_of_value "it's"
    = Raise (ValueError (String double_quote "it's" ++ String double_quote ""
                         ++ " is not a valid CartType")).
Proof.
  assert (Hplain : plain_text "wish list").
  { unfold plain_text. simpl. repeat constructor; discriminate. }
  split; [exact Hplain|]. split.
  - apply (proj2 (proj2 (proj2 (proj2 (proj2 enum_values_round_trip))))); [|exact Hplain].
    intros []; discriminate.
  - rewrite (proj1 (proj2 (proj2 (proj2 (proj2 enum_values_round_trip)))) "it's");
      [reflexivity|]. intros []; discriminate.
Defined.

(** ** Validation, once more *)

(** X27: an order that fails [can_order] gets the whole list of failures
    back from [checkout_order] with status 400 and nothing is written; the
    list says first that the order is already ordered, then that the cart
    is missing, then what the payment provider has against it or that none
    is named. *)
Theorem checkout_order_reports_all_failures (shop : Shop) (arg : PyArg) (w : World)
    (k : Key) (skel : OrderSkel) (errors : list string) :
  _normalize_external_key shop arg "order_key" = Return (PyKey k) →
  Order.fromDB w k = Some skel →
  Order.can_order shop skel = Return errors →
  errors ≠ [] →
  Order.checkout_order shop arg w = (Return (Order.JsonErrors errors 400), w)
  ∧ ∃ payment_errors,
      errors = (if is_ordered skel then ["already is_ordered"] else [])
               ++ missing_cart_errors skel ++ payment_errors
      ∧ ((Order.truthy_str (payment_provider skel) = None
          ∧ payment_errors = ["missing payment_provider"])
         ∨ (∃ name pp, Order.truthy_str (payment_provider skel) = Some name
              ∧ Order.get_payment_provider_by_name shop name = Return pp
              ∧ payment_errors = PaymentProviderAbstract.can_order pp skel)).
Proof.
  intros Hnorm Hload Herrors Hne. split.
  - rewrite (checkout_order_steps _ _ _ _ _ Hnorm Hload), Herrors. by destruct errors.
  - by apply can_order_errors.
Qed.

Lemma checkout_order_reports_all_failures_witness :
  Order.fromDB ordered_world 7 = Some ordered_order
  ∧ Order.can_order two_invoice_shop (Order.set_cart None ordered_order)
    = Return ["already is_ordered"; "missing cart"]
  ∧ Order.checkout_order shop (PyKey 7) ordered_world
    = (Return (Order.JsonErrors ["already is_ordered"] 400), ordered_world).
Proof.
  split; [reflexivity|]. split; [reflexivity|].
  apply (checkout_order_reports_all_failures shop (PyKey 7) ordered_world 7 ordered_order
           ["already is_ordered"]); try reflexivity.
  discriminate.
Defined.

(** X28: an empty provider name counts as no provider: both validations
    report "missing payment_provider" for it and never look the name up,
    so a provider registered under the empty name cannot be used. *)
Theorem empty_provider_name_is_missing (shop : Shop) (skel : OrderSkel) :
  payment_provider skel = Some "" →
  Order.can_checkout shop skel
    = Return (missing_cart_errors skel ++ ["missing payment_provider"])
  ∧ Order.can_order shop skel
    = Return ((if is_ordered skel then ["already is_ordered"] else [])
              ++ missing_cart_errors skel ++ ["missing payment_provider"]).
Proof.
  intros Hpp. unfold Order.can_checkout, Order.can_order, missing_cart_errors.
  rewrite Hpp. simpl. by destruct (cart skel), (is_ordered skel).
Qed.

Lemma empty_provider_name_is_missing_witness :
  payment_provider (Order.set_payment_provider (Some "") draft_order) = Some ""
  ∧ Order.can_checkout
      (mkShop [PaymentProviderAbstract.mk "" (fun _ => []) (fun _ => [])]
         (is_applicable shop) (_normalize_external_key shop))
      (Order.set_payment_provider (Some "") draft_order)
    = Return ["missing payment_provider"].
Proof.
  split; [reflexivity|].
  exact (proj1 (empty_provider_name_is_missing
                  (mkShop [PaymentProviderAbstract.mk "" (fun _ => []) (fun _ => [])]
                     (is_applicable shop) (_normalize_external_key shop))
                  (Order.set_payment_provider (Some "") draft_order) eq_refl)).
Defined.

Lemma order_add_returns_witness :
  Cart.is_valid_node session_world C1 true = true
  ∧ addresses session_world !! 6%positive = Some BILLING
  ∧ (∃ skel w',
       Order.order_add (PyKey C1) Unset (Given (PyKey 6)) Unset (Given (PyKey 40)) Unset Unset
         Unset session_world = (Return skel, w'))
  ∧ ∃ msg,
      Order.order_add (PyKey C1) Unset (Given (PyKey 6)) Unset (Given PyNone) Unset Unset
        Unset session_world = (Raise (ValueError msg), session_world).
Proof.
  split; [reflexivity|]. split; [reflexivity|]. split.
  - apply (order_add_returns C1 Unset (Given (PyKey 6)) Unset (Given (PyKey 40)) Unset Unset
             Unset session_world).
    + reflexivity.
    + right. right. exists 6%positive. split; reflexivity.
    + right. by exists 40%positive.
  - apply (order_add_returns C1 Unset (Given (PyKey 6)) Unset (Given PyNone) Unset Unset
             Unset session_world).
    + reflexivity.
    + right. right. exists 6%positive. split; reflexivity.
    + reflexivity.
Defined.
